(** * NRV results layer: [fascicle_results] and [myelinated_results]

    Shallow embedding of
      - src/nrv/nmod/results/_fascicles_results.py
      - src/nrv/nmod/results/_myelinated_results.py

    Conventions.
      - Python [str] is [string]; keys are taken to be ASCII, so that
        [str.isdigit] on a character is the test '0'..'9'.
      - Python [int] is [Z]; lengths and counters that only grow from 0 are
        [nat].
      - Python/numpy floats are exact rationals [Q]: every float is a
        rational, comparisons are exact, and arithmetic is modelled without
        rounding.  [np.pi] is the double nearest to pi, itself a rational.
      - A raised exception is the [Raise] branch of [result]; logged
        warnings are accumulated in a list of messages. *)

From Stdlib Require Import List String Ascii Bool Arith ZArith QArith Qabs Lia Permutation.
Import ListNotations.
Open Scope string_scope.

(** ** Python runtime *)

Module Py.

Inductive exn : Type :=
| NRV_Error (msg : string)
| KeyError (key : string)
| AttributeError (attr : string)
| IndexError
| TypeError
| ZeroDivisionError
| ValueError (msg : string).

Inductive result (A : Type) : Type :=
| Ok (a : A)
| Raise (e : exn).
Arguments Ok {A} a.
Arguments Raise {A} e.

Definition bind {A B} (m : result A) (k : A -> result B) : result B :=
  match m with
  | Ok a => k a
  | Raise e => Raise e
  end.

(** Dynamically typed values that the code compares with [==]. *)
Inductive pyval : Type :=
| PyNone
| PyBool (b : bool)
| PyInt (z : Z).

(** [v == True] / [v == False]: [bool] is a subclass of [int]. *)
Definition eq_bool (v : pyval) (b : bool) : bool :=
  match v with
  | PyNone => false
  | PyBool c => Bool.eqb c b
  | PyInt z => Z.eqb z (if b then 1 else 0)
  end.

(** [sub in s] on strings. *)
Fixpoint str_in (sub s : string) : bool :=
  String.prefix sub s
  || match s with
     | EmptyString => false
     | String _ s' => str_in sub s'
     end.

Definition isdigit (c : ascii) : bool :=
  (48 <=? nat_of_ascii c)%nat && (nat_of_ascii c <=? 57)%nat.

(** [any(p(c) for c in s)]. *)
Fixpoint any_char (p : ascii -> bool) (s : string) : bool :=
  match s with
  | EmptyString => false
  | String c s' => p c || any_char p s'
  end.

(** [x in l] for a list of strings. *)
Definition str_in_list (x : string) (l : list string) : bool :=
  existsb (String.eqb x) l.

(** A list comprehension [[i for i in l if p(i)]] whose condition may
    raise: conditions are evaluated left to right, the first exception
    aborts the comprehension. *)
Fixpoint filterM {A} (p : A -> result bool) (l : list A) : result (list A) :=
  match l with
  | [] => Ok []
  | x :: xs =>
      bind (p x) (fun b =>
      bind (filterM p xs) (fun r =>
      Ok (if b then x :: r else r)))
  end.

(** [l[i]] on a list: negative indices count from the end. *)
Definition getitem_list {A} (l : list A) (i : Z) : result A :=
  let len := Z.of_nat (List.length l) in
  let j := if (i <? 0)%Z then (i + len)%Z else i in
  if ((0 <=? j) && (j <? len))%Z
  then match nth_error l (Z.to_nat j) with
       | Some a => Ok a
       | None => Raise IndexError
       end
  else Raise IndexError.

(** Computations that may emit warnings, kept in emission order, and may
    raise; what was emitted before a raise stays emitted. *)
Definition W (A : Type) : Type := list string -> result A * list string.

Definition wret {A} (a : A) : W A := fun log => (Ok a, log).

Definition wbind {A B} (m : W A) (k : A -> W B) : W B :=
  fun log =>
    match m log with
    | (Ok a, log') => k a log'
    | (Raise e, log') => (Raise e, log')
    end.

Definition lift {A} (r : result A) : W A := fun log => (r, log).

End Py.
Import Py.

Declare Scope py_scope.
Delimit Scope py_scope with py.
Notation "x <- m ;; k" := (Py.bind m (fun x => k))
  (at level 100, m at next level, right associativity) : py_scope.
Notation "m ;;; k" := (Py.bind m (fun _ => k))
  (at level 100, right associativity) : py_scope.
Notation "x <~ m ;; k" := (Py.wbind m (fun x => k))
  (at level 100, m at next level, right associativity) : py_scope.
Notation "m ;;~ k" := (Py.wbind m (fun _ => k))
  (at level 100, right associativity) : py_scope.
Open Scope py_scope.

(** ** backend.log_interface *)

Module Log.

(** Modelled from the spec: [rise_error] of backend/log_interface.py, whose
    source is not among the files embedded here.  The spec classes an unrecognised
    [ax_type] as a fatal input error that "must stop the call immediately
    (raise)": [rise_error] raises, carrying its message. *)
Definition rise_error {A} (msg : string) : result A :=
  Raise (NRV_Error msg).

(** Modelled from the spec: [rise_warning] of backend/_log_interface.py,
    whose source is not among the files embedded here.  The spec describes a non-fatal
    logged warning: the message is appended to the log and control
    returns to the caller. *)
Definition rise_warning (msg : string) (log : list string) : list string :=
  (log ++ [msg])%list.

End Log.
Import Log.

(** ** utils.units, utils.misc, fmod.materials: interfaces *)

(** The results code calls three functions of the units module, on scalars
    and elementwise on arrays; they are taken as given.  Unit names are the
    strings the callers pass. *)
Class UnitsModule : Type := {
  convert : Q -> string -> string -> Q;
  to_nrv_unit : Q -> string -> Q;
  from_nrv_unit : Q -> string -> Q
}.

(** [utils.misc.membrane_capacitance_from_model]: surface capacitance of a
    membrane model, by model name. *)
Class MiscModule : Type := {
  membrane_capacitance_from_model : string -> Q
}.

Record material : Type := mk_material { sigma : Q }.

(** [fmod.materials.load_material]: the material registered under a name. *)
Class MaterialsModule : Type := {
  load_material : string -> material
}.

(** ** numpy scalars *)

Module Np.

(** A float64 as far as the plotting code can produce one: a finite
    value, an infinity or a nan. *)
Inductive float64 : Type :=
| Fin (q : Q)
| PInf
| NInf
| NaN.

Definition divide_by_zero : string := "divide by zero encountered".

(** [1 / m] for an integer scalar [m]: a zero divisor gives [inf] and a
    RuntimeWarning, it does not raise. *)
Definition reciprocal (m : Z) : W float64 :=
  fun warnings =>
    if (m =? 0)%Z then (Ok PInf, (warnings ++ [divide_by_zero])%list)
    else (Ok (Fin (1 / inject_Z m)), warnings).

(** [n * a] for a Python int [n] and a float64 [a]. *)
Definition mul_int (n : Z) (a : float64) : float64 :=
  match a with
  | Fin q => Fin (inject_Z n * q)
  | PInf => if (0 <? n)%Z then PInf else if (n <? 0)%Z then NInf else NaN
  | NInf => if (0 <? n)%Z then NInf else if (n <? 0)%Z then PInf else NaN
  | NaN => NaN
  end.

(** [np.max] of a list of integers; the empty reduction raises. *)
Definition max (l : list Z) : result Z :=
  match l with
  | [] => Raise (ValueError "zero-size array to reduction operation maximum which has no identity")
  | x :: xs => Ok (fold_left Z.max xs x)
  end.

Definition invalid_value : string := "invalid value encountered".

(** [x / y] on two finite float64 values, as numpy computes it inside an
    array division: a zero divisor does not raise, it gives an infinity
    with the sign of [x], and a nan for [0 / 0].  The zero of [Q] stands
    for the positive zero. *)
Definition true_divide (x y : Q) : float64 :=
  if Qeq_bool y 0 then
    match (x ?= 0)%Q with
    | Gt => PInf
    | Lt => NInf
    | Eq => NaN
    end
  else Fin (x / y).

(** [np.pi]: the double 0x1.921fb54442d18p+1. *)
Definition pi : Q := 884279719003555 # 281474976710656.

(** [np.isclose(a, b)] with the default tolerances
    [rtol = 1e-05], [atol = 1e-08]. *)
Definition isclose (a b : Q) : bool :=
  Qle_bool (Qabs (a - b)) ((1 # 100000000) + (1 # 100000) * Qabs b).

End Np.

(** ** utils.units on float64 arrays *)

(** [to_nrv_unit] is also applied to arrays that a division has filled:
    what it returns for an infinity or a nan is taken as given too. *)
Class UnitsOfNonFinite : Type := {
  to_nrv_unit_nonfinite : Np.float64 -> string -> Np.float64
}.

(** [to_nrv_unit(v, unit)] for one entry [v] of a float64 array. *)
Definition to_nrv_unit_float `{UnitsModule} `{UnitsOfNonFinite}
    (v : Np.float64) (unit : string) : Np.float64 :=
  match v with
  | Np.Fin q => Np.Fin (to_nrv_unit q unit)
  | _ => to_nrv_unit_nonfinite v unit
  end.

(** ** _axons_results.py: the interface the fascicle code relies on *)

(** The axon result classes are consumed through attribute reads and three
    methods.  [block_summary] writes [is_blocked] and [n_onset] onto the
    axon: it returns the updated axon. *)
Class AxonResults (axon : Type) : Type := {
  myelinated : axon -> pyval;
  diameter : axon -> Q;
  y : axon -> Q;
  z : axon -> Q;
  is_recruited : axon -> bool;
  block_summary : axon -> Q -> option Q -> Q -> axon;
  is_blocked : axon -> option bool;
  n_onset : axon -> Z;
  axon_get_membrane_conductivity : axon -> Q -> Q -> string -> Q -> option Q
}.

(** ** _fascicles_results.py *)

Module Fascicle.
Section Fascicle.

Context {axon : Type} `{AxonResults axon}.
Context `{UnitsModule} `{MiscModule}.

Definition number_in_str (s : string) : bool := any_char isdigit s.

Definition recognized_axon_types : list string :=
  ["all"; "myelinated"; "unmyelinated"].

(** Values stored in the fascicle dictionary: axon entries, the two
    parameter groups (of which only ["model"] is read), floats, float
    arrays, the stimulation context, and other plain values. *)
Inductive entry : Type :=
| EAxon (a : axon)
| EParam (model : string)
| EFloat (q : Q)
| EArray (l : list Q)
| EStim
| EOther (v : pyval).

(** The result container is an insertion-ordered dictionary. *)
Definition fascicle_results : Type := list (string * entry).

Definition keys (self : fascicle_results) : list string := map fst self.

Fixpoint lookup (k : string) (self : fascicle_results) : option entry :=
  match self with
  | [] => None
  | (k', e) :: rest => if String.eqb k k' then Some e else lookup k rest
  end.

(** [self[k]] *)
Definition getitem (self : fascicle_results) (k : string) : result entry :=
  match lookup k self with
  | Some e => Ok e
  | None => Raise (KeyError k)
  end.

(** [self.name] *)
Definition getattr (self : fascicle_results) (name : string) : result entry :=
  match lookup name self with
  | Some e => Ok e
  | None => Raise (AttributeError name)
  end.

(** [self[k].attr] or [self[k].attr(...)] for an attribute that only
    axon results have: gives the axon to read it from. *)
Definition axon_of (attr : string) (self : fascicle_results) (k : string)
  : result axon :=
  e <- getitem self k ;;
  match e with
  | EAxon a => Ok a
  | _ => Raise (AttributeError attr)
  end.

Definition as_float (e : entry) : result Q :=
  match e with
  | EFloat q => Ok q
  | _ => Raise TypeError
  end.

Definition as_array (e : entry) : result (list Q) :=
  match e with
  | EArray l => Ok l
  | _ => Raise TypeError
  end.

Definition is_axon_key (i : string) : bool :=
  str_in "axon" i && number_in_str i.

Definition get_axons_key (self : fascicle_results) (ax_type : string)
  : result (list string) :=
  (if negb (str_in_list ax_type recognized_axon_types)
   then rise_error
          "Axon type specified not recognized. Recognized types are: ['all', 'myelinated', 'unmyelinated']"
   else Ok tt) ;;;
  let all_keys := keys self in
  let axon_keys := filter is_axon_key all_keys in
  if negb (String.eqb ax_type "all") then
    if String.eqb ax_type "unmyelinated" then
      filterM (fun i => a <- axon_of "myelinated" self i ;;
                        Ok (eq_bool (myelinated a) false)) axon_keys
    else
      filterM (fun i => a <- axon_of "myelinated" self i ;;
                        Ok (eq_bool (myelinated a) true)) axon_keys
  else Ok axon_keys.

Definition get_n_ax (self : fascicle_results) (ax_type : string) : result nat :=
  ks <- get_axons_key self ax_type ;;
  Ok (List.length ks).

(** [int | float]: the count, or the ratio after [n_recr /= n_tot]. *)
Inductive int_or_float : Type :=
| Int (n : nat)
| Float (q : Q).

(** [n /= d] on two ints: true division. *)
Definition truediv (n d : nat) : result Q :=
  if (d =? 0)%nat then Raise ZeroDivisionError
  else Ok (inject_Z (Z.of_nat n) / inject_Z (Z.of_nat d)).

Definition Qgt_bool (a b : Q) : bool :=
  match (a ?= b)%Q with Gt => true | _ => false end.

Definition Qlt_bool (a b : Q) : bool :=
  match (a ?= b)%Q with Lt => true | _ => false end.

(** Loop of [get_recruited_axons_greater_than] over the remaining keys,
    from the current [(n_recr, n_tot)]. *)
Fixpoint greater_than_loop (self : fascicle_results) (diam : Q)
    (axons_keys : list string) (n_recr n_tot : nat) : result (nat * nat) :=
  match axons_keys with
  | [] => Ok (n_recr, n_tot)
  | axon_k :: rest =>
      a <- axon_of "diameter" self axon_k ;;
      if Qgt_bool (diameter a) diam then
        a' <- axon_of "is_recruited" self axon_k ;;
        if is_recruited a'
        then greater_than_loop self diam rest (S n_recr) (S n_tot)
        else greater_than_loop self diam rest n_recr (S n_tot)
      else greater_than_loop self diam rest n_recr n_tot
  end.

Definition get_recruited_axons_greater_than (self : fascicle_results)
    (diam : Q) (ax_type : string) (normalize : bool) : result int_or_float :=
  axons_keys <- get_axons_key self ax_type ;;
  c <- greater_than_loop self diam axons_keys 0 0 ;;
  let '(n_recr, n_tot) := c in
  if normalize then
    r <- truediv n_recr n_tot ;;
    Ok (Float r)
  else Ok (Int n_recr).

Fixpoint lesser_than_loop (self : fascicle_results) (diam : Q)
    (axons_keys : list string) (n_recr n_tot : nat) : result (nat * nat) :=
  match axons_keys with
  | [] => Ok (n_recr, n_tot)
  | axon_k :: rest =>
      a <- axon_of "diameter" self axon_k ;;
      if Qlt_bool (diameter a) diam then
        a' <- axon_of "is_recruited" self axon_k ;;
        if is_recruited a'
        then lesser_than_loop self diam rest (S n_recr) (S n_tot)
        else lesser_than_loop self diam rest n_recr (S n_tot)
      else lesser_than_loop self diam rest n_recr n_tot
  end.

Definition get_recruited_axons_lesser_than (self : fascicle_results)
    (diam : Q) (ax_type : string) (normalize : bool) : result int_or_float :=
  axons_keys <- get_axons_key self ax_type ;;
  c <- lesser_than_loop self diam axons_keys 0 0 ;;
  let '(n_recr, n_tot) := c in
  if normalize then
    r <- truediv n_recr n_tot ;;
    Ok (Float r)
  else Ok (Int n_recr).

(** The six lists built by [get_block_summary_axons]. *)
Record block_lists : Type := mk_block_lists {
  axon_diam : list Q;
  axon_type : list pyval;
  axon_y : list Q;
  axon_z : list Q;
  blocked : list (option bool);
  onsets : list Z
}.

(** Loop of [get_block_summary_axons].  [block_summary] updates the axon
    in place and the following reads see the updated axon [a']. *)
Fixpoint block_summary_loop (self : fascicle_results) (AP_start : Q)
    (freq : option Q) (t_refractory : Q) (axons_keys : list string)
    (acc : block_lists) : result block_lists :=
  match axons_keys with
  | [] => Ok acc
  | axon_k :: rest =>
      a <- axon_of "block_summary" self axon_k ;;
      let a' := block_summary a AP_start freq t_refractory in
      block_summary_loop self AP_start freq t_refractory rest
        {| blocked := (blocked acc ++ [is_blocked a'])%list;
           onsets := (onsets acc ++ [n_onset a'])%list;
           axon_y := (axon_y acc ++ [y a'])%list;
           axon_z := (axon_z acc ++ [z a'])%list;
           axon_diam := (axon_diam acc ++ [diameter a'])%list;
           axon_type := (axon_type acc ++ [myelinated a'])%list |}
  end.

Definition get_block_summary_axons (self : fascicle_results) (AP_start : Q)
    (freq : option Q) (t_refractory : Q) : result block_lists :=
  axons_keys <- get_axons_key self "all" ;;
  block_summary_loop self AP_start freq t_refractory axons_keys
    (mk_block_lists [] [] [] [] [] []).

(** Loop of [get_membrane_conductivity]: [g] holds the samples gathered
    so far; the first unavailable sample returns [None]. *)
Fixpoint membrane_conductivity_loop (self : fascicle_results) (x t : Q)
    (unit : string) (mem_th : Q) (a_keys : list string) (g : list Q)
  : result (option (list Q)) :=
  match a_keys with
  | [] => Ok (Some g)
  | key :: rest =>
      a <- axon_of "get_membrane_conductivity" self key ;;
      match axon_get_membrane_conductivity a x t unit mem_th with
      | Some g_ => membrane_conductivity_loop self x t unit mem_th rest (g ++ [g_])%list
      | None => Ok None
      end
  end.

Definition get_membrane_conductivity (self : fascicle_results) (x t : Q)
    (unit : string) (mem_th : Q) : result (option (list Q)) :=
  a_keys <- get_axons_key self "all" ;;
  membrane_conductivity_loop self x t unit mem_th a_keys [].

(** [self.<group>["model"]] *)
Definition param_model (self : fascicle_results) (group : string) : result string :=
  e <- getattr self group ;;
  match e with
  | EParam model => Ok model
  | _ => Raise TypeError
  end.

Definition get_membrane_capacitance (self : fascicle_results)
    (unit : string) (mem_th : Q) : result (Q * Q) :=
  um <- param_model self "unmyelinated_param" ;;
  let u_c_mem := membrane_capacitance_from_model um in
  mm <- param_model self "myelinated_param" ;;
  let m_c_mem := membrane_capacitance_from_model mm in
  if str_in "2" unit then
    Ok (convert u_c_mem "S/cm**2" unit, convert m_c_mem "S/cm**2" unit)
  else
    let u_c_mem := u_c_mem * from_nrv_unit mem_th "cm" in
    let m_c_mem := m_c_mem * from_nrv_unit mem_th "cm" in
    Ok (convert u_c_mem "S/cm" unit, convert m_c_mem "S/cm" unit).

(** *** Rendering

    The matplotlib axes only receive calls; the calls are recorded in
    order.  A [Circle] is the patch handed to [axes.add_patch]. *)
Inductive draw : Type :=
| Circle (cy cz radius : Q) (color : string) (fill : bool)
         (alpha : option Np.float64) (linewidth : option Z)
| Scatter (py pz : Q) (marker : string) (s : Z) (c : string)
| StimPlot (color : string) (nerve_d : Q)
| Text (ty tz : Q) (k : nat)
| SetXlim (lo hi : Q)
| SetYlim (lo hi : Q).

(** Body of the loop [for k, _ in enumerate(axon_diam)] of
    [plot_block_summary], for the indices [ks] still to visit. *)
Fixpoint block_patches_loop (l : block_lists) (alpha_g : Np.float64)
    (ks : list nat) : result (list draw) :=
  match ks with
  | [] => Ok []
  | k :: rest =>
      let i := Z.of_nat k in
      b <- getitem_list (blocked l) i ;;
      n <- getitem_list (onsets l) i ;;
      yk <- getitem_list (axon_y l) i ;;
      zk <- getitem_list (axon_z l) i ;;
      dk <- getitem_list (axon_diam l) i ;;
      let '(c, alpha, mark) :=
        match b with
        | Some true =>
            if (n =? 0)%Z then ("seagreen", Np.Fin 1, [])
            else ("steelblue", Np.mul_int n alpha_g, [])
        | _ =>
            let '(c, alpha) :=
              if (n =? 0)%Z then ("grey", Np.Fin (1 # 2))
              else ("orangered", Np.mul_int n alpha_g) in
            (c, alpha,
             match b with
             | None => [Scatter yk zk "x" 20 "k"]
             | Some _ => []
             end)
        end in
      more <- block_patches_loop l alpha_g rest ;;
      Ok (mark ++ Circle yk zk (dk / 2) c true (Some alpha) None :: more)%list
  end.

Definition float_attr (self : fascicle_results) (name : string) : result Q :=
  e <- getattr self name ;; as_float e.

Definition array_attr (self : fascicle_results) (name : string)
  : result (list Q) :=
  e <- getattr self name ;; as_array e.

(** [for k in range(self.n_ax): axes.text(self.axons_y[k], self.axons_z[k], str(k))];
    the label is kept as the index itself. *)
Fixpoint numbering_loop (self : fascicle_results) (ks : list nat)
  : result (list draw) :=
  match ks with
  | [] => Ok []
  | k :: rest =>
      ys <- array_attr self "axons_y" ;;
      yk <- getitem_list ys (Z.of_nat k) ;;
      zs <- array_attr self "axons_z" ;;
      zk <- getitem_list zs (Z.of_nat k) ;;
      more <- numbering_loop self rest ;;
      Ok (Text yk zk k :: more)
  end.

(** [self.n_ax] *)
Definition n_ax (self : fascicle_results) : result nat :=
  d <- array_attr self "axons_diameter" ;;
  Ok (List.length d).

(** [plot_block_summary]: the calls received by [axes], in order; the
    emitted warnings are the numpy runtime warnings.  [master] is the
    answer of [MCH.do_master_only_work()]. *)
Definition plot_block_summary (master : bool) (self : fascicle_results)
    (AP_start : Q) (freq : option Q) (t_refractory : Q)
    (contour_color : string) (num : bool) : W (list draw) :=
  if master then
    yc <~ lift (float_attr self "y_grav_center") ;;
    zc <~ lift (float_attr self "z_grav_center") ;;
    D <~ lift (float_attr self "D") ;;
    let contour := Circle yc zc (D / 2) contour_color false None (Some 2%Z) in
    l <~ lift (get_block_summary_axons self AP_start freq t_refractory) ;;
    m <~ lift (Np.max (onsets l)) ;;
    alpha_g <~ Np.reciprocal m ;;
    patches <~ lift (block_patches_loop l alpha_g
                       (seq 0 (List.length (axon_diam l)))) ;;
    stim <~ lift (e <- getattr self "extra_stim" ;;
                  match e with
                  | EOther PyNone => Ok []
                  | EStim => Ok [StimPlot "gold" D]
                  | _ => Raise (AttributeError "plot")
                  end) ;;
    texts <~ lift (if num then
                     n <- n_ax self ;;
                     numbering_loop self (seq 0 n)
                   else Ok []) ;;
    wret (contour :: patches ++ stim ++ texts
            ++ [SetXlim (- (11 # 10) * D / 2 + yc) ((11 # 10) * D / 2 + yc);
                SetYlim (- (11 # 10) * D / 2 + zc) ((11 # 10) * D / 2 + zc)])%list
  else wret [].

(** *** Data-model invariants of a fascicle result

    Every key selected as an axon key resolves to an axon entry
    ([axon_entries_ok]), whose [myelinated] tag is a boolean
    ([boolean_tagged]). *)
Definition axon_keys (self : fascicle_results) : list string :=
  filter is_axon_key (keys self).

Definition axon_entries_ok (self : fascicle_results) : bool :=
  forallb (fun k => match lookup k self with
                    | Some (EAxon _) => true
                    | _ => false
                    end) (axon_keys self).

Definition boolean_tagged (self : fascicle_results) : bool :=
  forallb (fun k => match lookup k self with
                    | Some (EAxon a) =>
                        match myelinated a with
                        | PyBool _ => true
                        | _ => false
                        end
                    | _ => false
                    end) (axon_keys self).

(** The axon stored under a key, when there is one. *)
Definition axon_at (self : fascicle_results) (k : string) : option axon :=
  match lookup k self with
  | Some (EAxon a) => Some a
  | _ => None
  end.

(** [self[k].myelinated == b] as a pure test, when [k] is an axon. *)
Definition tag_is (self : fascicle_results) (b : bool) (k : string) : bool :=
  match axon_at self k with
  | Some a => eq_bool (myelinated a) b
  | None => false
  end.

(** The conductivity sample of the axon under key [k], [None] when it is
    unavailable. *)
Definition sample_at (self : fascicle_results) (x t : Q) (unit : string)
    (mem_th : Q) (k : string) : option Q :=
  match axon_at self k with
  | Some a => axon_get_membrane_conductivity a x t unit mem_th
  | None => None
  end.

(** All the values of a list of optional values, if none is missing. *)
Fixpoint all_some {A} (l : list (option A)) : option (list A) :=
  match l with
  | [] => Some []
  | None :: _ => None
  | Some a :: rest =>
      match all_some rest with
      | Some r => Some (a :: r)
      | None => None
      end
  end.

(** Per-key readings used to state the diameter-stratified counts. *)
Definition diameter_at (self : fascicle_results) (k : string) : option Q :=
  option_map diameter (axon_at self k).

Definition recruited_at (self : fascicle_results) (k : string) : bool :=
  match axon_at self k with
  | Some a => is_recruited a
  | None => false
  end.

Definition exceeds (self : fascicle_results) (diam : Q) (k : string) : bool :=
  match axon_at self k with
  | Some a => Qgt_bool (diameter a) diam
  | None => false
  end.

Definition below (self : fascicle_results) (diam : Q) (k : string) : bool :=
  match axon_at self k with
  | Some a => Qlt_bool (diameter a) diam
  | None => false
  end.

Definition count (p : string -> bool) (ks : list string) : nat :=
  List.length (filter p ks).

Definition ratio (n d : nat) : Q :=
  inject_Z (Z.of_nat n) / inject_Z (Z.of_nat d).

(** *** Reading the block-summary plot

    The axons after [block_summary], in axon-key order, and what the plot
    shows for one of them given the scaling factor [alpha_g]. *)
Definition summarized_keys (self : fascicle_results) (AP_start : Q)
    (freq : option Q) (t_refractory : Q) (ks : list string) : list axon :=
  flat_map (fun k => match axon_at self k with
                     | Some a => [block_summary a AP_start freq t_refractory]
                     | None => []
                     end) ks.

Definition summarized (self : fascicle_results) (AP_start : Q)
    (freq : option Q) (t_refractory : Q) : list axon :=
  summarized_keys self AP_start freq t_refractory (axon_keys self).

Definition lists_of (axs : list axon) : block_lists :=
  {| axon_diam := map diameter axs;
     axon_type := map myelinated axs;
     axon_y := map y axs;
     axon_z := map z axs;
     blocked := map is_blocked axs;
     onsets := map n_onset axs |}.

Definition max_onset (ns : list Z) : Z :=
  match ns with
  | [] => 0
  | n :: rest => fold_left Z.max rest n
  end.

Definition is_true (b : option bool) : bool :=
  match b with
  | Some true => true
  | _ => false
  end.

Definition color (a : axon) : string :=
  if is_true (is_blocked a)
  then (if (n_onset a =? 0)%Z then "seagreen" else "steelblue")
  else (if (n_onset a =? 0)%Z then "grey" else "orangered").

Definition opacity (alpha_g : Np.float64) (a : axon) : Np.float64 :=
  if (n_onset a =? 0)%Z
  then (if is_true (is_blocked a) then Np.Fin 1 else Np.Fin (1 # 2))
  else Np.mul_int (n_onset a) alpha_g.

Definition cross (a : axon) : list draw :=
  match is_blocked a with
  | None => [Scatter (y a) (z a) "x" 20 "k"]
  | Some _ => []
  end.

Definition axon_patch (alpha_g : Np.float64) (a : axon) : list draw :=
  (cross a
   ++ [Circle (y a) (z a) (diameter a / 2) (color a) true
         (Some (opacity alpha_g a)) None])%list.

(** What [plot_block_summary] draws after the axon patches: the overlay
    of the stimulation when there is one, the index labels when [num] is
    set, and the two axis limits. *)
Definition block_summary_tail (self : fascicle_results) (num : bool)
    (yc zc D : Q) : result (list draw) :=
  stim <- (e <- getattr self "extra_stim" ;;
           match e with
           | EOther PyNone => Ok []
           | EStim => Ok [StimPlot "gold" D]
           | _ => Raise (AttributeError "plot")
           end) ;;
  texts <- (if num then
              n <- n_ax self ;;
              numbering_loop self (seq 0 n)
            else Ok []) ;;
  Ok (stim ++ texts
        ++ [SetXlim (- (11 # 10) * D / 2 + yc) ((11 # 10) * D / 2 + yc);
            SetYlim (- (11 # 10) * D / 2 + zc) ((11 # 10) * D / 2 + zc)])%list.

(** The whole drawing of [plot_block_summary] for the axons [axs] and the
    factor [alpha_g]: the contour, the patches of each axon in order, then
    the tail. *)
Definition block_summary_drawing (self : fascicle_results) (num : bool)
    (contour_color : string) (yc zc D : Q) (alpha_g : Np.float64)
    (axs : list axon) : result (list draw) :=
  tail <- block_summary_tail self num yc zc D ;;
  Ok (Circle yc zc (D / 2) contour_color false None (Some 2%Z)
        :: flat_map (axon_patch alpha_g) axs ++ tail)%list.

(** *** Further methods of [fascicle_results] *)

(** Loop of [get_recruited_axons] over the remaining keys. *)
Fixpoint recruited_loop (self : fascicle_results) (axons_keys : list string)
    (n_recr : nat) : result nat :=
  match axons_keys with
  | [] => Ok n_recr
  | axon_k :: rest =>
      a <- axon_of "is_recruited" self axon_k ;;
      if is_recruited a
      then recruited_loop self rest (S n_recr)
      else recruited_loop self rest n_recr
  end.

Definition get_recruited_axons (self : fascicle_results) (ax_type : string)
    (normalize : bool) : result int_or_float :=
  axons_keys <- get_axons_key self ax_type ;;
  n_recr <- recruited_loop self axons_keys 0 ;;
  if normalize then
    n <- get_n_ax self ax_type ;;
    r <- truediv n_recr n ;;
    Ok (Float r)
  else Ok (Int n_recr).

(** The five lists built by [get_axons], in the order of the returned
    tuple. *)
Record axon_lists : Type := mk_axon_lists {
  ga_diam : list Q;
  ga_type : list pyval;
  ga_y : list Q;
  ga_z : list Q;
  ga_recruited : list bool
}.

Fixpoint get_axons_loop (self : fascicle_results) (axons_keys : list string)
    (acc : axon_lists) : result axon_lists :=
  match axons_keys with
  | [] => Ok acc
  | axon_k :: rest =>
      a1 <- axon_of "is_recruited" self axon_k ;;
      a2 <- axon_of "y" self axon_k ;;
      a3 <- axon_of "z" self axon_k ;;
      a4 <- axon_of "diameter" self axon_k ;;
      a5 <- axon_of "myelinated" self axon_k ;;
      get_axons_loop self rest
        {| ga_recruited := (ga_recruited acc ++ [is_recruited a1])%list;
           ga_y := (ga_y acc ++ [y a2])%list;
           ga_z := (ga_z acc ++ [z a3])%list;
           ga_diam := (ga_diam acc ++ [diameter a4])%list;
           ga_type := (ga_type acc ++ [myelinated a5])%list |}
  end.

Definition get_axons (self : fascicle_results) : result axon_lists :=
  axons_keys <- get_axons_key self "all" ;;
  get_axons_loop self axons_keys (mk_axon_lists [] [] [] [] []).

(** [self[k].block_summary(...)] updates the axon stored under [k] in
    place: the entry of [k] becomes the updated axon. *)
Fixpoint store_axon (k : string) (a : axon) (self : fascicle_results)
  : fascicle_results :=
  match self with
  | [] => []
  | (k', e) :: rest =>
      if String.eqb k k' then (k', EAxon a) :: rest
      else (k', e) :: store_axon k a rest
  end.

(** Loop of [get_block_summary]; the container is threaded through the
    updates. *)
Fixpoint get_block_summary_loop (self : fascicle_results) (AP_start : Q)
    (freq : option Q) (t_refractory_m t_refractory_um : Q)
    (axons_keys : list string) : result fascicle_results :=
  match axons_keys with
  | [] => Ok self
  | axon_k :: rest =>
      a <- axon_of "myelinated" self axon_k ;;
      if eq_bool (myelinated a) true then
        a' <- axon_of "block_summary" self axon_k ;;
        get_block_summary_loop
          (store_axon axon_k (block_summary a' AP_start freq t_refractory_m) self)
          AP_start freq t_refractory_m t_refractory_um rest
      else
        a' <- axon_of "block_summary" self axon_k ;;
        get_block_summary_loop
          (store_axon axon_k (block_summary a' AP_start freq t_refractory_um) self)
          AP_start freq t_refractory_m t_refractory_um rest
  end.

(** [get_block_summary] returns nothing; its effect is the container after
    the call. *)
Definition get_block_summary (self : fascicle_results) (AP_start : Q)
    (freq : option Q) (t_refractory_m t_refractory_um : Q)
  : result fascicle_results :=
  axons_keys <- get_axons_key self "all" ;;
  get_block_summary_loop self AP_start freq t_refractory_m t_refractory_um
    axons_keys.

(** What [get_block_summary] does to one entry. *)
Definition summarize_entry (AP_start : Q) (freq : option Q)
    (t_refractory_m t_refractory_um : Q) (ke : string * entry)
  : string * entry :=
  match ke with
  | (k, EAxon a) =>
      if is_axon_key k
      then (k, EAxon (block_summary a AP_start freq
                        (if eq_bool (myelinated a) true
                         then t_refractory_m else t_refractory_um)))
      else ke
  | _ => ke
  end.

(** [if v:] on a tag. *)
Definition truthy (v : pyval) : bool :=
  match v with
  | PyNone => false
  | PyBool b => b
  | PyInt n => negb (n =? 0)%Z
  end.

(** Calls received by the axes of [plot_recruited_fibers]: those of
    [draw], and the centred index labels. *)
Inductive draw_fibers : Type :=
| Plain (d : draw)
| TextCentered (ty tz : Q) (k : nat).

(** Loop [for k, _ in enumerate(axon_diam)] of [plot_recruited_fibers]. *)
Fixpoint fibers_patches_loop (l : axon_lists) (myel_color unmyel_color : string)
    (ks : list nat) : result (list draw_fibers) :=
  match ks with
  | [] => Ok []
  | k :: rest =>
      let i := Z.of_nat k in
      ty <- getitem_list (ga_type l) i ;;
      let color := if truthy ty then myel_color else unmyel_color in
      r <- getitem_list (ga_recruited l) i ;;
      let alpha := if r then Np.Fin 1 else Np.Fin (1 # 10) in
      yk <- getitem_list (ga_y l) i ;;
      zk <- getitem_list (ga_z l) i ;;
      dk <- getitem_list (ga_diam l) i ;;
      more <- fibers_patches_loop l myel_color unmyel_color rest ;;
      Ok (Plain (Circle yk zk (dk / 2) color true (Some alpha) None) :: more)
  end.

Fixpoint fibers_numbering_loop (self : fascicle_results) (ks : list nat)
  : result (list draw_fibers) :=
  match ks with
  | [] => Ok []
  | k :: rest =>
      ys <- array_attr self "axons_y" ;;
      yk <- getitem_list ys (Z.of_nat k) ;;
      zs <- array_attr self "axons_z" ;;
      zk <- getitem_list zs (Z.of_nat k) ;;
      more <- fibers_numbering_loop self rest ;;
      Ok (TextCentered yk zk k :: more)
  end.

Definition plot_recruited_fibers (master : bool) (self : fascicle_results)
    (contour_color myel_color unmyel_color : string) (num : bool)
  : result (list draw_fibers) :=
  if master then
    yc <- float_attr self "y_grav_center" ;;
    zc <- float_attr self "z_grav_center" ;;
    D <- float_attr self "D" ;;
    let contour := Circle yc zc (D / 2) contour_color false None (Some 2%Z) in
    l <- get_axons self ;;
    patches <- fibers_patches_loop l myel_color unmyel_color
                 (seq 0 (List.length (ga_diam l))) ;;
    stim <- (e <- getattr self "extra_stim" ;;
             match e with
             | EOther PyNone => Ok []
             | EStim => Ok [Plain (StimPlot "gold" D)]
             | _ => Raise (AttributeError "plot")
             end) ;;
    texts <- (if num then
                n <- n_ax self ;;
                fibers_numbering_loop self (seq 0 n)
              else Ok []) ;;
    Ok (Plain contour :: patches ++ stim ++ texts
          ++ [Plain (SetXlim (- (11 # 10) * D / 2 + yc) ((11 # 10) * D / 2 + yc));
              Plain (SetYlim (- (11 # 10) * D / 2 + zc) ((11 # 10) * D / 2 + zc))])%list
  else Ok [].

(** What [plot_recruited_fibers] shows for one axon. *)
Definition fiber_patch (myel_color unmyel_color : string) (a : axon)
  : draw_fibers :=
  Plain (Circle (y a) (z a) (diameter a / 2)
           (if truthy (myelinated a) then myel_color else unmyel_color)
           true
           (Some (if is_recruited a then Np.Fin 1 else Np.Fin (1 # 10)))
           None).

(** What [plot_recruited_fibers] draws after the axon circles: the
    overlay of the stimulation when there is one, the centred index labels
    when [num] is set, and the two axis limits. *)
Definition fibers_tail (self : fascicle_results) (num : bool) (yc zc D : Q)
  : result (list draw_fibers) :=
  stim <- (e <- getattr self "extra_stim" ;;
           match e with
           | EOther PyNone => Ok []
           | EStim => Ok [Plain (StimPlot "gold" D)]
           | _ => Raise (AttributeError "plot")
           end) ;;
  texts <- (if num then
              n <- n_ax self ;;
              fibers_numbering_loop self (seq 0 n)
            else Ok []) ;;
  Ok (stim ++ texts
        ++ [Plain (SetXlim (- (11 # 10) * D / 2 + yc) ((11 # 10) * D / 2 + yc));
            Plain (SetYlim (- (11 # 10) * D / 2 + zc) ((11 # 10) * D / 2 + zc))])%list.

(** The axons under the given keys, in order. *)
Definition axons_at (self : fascicle_results) (ks : list string) : list axon :=
  flat_map (fun k => match axon_at self k with
                     | Some a => [a]
                     | None => []
                     end) ks.

(** Keys whose axon has exactly the diameter [diam]. *)
Definition at_threshold (self : fascicle_results) (diam : Q) (k : string) : bool :=
  match axon_at self k with
  | Some a => Qeq_bool (diameter a) diam
  | None => false
  end.

End Fascicle.
End Fascicle.

(** ** _myelinated_results.py *)

Module Myelinated.

(** The keys of the result dictionary that the code below reads or
    writes.  [g_mye], [c_mye] and [f_mye] are absent ([None]) until
    [get_myelin_properties] stores them. *)
Record myelinated_results : Type := mk_myelinated {
  rec : string;
  x_rec : list Q;
  Nseg_per_sec : Z;
  axon_path_type : list string;
  g_mye : option (list Q);
  c_mye : option (list Q);
  f_mye : option (list Np.float64)
}.

(** [self.generate_axon()] and the two getters of the generated axon. *)
Class AxonFactory : Type := {
  axon_model : Type;
  generate_axon : myelinated_results -> axon_model;
  get_myelin_conductance : axon_model -> list Q;
  get_myelin_capacitance : axon_model -> list Q
}.

(** The [endo_mat] argument when it is not [None]: a material, or the
    name of one. *)
Inductive endo : Type :=
| Mat (m : material)
| MatName (name : string).

Definition warn (msg : string) : W unit :=
  fun log => (Ok tt, rise_warning msg log).

(** [a // b] and [a % b] on ints. *)
Definition floordiv (a b : Z) : result Z :=
  if (b =? 0)%Z then Raise ZeroDivisionError else Ok (a / b)%Z.

Definition pymod (a b : Z) : result Z :=
  if (b =? 0)%Z then Raise ZeroDivisionError else Ok (a mod b)%Z.

Section Myelinated.

Context `{UnitsModule} `{UnitsOfNonFinite} `{MaterialsModule} `{AxonFactory}.

Definition get_index_myelinated_sequence (self : myelinated_results) (n : Z)
  : W string :=
  if String.eqb (rec self) "nodes" then wret "node"
  else
    (if (n >? Z.of_nat (List.length (x_rec self)))%Z
     then warn "index not in axon"
     else wret tt) ;;~
    let Nseg_per_sec := (Nseg_per_sec self + 1)%Z in
    let N_sec_type := 11%Z in
    let seq_types := axon_path_type self in
    if (n =? 0)%Z then lift (getitem_list seq_types 0)
    else lift (q <- floordiv (n - 1) Nseg_per_sec ;;
               r <- pymod q N_sec_type ;;
               getitem_list seq_types r).

(** Loop [for i in range(n_center)] of [find_central_node_index] over the
    offsets still to try: [Some k] is an early [return k], [None] is
    falling out of the loop. *)
Fixpoint central_node_loop (self : myelinated_results) (n_center : Z)
    (offsets : list nat) : W (option Z) :=
  match offsets with
  | [] => wret None
  | i :: rest =>
      let i := Z.of_nat i in
      s1 <~ get_index_myelinated_sequence self (n_center + i) ;;
      if String.eqb s1 "node" then wret (Some (n_center + i)%Z)
      else
        s2 <~ get_index_myelinated_sequence self (n_center - i) ;;
        if String.eqb s2 "node" then wret (Some (n_center - i)%Z)
        else central_node_loop self n_center rest
  end.

Definition find_central_node_index (self : myelinated_results) : W Z :=
  let n_center := (List.length (x_rec self) / 2)%nat in
  if String.eqb (rec self) "nodes" then wret (Z.of_nat n_center)
  else
    r <~ central_node_loop self (Z.of_nat n_center) (seq 0 n_center) ;;
    match r with
    | Some k => wret k
    | None =>
        warn "No node found in the axon" ;;~
        wret (Z.of_nat n_center)
    end.

(** [g[I] op= v]: in-place update of the entries selected by the boolean
    mask [I]. *)
Fixpoint masked_update (f : Q -> Q) (I : list bool) (g : list Q) : list Q :=
  match I, g with
  | b :: I', x :: g' => (if b then f x else x) :: masked_update f I' g'
  | _, _ => g
  end.

(** The operand pairs of an elementwise operation on two one-dimensional
    arrays, with numpy's broadcasting of a length-one operand; other
    length mismatches raise. *)
Definition broadcast (a b : list Q) : result (list (Q * Q)) :=
  if (List.length a =? List.length b)%nat then Ok (combine a b)
  else match a, b with
       | _, [y] => Ok (map (fun x => (x, y)) a)
       | [x], _ => Ok (map (fun y => (x, y)) b)
       | _, _ => Raise (ValueError "operands could not be broadcast together")
       end.

(** The RuntimeWarnings of one array division: one for the whole call
    when some non-zero entry is divided by zero, then one when some
    [0 / 0] occurs. *)
Definition divide_warnings (pairs : list (Q * Q)) : list string :=
  ((if existsb (fun p => Qeq_bool (snd p) 0 && negb (Qeq_bool (fst p) 0)) pairs
    then [Np.divide_by_zero] else [])
   ++ (if existsb (fun p => Qeq_bool (snd p) 0 && Qeq_bool (fst p) 0) pairs
       then [Np.invalid_value] else []))%list.

(** [a / b] on one-dimensional float64 arrays of finite values.  The
    quotient is a float64 array: an entry with a zero divisor is an
    infinity or a nan, and is reported by a RuntimeWarning. *)
Definition np_divide (a b : list Q) : W (list Np.float64) :=
  fun warnings =>
    match broadcast a b with
    | Raise e => (Raise e, warnings)
    | Ok pairs =>
        (Ok (map (fun p => Np.true_divide (fst p) (snd p)) pairs),
         (warnings ++ divide_warnings pairs)%list)
    end.

Definition sentinel : Q := 10000000000.

(** [if not is_mat(endo_mat): endo_mat = load_material(endo_mat)]: a
    material is kept, a name is looked up. *)
Definition resolve_material (e : endo) : material :=
  match e with
  | Mat m => m
  | MatName name => load_material name
  end.

(** [get_myelin_properties]: the returned value, the result dictionary
    after the call, the log, and the numpy RuntimeWarnings of the call. *)
Definition get_myelin_properties (self : myelinated_results)
    (endo_mat : option endo) (log : list string)
  : result (option (list Q * list Q * list Np.float64))
    * myelinated_results * list string * list string :=
  if String.eqb (rec self) "nodes" then
    (Ok None, self,
     rise_warning "No myelin in the axon simulated, None returned" log, [])
  else
    let ax := generate_axon self in
    let g := get_myelin_conductance ax in
    let g :=
      match endo_mat with
      | Some endo_mat =>
          let endo_mat := resolve_material endo_mat in
          let I := map (fun x => Np.isclose x sentinel) g in
          let g := masked_update (fun x => x * 0) I g in
          masked_update
            (fun x => x + convert (sigma endo_mat) "S/m**2" "S/cm**2") I g
      | None => g
      end in
    let c := get_myelin_capacitance ax in
    let self :=
      {| rec := rec self; x_rec := x_rec self;
         Nseg_per_sec := Nseg_per_sec self;
         axon_path_type := axon_path_type self;
         g_mye := Some g; c_mye := Some c; f_mye := f_mye self |} in
    match np_divide g (map (fun x => 2 * Np.pi * x) c) [] with
    | (Raise e, warnings) => (Raise e, self, log, warnings)
    | (Ok f, warnings) =>
        let f := map (fun x => to_nrv_unit_float x "MHz") f in
        let self :=
          {| rec := rec self; x_rec := x_rec self;
             Nseg_per_sec := Nseg_per_sec self;
             axon_path_type := axon_path_type self;
             g_mye := g_mye self; c_mye := c_mye self; f_mye := Some f |} in
        (Ok (Some (g, c, f)), self, log, warnings)
    end.

(** *** Reading the central-node search

    An index is classified as a node when its label is "node"; the search
    visits, for each offset [i] below the midpoint [c], the index [c + i]
    and then the index [c - i]. *)
Definition is_node (self : myelinated_results) (k : Z) : bool :=
  match fst (get_index_myelinated_sequence self k []) with
  | Ok s => String.eqb s "node"
  | Raise _ => false
  end.

Definition search_order (c : nat) : list Z :=
  flat_map (fun i => [(Z.of_nat c + Z.of_nat i)%Z; (Z.of_nat c - Z.of_nat i)%Z])
           (seq 0 c).

(** The stored sequence covers the 11-element pattern and the number of
    computation points per section is not zero. *)
Definition sequence_ok (self : myelinated_results) : bool :=
  negb (Nseg_per_sec self + 1 =? 0)%Z
  && (11 <=? List.length (axon_path_type self))%nat.

(** *** Further methods of [myelinated_results] *)

(** [self["x_rec"][self.find_central_node_index()]] *)
Definition find_central_node_coordinate (self : myelinated_results) : W Q :=
  k <~ find_central_node_index self ;;
  lift (getitem_list (x_rec self) k).

(** Calls received by the axes of [plot_Nav_states].  Every arrow has
    [linewidth=1, alpha=0.5, head_width=0.02, head_length=0.02], every text
    is centred. *)
Inductive nav_call : Type :=
| NavSetXlim (lo hi : Q)
| NavSetYlim (lo hi : Q)
| NavScatter (px py : Z) (s : Q) (c : string) (alpha : Q)
| NavStateText (px py : Z) (label : string)
| NavArrow (px py dx dy : Q)
| NavText (px py : Q) (label : string) (alpha : Q)
| NavSetXticks
| NavSetYticks
| NavAxisOff.

(** Loop [for i in range(len(states))] of [plot_Nav_states]; [calls] are
    the calls made so far, kept when an index lookup raises. *)
Fixpoint nav_states_loop (states : list string) (X Y : list Z)
    (c : list string) (values : list Q) (idx : list nat)
    (calls : list nav_call) : result unit * list nav_call :=
  match idx with
  | [] => (Ok tt, calls)
  | k :: rest =>
      let i := Z.of_nat k in
      match (xi <- getitem_list X i ;;
             yi <- getitem_list Y i ;;
             v <- getitem_list values i ;;
             ci <- getitem_list c i ;;
             Ok (NavScatter xi yi (300 + v * 1450) ci (4 # 10))) with
      | Raise e => (Raise e, calls)
      | Ok sc =>
          match (xi <- getitem_list X i ;;
                 yi <- getitem_list Y i ;;
                 st <- getitem_list states i ;;
                 Ok (NavStateText xi yi st)) with
          | Raise e => (Raise e, (calls ++ [sc])%list)
          | Ok tx => nav_states_loop states X Y c values rest
                       (calls ++ [sc; tx])%list
          end
      end
  end.

Definition nav_paths : list nav_call :=
  [ NavArrow (- (5 # 2)) (3 # 100) 1 0;
    NavText (- 2) (2 # 10) "$I_2I_1$" (4 # 10);
    NavArrow (- (3 # 2)) (- (3 # 100)) (- 1) 0;
    NavText (- 2) (- (2 # 10)) "$I_1I_2$" (4 # 10);
    NavArrow (- (83 # 100)) (25 # 100) (1 # 2) (1 # 2);
    NavText (- (9 # 10)) (6 # 10) "$I_1C_1$" (4 # 10);
    NavArrow (- (22 # 100)) (75 # 100) (- (1 # 2)) (- (1 # 2));
    NavText (- (45 # 100)) (25 # 100) "$C_1I_1$" (4 # 10);
    NavArrow (72 # 100) (25 # 100) (- (1 # 2)) (1 # 2);
    NavText (9 # 10) (6 # 10) "$C_1C_2$" (4 # 10);
    NavArrow (33 # 100) (75 # 100) (1 # 2) (- (1 # 2));
    NavText (45 # 100) (25 # 100) "$C_2C_1$" (4 # 10);
    NavArrow (83 # 100) (- (25 # 100)) (- (1 # 2)) (- (1 # 2));
    NavText (9 # 10) (- (6 # 10)) "$C_2O_1$" (4 # 10);
    NavArrow (22 # 100) (- (75 # 100)) (1 # 2) (1 # 2);
    NavText (45 # 100) (- (25 # 100)) "$O_1C_2$" (4 # 10);
    NavArrow (- (33 # 100)) (- (75 # 100)) (- (1 # 2)) (1 # 2);
    NavText (- (9 # 10)) (- (6 # 10)) "$O_1I_1$" (4 # 10);
    NavArrow (3 # 2) (3 # 100) 1 0;
    NavText 2 (2 # 10) "$C_20_2$" (4 # 10);
    NavArrow (5 # 2) (- (3 # 100)) (- 1) 0;
    NavText 2 (- (2 # 10)) "$O_2C_2$" (4 # 10) ].

(** [plot_Nav_states(ax)]: the outcome, the calls received by [ax] and the
    log. *)
Definition plot_Nav_states (log : list string)
  : result unit * list nav_call * list string :=
  let values : list Q := [] in
  let log := rise_warning "plot_Nav_states is not fully implemented" log in
  let states := ["$I_1$"; "$I_2$"; "$C_1$"; "$C_2$"; "$O_1$"; "$O_2$"] in
  let X := [-1; -3; 0; 1; 0; 3]%Z in
  let Y := [0; 0; 1; 0; -1; 0]%Z in
  let c := ["r"; "r"; "b"; "b"; "g"; "g"] in
  let calls := [NavSetXlim (- (34 # 10)) (34 # 10);
                NavSetYlim (- (15 # 10)) (15 # 10)] in
  match nav_states_loop states X Y c values (seq 0 (List.length states)) calls with
  | (Raise e, calls) => (Raise e, calls, log)
  | (Ok _, calls) =>
      (Ok tt,
       (calls ++ nav_paths ++ [NavSetXticks; NavSetYticks; NavAxisOff])%list,
       log)
  end.

(** Distance of an index to the midpoint [c]. *)
Definition offset_from (c : nat) (k : Z) : Z := Z.abs (k - Z.of_nat c).

End Myelinated.
End Myelinated.

(** ** _fascicles_results.py: complex admittance *)

(** [utils.misc.compute_complex_admitance] and the unit conversion of a
    complex value; a complex number is its real and imaginary parts.  The
    cutoff frequencies [fc] come out of an array division. *)
Class AdmittanceModule : Type := {
  compute_complex_admitance : Q -> list Q -> list Np.float64 -> list (Q * Q);
  convert_complex : Q * Q -> string -> string -> Q * Q
}.

Module Admittance.
Section Admittance.

Context {axon : Type} `{AxonResults axon}.
Context `{UnitsModule} `{UnitsOfNonFinite} `{MiscModule} `{AdmittanceModule}.

(** [Y *= s] for a complex [Y] and a float [s]. *)
Definition scale (Y : Q * Q) (s : Q) : Q * Q := (fst Y * s, snd Y * s).

(** The inner calls use their default units, ["uF/cm**2"] for the
    capacitance and ["S/cm**2"] for the conductivity; dividing [None]
    raises [TypeError].  The emitted warnings are the numpy runtime
    warnings. *)
Definition get_membrane_complexe_admitance
    (self : Fascicle.fascicle_results (axon := axon)) (f x t : Q)
    (unit : string) (mem_th : Q) : W (list (Q * Q)) :=
  cap <~ lift (Fascicle.get_membrane_capacitance self "uF/cm**2" mem_th) ;;
  let '(u_c, m_c) := cap in
  axons_type <~ lift (Fascicle.array_attr self "axons_type") ;;
  let eps := map (fun ty => ty * (m_c - u_c) + u_c) axons_type in
  g <~ lift (Fascicle.get_membrane_conductivity self x t "S/cm**2" mem_th) ;;
  match g with
  | None => lift (Raise TypeError)
  | Some g =>
      f_mem <~ Myelinated.np_divide g (map (fun e => 2 * Np.pi * e) eps) ;;
      let f_mem := map (fun v => to_nrv_unit_float v "MHz") f_mem in
      let Y := compute_complex_admitance f g f_mem in
      if str_in "2" unit then
        wret (map (fun Yi => convert_complex Yi "S/cm**2" unit) Y)
      else
        let Y := map (fun Yi => scale Yi (from_nrv_unit mem_th "cm")) Y in
        wret (map (fun Yi => convert_complex Yi "S/cm" unit) Y)
  end.

End Admittance.
End Admittance.

(** ** Concrete instances used to exercise the statements *)

Module Demo.

Record demo_axon : Type := mk_demo_axon {
  d_myelinated : pyval;
  d_diameter : Q;
  d_y : Q;
  d_z : Q;
  d_recruited : bool;
  d_blocked : option bool;
  d_onset : Z;
  d_g : option Q
}.

#[global] Instance demo_axon_results : AxonResults demo_axon := {
  myelinated := d_myelinated;
  diameter := d_diameter;
  y := d_y;
  z := d_z;
  is_recruited := d_recruited;
  block_summary := fun a _ _ _ => a;
  is_blocked := d_blocked;
  n_onset := d_onset;
  axon_get_membrane_conductivity := fun a _ _ _ _ => d_g a
}.

Definition ax (m : bool) (d : Q) (r : bool) (b : option bool) (n : Z)
    (g : option Q) : Fascicle.entry :=
  Fascicle.EAxon (mk_demo_axon (PyBool m) d 0 0 r b n g).

Definition metadata : Fascicle.fascicle_results (axon := demo_axon) :=
  [ ("axons_diameter", Fascicle.EArray [3; 5; 7; 9]);
    ("axons_y", Fascicle.EArray [0; 0; 0; 0]);
    ("axons_z", Fascicle.EArray [0; 0; 0; 0]);
    ("y_grav_center", Fascicle.EFloat 0);
    ("z_grav_center", Fascicle.EFloat 0);
    ("D", Fascicle.EFloat 100);
    ("extra_stim", Fascicle.EOther PyNone);
    ("unmyelinated_param", Fascicle.EParam "Rattay_Aberham");
    ("myelinated_param", Fascicle.EParam "MRG") ].

(** Diameters [3, 5, 7, 9] with recruitment flags [T, F, T, T]. *)
Definition fasc4 : Fascicle.fascicle_results :=
  (metadata ++
   [ ("axon0", ax false 3 true (Some false) 0 (Some (1 # 10)));
     ("axon1", ax false 5 false (Some true) 2 (Some (2 # 10)));
     ("axon2", ax true 7 true None 4 (Some (3 # 10)));
     ("axon3", ax true 9 true (Some true) 0 (Some (4 # 10))) ])%list.

(** Three axons, the second of which has no conductivity sample. *)
Definition fasc3_gap : Fascicle.fascicle_results :=
  (metadata ++
   [ ("axon0", ax false 3 true (Some false) 0 (Some (1 # 10)));
     ("axon1", ax false 5 false (Some true) 0 None);
     ("axon2", ax true 7 true None 0 (Some (3 # 10))) ])%list.

(** An axon whose [myelinated] tag is [None]. *)
Definition fasc_untagged : Fascicle.fascicle_results :=
  [ ("axon0", Fascicle.EAxon (mk_demo_axon PyNone 3 0 0 true None 0 None)) ].

(** A units table in the style of the units module: every named unit
    has a value in the internal units (um, ms, kHz, S, uF). *)
Definition unit_value (u : string) : Q :=
  if String.eqb u "cm" then 10000
  else if String.eqb u "MHz" then 1000
  else if String.eqb u "S/cm" then 1 # 10000
  else if String.eqb u "S/m" then 1 # 1000000
  else if String.eqb u "S/cm**2" then 1 # 100000000
  else if String.eqb u "uF/cm**2" then 1 # 100000000
  else if String.eqb u "mS/cm**2" then 1 # 100000000000
  else if String.eqb u "S/m**2" then 1 # 1000000000000
  else 1.

#[global] Instance demo_units : UnitsModule := {
  to_nrv_unit := fun v u => v * unit_value u;
  from_nrv_unit := fun v u => v / unit_value u;
  convert := fun v uin uout => v * unit_value uin / unit_value uout
}.

(** A change of unit is a rescaling: it keeps an infinity and a nan. *)
#[global] Instance demo_units_nonfinite : UnitsOfNonFinite := {
  to_nrv_unit_nonfinite := fun v _ => v
}.

#[global] Instance demo_misc : MiscModule := {
  membrane_capacitance_from_model := fun model =>
    if String.eqb model "MRG" then 2 else 1
}.

#[global] Instance demo_materials : MaterialsModule := {
  load_material := fun name =>
    if String.eqb name "endoneurium_ranck" then mk_material (57 # 1000)
    else mk_material 1
}.

Definition pattern : list string :=
  ["node"; "MYSA"; "FLUT"; "STIN"; "STIN"; "STIN"; "STIN"; "STIN"; "STIN";
   "FLUT"; "MYSA"].

(** A recording of all points: [n] recording positions, one segment per
    section. *)
Definition myel (n : nat) : Myelinated.myelinated_results :=
  Myelinated.mk_myelinated "all" (repeat 0 n) 1 pattern None None None.

Definition myel_nodes (n : nat) : Myelinated.myelinated_results :=
  Myelinated.mk_myelinated "nodes" (repeat 0 n) 1 pattern None None None.

#[global] Instance demo_factory : Myelinated.AxonFactory := {
  Myelinated.axon_model := unit;
  Myelinated.generate_axon := fun _ => tt;
  Myelinated.get_myelin_conductance := fun _ => [10000000000; 5; 10000000001];
  Myelinated.get_myelin_capacitance := fun _ => [1; 2; 4]
}.


(** A generated axon whose two myelin arrays have different lengths. *)
Definition mismatched_factory : Myelinated.AxonFactory := {|
  Myelinated.axon_model := unit;
  Myelinated.generate_axon := fun _ => tt;
  Myelinated.get_myelin_conductance := fun _ => [3; 5; 7];
  Myelinated.get_myelin_capacitance := fun _ => [1; 2]
|}.

#[global] Instance demo_admittance : AdmittanceModule := {
  compute_complex_admitance := fun f g fc =>
    map (fun gf => (fst gf,
                    match snd gf with
                    | Np.Fin q => fst gf * f / q
                    | _ => 0
                    end)) (combine g fc);
  convert_complex := fun Y uin uout =>
    (fst Y * unit_value uin / unit_value uout,
     snd Y * unit_value uin / unit_value uout)
}.

(** [fasc4] and [fasc3_gap] with the per-axon type indicators. *)
Definition fasc4_typed : Fascicle.fascicle_results :=
  ("axons_type", Fascicle.EArray [0; 0; 1; 1]) :: fasc4.

Definition fasc3_gap_typed : Fascicle.fascicle_results :=
  ("axons_type", Fascicle.EArray [0; 0; 1]) :: fasc3_gap.

End Demo.

(** * Properties *)

Import Fascicle.

(** ** Generic facts on comprehensions and filters *)

Lemma filterM_pure {A} (p : A -> result bool) (q : A -> bool) (l : list A) :
  (forall x, In x l -> p x = Ok (q x)) ->
  filterM p l = Ok (filter q l).
Proof.
  induction l as [|x xs IH]; intros Hp; simpl.
  - reflexivity.
  - rewrite (Hp x (or_introl eq_refl)). simpl.
    rewrite IH by (intros x' Hx'; apply Hp; right; exact Hx'). simpl.
    destruct (q x); reflexivity.
Qed.

Lemma filterM_no_fatal {A} (p : A -> result bool) (l : list A) :
  (forall x msg, p x <> Raise (NRV_Error msg)) ->
  forall msg, filterM p l <> Raise (NRV_Error msg).
Proof.
  intros Hp msg. induction l as [|x xs IH]; simpl.
  - discriminate.
  - destruct (p x) as [b|e] eqn:Ex; simpl.
    + destruct (filterM p xs) as [r|e']; simpl.
      * discriminate.
      * intros E. apply IH. exact E.
    + intros E. apply (Hp x msg). rewrite Ex. congruence.
Qed.

Lemma filter_split_perm {A} (p q : A -> bool) (l : list A) :
  (forall x, In x l -> q x = negb (p x)) ->
  Permutation l (filter p l ++ filter q l).
Proof.
  induction l as [|x xs IH]; intros Hq; simpl.
  - constructor.
  - assert (IH' : Permutation xs (filter p xs ++ filter q xs))
      by (apply IH; intros x' Hx'; apply Hq; right; exact Hx').
    rewrite (Hq x (or_introl eq_refl)).
    destruct (p x); simpl.
    + constructor. exact IH'.
    + apply Permutation_cons_app. exact IH'.
Qed.

Lemma str_in_list_In (x : string) (l : list string) :
  str_in_list x l = true <-> In x l.
Proof.
  unfold str_in_list. rewrite existsb_exists. split.
  - intros [y [Hy E]]. apply String.eqb_eq in E. subst. exact Hy.
  - intros Hx. exists x. split; [exact Hx | apply String.eqb_refl].
Qed.

(** ** get_axons_key and get_n_ax *)

Section AxonKeys.

Context {axon : Type} `{AxonResults axon}.
Implicit Types self : fascicle_results (axon := axon).

Lemma axon_of_ok self attr k a :
  axon_at self k = Some a -> axon_of attr self k = Ok a.
Proof.
  unfold axon_at, axon_of, getitem. intros E.
  destruct (lookup k self) as [[ | | | | | ]|]; simpl; congruence.
Qed.

Lemma axon_of_no_fatal self attr k msg :
  axon_of attr self k <> Raise (NRV_Error msg).
Proof.
  unfold axon_of, getitem.
  destruct (lookup k self) as [[ | | | | | ]|]; simpl; discriminate.
Qed.

Lemma axon_entries_ok_at self :
  axon_entries_ok self = true ->
  forall k, In k (axon_keys self) -> exists a, axon_at self k = Some a.
Proof.
  unfold axon_entries_ok. rewrite forallb_forall. intros Hall k Hk.
  specialize (Hall k Hk). unfold axon_at.
  destruct (lookup k self) as [[a| | | | | ]|]; try discriminate.
  exists a. reflexivity.
Qed.

Lemma boolean_tagged_at self :
  boolean_tagged self = true ->
  forall k, In k (axon_keys self) ->
  exists a b, axon_at self k = Some a /\ myelinated a = PyBool b.
Proof.
  unfold boolean_tagged. rewrite forallb_forall. intros Hall k Hk.
  specialize (Hall k Hk). unfold axon_at.
  destruct (lookup k self) as [[a| | | | | ]|]; try discriminate.
  destruct (myelinated a) as [|b|] eqn:Em; try discriminate.
  exists a, b. split; [reflexivity | exact Em].
Qed.

Lemma boolean_tagged_entries_ok self :
  boolean_tagged self = true -> axon_entries_ok self = true.
Proof.
  intros Ht. unfold axon_entries_ok. apply forallb_forall. intros k Hk.
  destruct (boolean_tagged_at self Ht k Hk) as [a [b [Ea _]]].
  unfold axon_at in Ea.
  destruct (lookup k self) as [[ | | | | | ]|]; congruence.
Qed.

Lemma get_axons_key_all self :
  get_axons_key self "all" = Ok (axon_keys self).
Proof. reflexivity. Qed.

Lemma get_axons_key_typed self :
  axon_entries_ok self = true ->
  get_axons_key self "myelinated" = Ok (filter (tag_is self true) (axon_keys self))
  /\ get_axons_key self "unmyelinated" = Ok (filter (tag_is self false) (axon_keys self)).
Proof.
  intros Hok. unfold get_axons_key. simpl. fold (axon_keys self).
  split; apply filterM_pure; intros k Hk;
    destruct (axon_entries_ok_at self Hok k Hk) as [a Ea];
    rewrite (axon_of_ok self _ k a Ea); simpl;
    unfold tag_is; rewrite Ea; reflexivity.
Qed.

End AxonKeys.

(** ** Claims on the axon-key selection *)

Section AxonKeyClaims.

Context {axon : Type} `{AxonResults axon}.
Implicit Types self : fascicle_results (axon := axon).

(** C2.  An [ax_type] outside ["all"], ["myelinated"], ["unmyelinated"]
    makes [get_axons_key] raise the fatal error of [rise_error], whatever
    the fascicle holds.  A recognised [ax_type] never raises that error;
    with ["all"], or as soon as the axon keys resolve to axon entries, the
    call returns a list of keys. *)
Theorem get_axons_key_guard self (ax_type : string) :
  (~ In ax_type recognized_axon_types ->
     exists msg, get_axons_key self ax_type = Raise (NRV_Error msg))
  /\ (In ax_type recognized_axon_types ->
        (forall msg, get_axons_key self ax_type <> Raise (NRV_Error msg))
        /\ (ax_type = "all" \/ axon_entries_ok self = true ->
              exists ks, get_axons_key self ax_type = Ok ks)).
Proof.
  split.
  - intros Hnot. unfold get_axons_key.
    destruct (str_in_list ax_type recognized_axon_types) eqn:E.
    + apply str_in_list_In in E. contradiction.
    + simpl. eexists. reflexivity.
  - intros Hin. split.
    + intros msg. unfold get_axons_key.
      apply str_in_list_In in Hin. rewrite Hin. simpl.
      destruct (negb (ax_type =? "all")); [|discriminate].
      destruct (ax_type =? "unmyelinated");
        apply filterM_no_fatal; intros k m;
        pose proof (axon_of_no_fatal self "myelinated" k m) as Hk;
        destruct (axon_of "myelinated" self k); simpl; congruence.
    + intros Hok. unfold recognized_axon_types in Hin. simpl in Hin.
      destruct Hin as [E|[E|[E|[]]]]; subst ax_type.
      * eexists. apply get_axons_key_all.
      * destruct Hok as [E|Hok]; [discriminate|].
        eexists. apply (proj1 (get_axons_key_typed self Hok)).
      * destruct Hok as [E|Hok]; [discriminate|].
        eexists. apply (proj2 (get_axons_key_typed self Hok)).
Qed.

(** C3.  When every axon entry carries a boolean [myelinated] tag, the
    three key selections succeed, [get_n_ax("all")] is the length of
    [get_axons_key("all")], and the myelinated and unmyelinated keys split
    the list of all axon keys: no key is in both, each key of the whole is
    in one of them, and together they are a rearrangement of the whole. *)
Theorem axons_key_partition self :
  boolean_tagged self = true ->
  exists all mye unmye,
    get_axons_key self "all" = Ok all
    /\ get_axons_key self "myelinated" = Ok mye
    /\ get_axons_key self "unmyelinated" = Ok unmye
    /\ get_n_ax self "all" = Ok (List.length all)
    /\ (forall k, In k all <-> In k mye \/ In k unmye)
    /\ (forall k, ~ (In k mye /\ In k unmye))
    /\ Permutation all (mye ++ unmye).
Proof.
  intros Ht.
  pose proof (boolean_tagged_entries_ok self Ht) as Hok.
  destruct (get_axons_key_typed self Hok) as [Em Eu].
  assert (Hneg : forall k, In k (axon_keys self) ->
                   tag_is self false k = negb (tag_is self true k)).
  { intros k Hk. destruct (boolean_tagged_at self Ht k Hk) as [a [b [Ea Eb]]].
    unfold tag_is. rewrite Ea, Eb. destruct b; reflexivity. }
  exists (axon_keys self), (filter (tag_is self true) (axon_keys self)),
    (filter (tag_is self false) (axon_keys self)).
  split; [reflexivity|]. split; [exact Em|]. split; [exact Eu|].
  split; [reflexivity|]. split; [|split].
  - intros k. split.
    + intros Hk. destruct (tag_is self true k) eqn:E.
      * left. apply filter_In. auto.
      * right. apply filter_In. split; [exact Hk|].
        rewrite (Hneg k Hk), E. reflexivity.
    + intros [Hk|Hk]; apply filter_In in Hk; tauto.
  - intros k [Hm Hu]. apply filter_In in Hm, Hu.
    destruct Hm as [Hk Hm], Hu as [_ Hu].
    rewrite (Hneg k Hk), Hm in Hu. discriminate.
  - apply filter_split_perm. exact Hneg.
Qed.

End AxonKeyClaims.

Lemma get_axons_key_guard_witness :
  (exists msg, get_axons_key Demo.fasc4 "sensory" = Raise (NRV_Error msg))
  /\ (exists ks, get_axons_key Demo.fasc4 "myelinated" = Ok ks).
Proof.
  split.
  - apply (proj1 (get_axons_key_guard Demo.fasc4 "sensory")).
    simpl. intros [E|[E|[E|[]]]]; discriminate.
  - apply (proj2 (get_axons_key_guard Demo.fasc4 "myelinated")).
    + simpl. right. left. reflexivity.
    + right. reflexivity.
Defined.

Lemma axons_key_partition_witness :
  boolean_tagged Demo.fasc4 = true
  /\ exists all mye unmye,
      get_axons_key Demo.fasc4 "all" = Ok all
      /\ get_axons_key Demo.fasc4 "myelinated" = Ok mye
      /\ get_axons_key Demo.fasc4 "unmyelinated" = Ok unmye
      /\ get_n_ax Demo.fasc4 "all" = Ok (List.length all)
      /\ (forall k, In k all <-> In k mye \/ In k unmye)
      /\ (forall k, ~ (In k mye /\ In k unmye))
      /\ Permutation all (mye ++ unmye).
Proof.
  split.
  - reflexivity.
  - apply (axons_key_partition Demo.fasc4). reflexivity.
Defined.

(** The boolean tag matters: an axon whose tag is [None] compares unequal
    to both [True] and [False] and is listed under neither type. *)
Example untagged_axon_in_neither_list :
  get_axons_key Demo.fasc_untagged "all" = Ok ["axon0"]
  /\ get_axons_key Demo.fasc_untagged "myelinated" = Ok []
  /\ get_axons_key Demo.fasc_untagged "unmyelinated" = Ok [].
Proof. repeat split. Qed.

(** ** Aggregate membrane conductivity *)

Lemma all_some_none {A} (l : list (option A)) :
  all_some l = None <-> In None l.
Proof.
  induction l as [|[a|] rest IH]; simpl.
  - split; [discriminate | tauto].
  - destruct (all_some rest) as [r|].
    + split; [discriminate|]. intros [E|Hin]; [discriminate|].
      apply IH in Hin. discriminate.
    + split; [|reflexivity]. intros _. right. apply IH. reflexivity.
  - split; [|reflexivity]. intros _. left. reflexivity.
Qed.

Lemma all_some_some {A} (l : list (option A)) (g : list A) :
  all_some l = Some g <-> map Some g = l.
Proof.
  revert g. induction l as [|[a|] rest IH]; intros g; simpl.
  - split.
    + intros E. injection E as <-. reflexivity.
    + destruct g; simpl; [reflexivity | discriminate].
  - destruct (all_some rest) as [r|] eqn:Er.
    + split.
      * intros E. injection E as <-. simpl. f_equal. apply IH. reflexivity.
      * destruct g as [|b g']; simpl; [discriminate|].
        intros E. injection E as -> Erest. apply IH in Erest.
        injection Erest as ->. reflexivity.
    + split; [discriminate|].
      destruct g as [|b g']; simpl; [discriminate|].
      intros E. injection E as _ Erest. apply IH in Erest. discriminate.
  - split; [discriminate|]. destruct g; simpl; discriminate.
Qed.

Section Conductivity.

Context {axon : Type} `{AxonResults axon}.
Implicit Types self : fascicle_results (axon := axon).

Lemma membrane_conductivity_loop_spec self x t unit mem_th ks :
  (forall k, In k ks -> exists a, axon_at self k = Some a) ->
  forall g0,
    membrane_conductivity_loop self x t unit mem_th ks g0
    = Ok (option_map (app g0)
            (all_some (map (sample_at self x t unit mem_th) ks))).
Proof.
  induction ks as [|k rest IH]; intros Hax g0; simpl.
  - rewrite app_nil_r. reflexivity.
  - destruct (Hax k (or_introl eq_refl)) as [a Ea].
    rewrite (axon_of_ok self _ k a Ea). simpl.
    unfold sample_at at 1. rewrite Ea.
    destruct (axon_get_membrane_conductivity a x t unit mem_th) as [g_|].
    + rewrite IH by (intros k' Hk'; apply Hax; right; exact Hk').
      destruct (all_some (map (sample_at self x t unit mem_th) rest)); simpl.
      * rewrite <- app_assoc. reflexivity.
      * reflexivity.
    + reflexivity.
Qed.

Lemma get_membrane_conductivity_spec self x t unit mem_th :
  axon_entries_ok self = true ->
  get_membrane_conductivity self x t unit mem_th
  = Ok (all_some (map (sample_at self x t unit mem_th) (axon_keys self))).
Proof.
  intros Hok. unfold get_membrane_conductivity.
  rewrite get_axons_key_all. simpl.
  rewrite membrane_conductivity_loop_spec
    by (apply axon_entries_ok_at; exact Hok).
  destruct (all_some _); reflexivity.
Qed.

(** C1.  On a fascicle whose axon keys resolve to axon entries:
    one unavailable per-axon sample makes the aggregate [None]; a returned
    array always holds the sample of every axon, in axon-key order, never
    fewer; and when no sample is missing that full array is returned. *)
Theorem membrane_conductivity_all_or_none self x t unit mem_th :
  axon_entries_ok self = true ->
  let samples := map (sample_at self x t unit mem_th) (axon_keys self) in
  ((exists k, In k (axon_keys self) /\ sample_at self x t unit mem_th k = None) ->
     get_membrane_conductivity self x t unit mem_th = Ok None)
  /\ (forall g, get_membrane_conductivity self x t unit mem_th = Ok (Some g) ->
        map Some g = samples /\ List.length g = List.length (axon_keys self))
  /\ ((forall k, In k (axon_keys self) -> sample_at self x t unit mem_th k <> None) ->
        exists g, get_membrane_conductivity self x t unit mem_th = Ok (Some g)
                  /\ map Some g = samples).
Proof.
  intros Hok samples.
  rewrite (get_membrane_conductivity_spec self x t unit mem_th Hok).
  fold samples. split; [|split].
  - intros [k [Hk Ek]]. f_equal. apply all_some_none.
    rewrite <- Ek. unfold samples. apply in_map. exact Hk.
  - intros g E. injection E as E. apply all_some_some in E. split.
    + exact E.
    + rewrite <- (length_map Some g), E. unfold samples. apply length_map.
  - intros Hall. destruct (all_some samples) as [g|] eqn:E.
    + exists g. split; [reflexivity|]. apply all_some_some. exact E.
    + exfalso. apply all_some_none in E. unfold samples in E.
      apply in_map_iff in E. destruct E as [k [Ek Hk]].
      apply (Hall k Hk). exact Ek.
Qed.

End Conductivity.

Lemma membrane_conductivity_all_or_none_witness :
  axon_entries_ok Demo.fasc3_gap = true
  /\ get_membrane_conductivity Demo.fasc3_gap 0 0 "S/cm**2" (7 # 1000) = Ok None
  /\ exists g, get_membrane_conductivity Demo.fasc4 0 0 "S/cm**2" (7 # 1000) = Ok (Some g)
               /\ map Some g = [Some (1 # 10); Some (2 # 10); Some (3 # 10); Some (4 # 10)].
Proof.
  split; [reflexivity|]. split.
  - apply (proj1 (membrane_conductivity_all_or_none
                    Demo.fasc3_gap 0 0 "S/cm**2" (7 # 1000) eq_refl)).
    exists "axon1". split; [|reflexivity].
    simpl. right. left. reflexivity.
  - change [Some (1 # 10); Some (2 # 10); Some (3 # 10); Some (4 # 10)]
      with (map (sample_at Demo.fasc4 0 0 "S/cm**2" (7 # 1000))
              (axon_keys Demo.fasc4)).
    apply (proj2 (proj2 (membrane_conductivity_all_or_none
                           Demo.fasc4 0 0 "S/cm**2" (7 # 1000) eq_refl))).
    intros k Hk. simpl in Hk.
    destruct Hk as [<-|[<-|[<-|[<-|[]]]]]; discriminate.
Defined.

(** ** Diameter-stratified recruitment *)

Lemma filterM_incl {A} (p : A -> result bool) (l r : list A) :
  filterM p l = Ok r -> incl r l.
Proof.
  revert r. induction l as [|x xs IH]; intros r; simpl.
  - intros E. injection E as <-. apply incl_refl.
  - destruct (p x) as [b|e]; simpl; [|discriminate].
    destruct (filterM p xs) as [r'|e]; simpl; [|discriminate].
    intros E. injection E as <-. specialize (IH r' eq_refl).
    destruct b.
    + apply incl_cons; [left; reflexivity | apply incl_tl; exact IH].
    + apply incl_tl. exact IH.
Qed.

Lemma Qgt_bool_iff (a b : Q) : Qgt_bool a b = true <-> (b < a)%Q.
Proof.
  unfold Qgt_bool. rewrite Qgt_alt.
  destruct (a ?= b)%Q; split; congruence.
Qed.

Lemma Qlt_bool_iff (a b : Q) : Qlt_bool a b = true <-> (a < b)%Q.
Proof.
  unfold Qlt_bool. rewrite Qlt_alt.
  destruct (a ?= b)%Q; split; congruence.
Qed.

Section Recruitment.

Context {axon : Type} `{AxonResults axon}.
Implicit Types self : fascicle_results (axon := axon).

Lemma get_axons_key_incl self ax_type ks :
  get_axons_key self ax_type = Ok ks -> incl ks (axon_keys self).
Proof.
  unfold get_axons_key.
  destruct (negb (str_in_list ax_type recognized_axon_types)); simpl;
    [discriminate|].
  fold (axon_keys self).
  destruct (negb (ax_type =? "all")).
  - destruct (ax_type =? "unmyelinated"); apply filterM_incl.
  - intros E. injection E as <-. apply incl_refl.
Qed.

Lemma greater_than_loop_spec self diam ks :
  (forall k, In k ks -> exists a, axon_at self k = Some a) ->
  forall n_recr n_tot,
    greater_than_loop self diam ks n_recr n_tot
    = Ok (n_recr + count (fun k => exceeds self diam k && recruited_at self k) ks,
          n_tot + count (exceeds self diam) ks)%nat.
Proof.
  unfold count.
  induction ks as [|k rest IH]; intros Hax n_recr n_tot; simpl.
  - rewrite !Nat.add_0_r. reflexivity.
  - destruct (Hax k (or_introl eq_refl)) as [a Ea].
    rewrite (axon_of_ok self _ k a Ea). simpl.
    assert (Ex : exceeds self diam k = Qgt_bool (diameter a) diam)
      by (unfold exceeds; rewrite Ea; reflexivity).
    assert (Er : recruited_at self k = is_recruited a)
      by (unfold recruited_at; rewrite Ea; reflexivity).
    rewrite Ex, Er.
    assert (Hrest : forall k', In k' rest -> exists a', axon_at self k' = Some a')
      by (intros k' Hk'; apply Hax; right; exact Hk').
    destruct (Qgt_bool (diameter a) diam); simpl.
    + rewrite (axon_of_ok self _ k a Ea). simpl.
      destruct (is_recruited a); rewrite (IH Hrest); simpl;
        f_equal; f_equal; lia.
    + apply (IH Hrest).
Qed.

Lemma lesser_than_loop_spec self diam ks :
  (forall k, In k ks -> exists a, axon_at self k = Some a) ->
  forall n_recr n_tot,
    lesser_than_loop self diam ks n_recr n_tot
    = Ok (n_recr + count (fun k => below self diam k && recruited_at self k) ks,
          n_tot + count (below self diam) ks)%nat.
Proof.
  unfold count.
  induction ks as [|k rest IH]; intros Hax n_recr n_tot; simpl.
  - rewrite !Nat.add_0_r. reflexivity.
  - destruct (Hax k (or_introl eq_refl)) as [a Ea].
    rewrite (axon_of_ok self _ k a Ea). simpl.
    assert (Ex : below self diam k = Qlt_bool (diameter a) diam)
      by (unfold below; rewrite Ea; reflexivity).
    assert (Er : recruited_at self k = is_recruited a)
      by (unfold recruited_at; rewrite Ea; reflexivity).
    rewrite Ex, Er.
    assert (Hrest : forall k', In k' rest -> exists a', axon_at self k' = Some a')
      by (intros k' Hk'; apply Hax; right; exact Hk').
    destruct (Qlt_bool (diameter a) diam); simpl.
    + rewrite (axon_of_ok self _ k a Ea). simpl.
      destruct (is_recruited a); rewrite (IH Hrest); simpl;
        f_equal; f_equal; lia.
    + apply (IH Hrest).
Qed.

End Recruitment.

Section RecruitmentClaims.

Context {axon : Type} `{AxonResults axon}.
Implicit Types self : fascicle_results (axon := axon).

Lemma diameter_at_tests self diam k d :
  diameter_at self k = Some d ->
  exceeds self diam k = Qgt_bool d diam /\ below self diam k = Qlt_bool d diam.
Proof.
  unfold diameter_at, exceeds, below.
  destruct (axon_at self k) as [a|]; simpl; [|discriminate].
  intros E. injection E as <-. split; reflexivity.
Qed.

Lemma recruited_counts self diam ax_type ks :
  axon_entries_ok self = true ->
  get_axons_key self ax_type = Ok ks ->
  greater_than_loop self diam ks 0 0
  = Ok (count (fun k => exceeds self diam k && recruited_at self k) ks,
        count (exceeds self diam) ks)
  /\ lesser_than_loop self diam ks 0 0
     = Ok (count (fun k => below self diam k && recruited_at self k) ks,
           count (below self diam) ks).
Proof.
  intros Hok Eks.
  assert (Hax : forall k, In k ks -> exists a, axon_at self k = Some a).
  { intros k Hk. apply (axon_entries_ok_at self Hok).
    apply (get_axons_key_incl self ax_type ks Eks). exact Hk. }
  rewrite (greater_than_loop_spec self diam ks Hax).
  rewrite (lesser_than_loop_spec self diam ks Hax).
  split; reflexivity.
Qed.

(** C4.  With [ks] the keys selected by [ax_type]:
    - the diameter tests are strict;
    - [get_recruited_axons_greater_than] counts the recruited axons among
      the keys whose diameter exceeds [diam], and with [normalize] divides
      that count by the number of keys whose diameter exceeds [diam];
    - [get_recruited_axons_lesser_than] does the same with the keys whose
      diameter is less than [diam];
    - for diameters [3, 5, 7, 9] and flags [T, F, T, T], the threshold 5
      gives 2 of 2 above (ratio 1) and 1 of 1 below (ratio 1). *)
Theorem recruited_by_diameter self diam ax_type ks :
  axon_entries_ok self = true ->
  get_axons_key self ax_type = Ok ks ->
  let above := exceeds self diam in
  let under := below self diam in
  let recr := recruited_at self in
  let gt := get_recruited_axons_greater_than self diam ax_type in
  let lt := get_recruited_axons_lesser_than self diam ax_type in
  (forall k a, axon_at self k = Some a ->
     (above k = true <-> (diam < diameter a)%Q)
     /\ (under k = true <-> (diameter a < diam)%Q))
  /\ gt false = Ok (Int (count (fun k => above k && recr k) ks))
  /\ lt false = Ok (Int (count (fun k => under k && recr k) ks))
  /\ (count above ks <> 0%nat ->
        gt true = Ok (Float (ratio (count (fun k => above k && recr k) ks)
                                   (count above ks))))
  /\ (count under ks <> 0%nat ->
        lt true = Ok (Float (ratio (count (fun k => under k && recr k) ks)
                                   (count under ks))))
  /\ (map (diameter_at self) ks = [Some 3; Some 5; Some 7; Some 9]%Q ->
      map recr ks = [true; false; true; true] ->
      diam = 5%Q ->
      gt false = Ok (Int 2) /\ count above ks = 2%nat
      /\ lt false = Ok (Int 1) /\ count under ks = 1%nat
      /\ exists q1 q2, gt true = Ok (Float q1) /\ (q1 == 1)%Q
                       /\ lt true = Ok (Float q2) /\ (q2 == 1)%Q).
Proof.
  intros Hok Eks above under recr gt lt.
  destruct (recruited_counts self diam ax_type ks Hok Eks) as [Eg El].
  assert (Gf : gt false = Ok (Int (count (fun k => above k && recr k) ks))).
  { unfold gt, get_recruited_axons_greater_than. rewrite Eks. simpl.
    rewrite Eg. reflexivity. }
  assert (Lf : lt false = Ok (Int (count (fun k => under k && recr k) ks))).
  { unfold lt, get_recruited_axons_lesser_than. rewrite Eks. simpl.
    rewrite El. reflexivity. }
  assert (Gt : count above ks <> 0%nat ->
            gt true = Ok (Float (ratio (count (fun k => above k && recr k) ks)
                                       (count above ks)))).
  { intros Hn. unfold gt, get_recruited_axons_greater_than. rewrite Eks. simpl.
    rewrite Eg. simpl. unfold truediv.
    apply Nat.eqb_neq in Hn. fold above. rewrite Hn. reflexivity. }
  assert (Lt : count under ks <> 0%nat ->
            lt true = Ok (Float (ratio (count (fun k => under k && recr k) ks)
                                       (count under ks)))).
  { intros Hn. unfold lt, get_recruited_axons_lesser_than. rewrite Eks. simpl.
    rewrite El. simpl. unfold truediv.
    apply Nat.eqb_neq in Hn. fold under. rewrite Hn. reflexivity. }
  split; [|split; [exact Gf|split; [exact Lf|split; [exact Gt|split; [exact Lt|]]]]].
  - intros k a Ea. unfold above, under, exceeds, below. rewrite Ea.
    split; [apply Qgt_bool_iff | apply Qlt_bool_iff].
  - intros Ed Er ->.
    destruct ks as [|k0 [|k1 [|k2 [|k3 [|k4 rest]]]]]; try discriminate Ed.
    simpl in Ed, Er.
    injection Ed as E0 E1 E2 E3. injection Er as R0 R1 R2 R3.
    destruct (diameter_at_tests self 5 k0 _ E0) as [A0 B0].
    destruct (diameter_at_tests self 5 k1 _ E1) as [A1 B1].
    destruct (diameter_at_tests self 5 k2 _ E2) as [A2 B2].
    destruct (diameter_at_tests self 5 k3 _ E3) as [A3 B3].
    assert (Ca : count above [k0; k1; k2; k3] = 2%nat).
    { unfold count, above. simpl. rewrite A0, A1, A2, A3. reflexivity. }
    assert (Cu : count under [k0; k1; k2; k3] = 1%nat).
    { unfold count, under. simpl. rewrite B0, B1, B2, B3. reflexivity. }
    assert (Car : count (fun k => above k && recr k) [k0; k1; k2; k3] = 2%nat).
    { unfold count, above. simpl. rewrite A0, A1, A2, A3, R0, R1, R2, R3.
      reflexivity. }
    assert (Cur : count (fun k => under k && recr k) [k0; k1; k2; k3] = 1%nat).
    { unfold count, under. simpl. rewrite B0, B1, B2, B3, R0, R1, R2, R3.
      reflexivity. }
    rewrite Gf, Lf, Gt, Lt by (rewrite ?Ca, ?Cu; discriminate).
    rewrite Ca, Cu, Car, Cur.
    repeat (split; [reflexivity|]).
    exists (ratio 2 2), (ratio 1 1).
    repeat (split; [reflexivity|]). reflexivity.
Qed.

End RecruitmentClaims.

(** No axon above the threshold: the normalisation divides by zero. *)
Example recruited_ratio_empty_stratum :
  get_recruited_axons_greater_than Demo.fasc4 9 "all" false = Ok (Int 0)
  /\ get_recruited_axons_greater_than Demo.fasc4 9 "all" true
     = Raise ZeroDivisionError.
Proof. repeat split. Qed.

Lemma recruited_by_diameter_witness :
  get_recruited_axons_greater_than Demo.fasc4 5 "all" false = Ok (Int 2)
  /\ get_recruited_axons_lesser_than Demo.fasc4 5 "all" false = Ok (Int 1)
  /\ get_recruited_axons_greater_than Demo.fasc4 5 "all" true = Ok (Float (ratio 2 2))
  /\ get_recruited_axons_lesser_than Demo.fasc4 5 "all" true = Ok (Float (ratio 1 1)).
Proof.
  pose proof (recruited_by_diameter Demo.fasc4 5 "all"
                ["axon0"; "axon1"; "axon2"; "axon3"] eq_refl eq_refl) as W.
  cbv zeta in W.
  destruct W as [_ [Gf [Lf [Gt [Lt _]]]]].
  split; [exact Gf|]. split; [exact Lf|]. split.
  - apply Gt. vm_compute. discriminate.
  - apply Lt. vm_compute. discriminate.
Defined.

(** ** Membrane capacitance: areal or per-length unit *)

Lemma str_in_app_r (sub s1 s2 : string) :
  str_in sub s2 = true -> str_in sub (s1 ++ s2) = true.
Proof.
  intros E. induction s1 as [|c s1 IH]; simpl.
  - exact E.
  - rewrite IH. apply orb_true_r.
Qed.

Section Capacitance.

Context {axon : Type} `{AxonResults axon} `{UnitsModule} `{MiscModule}.
Implicit Types self : fascicle_results (axon := axon).

(** C9.  [get_membrane_capacitance] dispatches on ["2" in unit].
    With a "2" in the unit, both surface values go through one unit
    conversion from "S/cm**2" and the thickness is not used: the result
    does not depend on [mem_th]; every unit "X/cm**2" takes this branch,
    so converting the result back from "X/cm**2" gives the surface value
    again whenever that conversion can be undone, and the unit "S/cm**2"
    itself gives the surface values when converting a unit to itself
    changes nothing.  Without a "2", each surface value is multiplied by
    the thickness expressed in cm, then converted from "S/cm". *)
Theorem membrane_capacitance_dispatch self unit mem_th um mm :
  param_model self "unmyelinated_param" = Ok um ->
  param_model self "myelinated_param" = Ok mm ->
  let u_c := membrane_capacitance_from_model um in
  let m_c := membrane_capacitance_from_model mm in
  (str_in "2" unit = true ->
     get_membrane_capacitance self unit mem_th
     = Ok (convert u_c "S/cm**2" unit, convert m_c "S/cm**2" unit)
     /\ forall mem_th',
          get_membrane_capacitance self unit mem_th'
          = get_membrane_capacitance self unit mem_th)
  /\ (str_in "2" unit = false ->
       get_membrane_capacitance self unit mem_th
       = Ok (convert (u_c * from_nrv_unit mem_th "cm") "S/cm" unit,
             convert (m_c * from_nrv_unit mem_th "cm") "S/cm" unit))
  /\ (forall X,
       (forall v, convert (convert v "S/cm**2" (X ++ "/cm**2"))
                    (X ++ "/cm**2") "S/cm**2" == v)%Q ->
       exists u m,
         get_membrane_capacitance self (X ++ "/cm**2") mem_th = Ok (u, m)
         /\ (convert u (X ++ "/cm**2") "S/cm**2" == u_c)%Q
         /\ (convert m (X ++ "/cm**2") "S/cm**2" == m_c)%Q)
  /\ ((forall v, convert v "S/cm**2" "S/cm**2" == v)%Q ->
       exists u m,
         get_membrane_capacitance self "S/cm**2" mem_th = Ok (u, m)
         /\ (u == u_c)%Q /\ (m == m_c)%Q).
Proof.
  intros Eu Em u_c m_c.
  assert (Areal : forall unit' th, str_in "2" unit' = true ->
            get_membrane_capacitance self unit' th
            = Ok (convert u_c "S/cm**2" unit', convert m_c "S/cm**2" unit')).
  { intros unit' th E. unfold get_membrane_capacitance.
    rewrite Eu, Em. simpl. rewrite E. reflexivity. }
  split; [|split; [|split]].
  - intros E. split.
    + apply Areal. exact E.
    + intros th'. rewrite !Areal by exact E. reflexivity.
  - intros E. unfold get_membrane_capacitance.
    rewrite Eu, Em. simpl. rewrite E. reflexivity.
  - intros X Hback. eexists. eexists. split.
    + apply Areal. apply str_in_app_r. reflexivity.
    + split; apply Hback.
  - intros Hsame. eexists. eexists. split.
    + apply Areal. reflexivity.
    + split; apply Hsame.
Qed.

End Capacitance.

Lemma membrane_capacitance_dispatch_witness :
  get_membrane_capacitance Demo.fasc4 "mS/cm**2" (7 # 1000)
  = get_membrane_capacitance Demo.fasc4 "mS/cm**2" 1
  /\ get_membrane_capacitance Demo.fasc4 "S/m" (7 # 1000)
     = Ok (convert (1 * from_nrv_unit (7 # 1000) "cm") "S/cm" "S/m",
           convert (2 * from_nrv_unit (7 # 1000) "cm") "S/cm" "S/m")
  /\ (exists u m,
        get_membrane_capacitance Demo.fasc4 "mS/cm**2" (7 # 1000) = Ok (u, m)
        /\ (convert u "mS/cm**2" "S/cm**2" == 1)%Q
        /\ (convert m "mS/cm**2" "S/cm**2" == 2)%Q)
  /\ (exists u m,
        get_membrane_capacitance Demo.fasc4 "S/cm**2" (7 # 1000) = Ok (u, m)
        /\ (u == 1)%Q /\ (m == 2)%Q).
Proof.
  pose proof (membrane_capacitance_dispatch Demo.fasc4 "mS/cm**2" 1
                "Rattay_Aberham" "MRG" eq_refl eq_refl) as W1.
  pose proof (membrane_capacitance_dispatch Demo.fasc4 "S/m" (7 # 1000)
                "Rattay_Aberham" "MRG" eq_refl eq_refl) as W2.
  pose proof (membrane_capacitance_dispatch Demo.fasc4 "S/cm**2" (7 # 1000)
                "Rattay_Aberham" "MRG" eq_refl eq_refl) as W3.
  cbv zeta in W1, W2, W3.
  destruct W1 as [A1 _]. destruct W2 as [_ [B2 _]]. destruct W3 as [_ [_ [C3 D3]]].
  split; [|split; [|split]].
  - apply (proj2 (A1 eq_refl)).
  - apply (B2 eq_refl).
  - apply (C3 "mS"). intros v. simpl. field.
    split; intros E; vm_compute in E; discriminate E.
  - apply D3. intros v. simpl. field.
    intros E; vm_compute in E; discriminate E.
Defined.

(** ** Structural label of a computation point *)

Import Myelinated.

Lemma getitem_list_nth {A} (l : list A) (i : Z) (a : A) :
  (0 <= i)%Z -> nth_error l (Z.to_nat i) = Some a -> getitem_list l i = Ok a.
Proof.
  intros Hi E. unfold getitem_list.
  assert (Hlen : (Z.to_nat i < List.length l)%nat)
    by (apply nth_error_Some; congruence).
  destruct (Z.ltb_spec i 0) as [Hneg|_]; [lia|].
  destruct (Z.leb_spec 0 i) as [_|Hneg]; [|lia].
  destruct (Z.ltb_spec i (Z.of_nat (List.length l))) as [_|Hge]; [|lia].
  simpl. rewrite E. reflexivity.
Qed.

Lemma getitem_list_short {A} (l : list A) (i : Z) :
  (0 <= i < Z.of_nat (List.length l))%Z -> exists a, getitem_list l i = Ok a.
Proof.
  intros Hi. destruct (nth_error l (Z.to_nat i)) as [a|] eqn:E.
  - exists a. apply getitem_list_nth; [lia | exact E].
  - apply nth_error_None in E. lia.
Qed.

(** C5.  In recording mode "nodes" every index is labelled "node" and
    nothing is logged.  Otherwise index 0 is labelled with the first entry
    of the stored sequence, and an index [n >= 1] with the entry at position
    [((n - 1) // (Nseg_per_sec + 1)) % 11], a position of the 11-element
    pattern. *)
Theorem index_sequence_policy (self : myelinated_results) (n : Z)
    (log : list string) :
  (rec self = "nodes" ->
     get_index_myelinated_sequence self n log = (Ok "node", log))
  /\ (rec self <> "nodes" ->
       fst (get_index_myelinated_sequence self 0 log)
       = getitem_list (axon_path_type self) 0
       /\ (forall first, nth_error (axon_path_type self) 0 = Some first ->
             fst (get_index_myelinated_sequence self 0 log) = Ok first)
       /\ ((1 <= n)%Z -> (Nseg_per_sec self + 1 <> 0)%Z ->
            let pos := (((n - 1) / (Nseg_per_sec self + 1)) mod 11)%Z in
            (0 <= pos < 11)%Z
            /\ fst (get_index_myelinated_sequence self n log)
               = getitem_list (axon_path_type self) pos
            /\ (forall label,
                  nth_error (axon_path_type self) (Z.to_nat pos) = Some label ->
                  fst (get_index_myelinated_sequence self n log) = Ok label))).
Proof.
  split.
  - intros E. unfold get_index_myelinated_sequence. rewrite E. reflexivity.
  - intros Hrec. apply String.eqb_neq in Hrec.
    assert (E0 : fst (get_index_myelinated_sequence self 0 log)
                 = getitem_list (axon_path_type self) 0).
    { unfold get_index_myelinated_sequence, wbind, warn, wret, lift.
      rewrite Hrec. destruct (0 >? _)%Z; reflexivity. }
    split; [exact E0|]. split.
    + intros first Hfirst. rewrite E0.
      apply getitem_list_nth; [lia | exact Hfirst].
    + intros Hn HN pos.
      assert (Hpos : (0 <= pos < 11)%Z) by (apply Z.mod_pos_bound; lia).
      assert (En : fst (get_index_myelinated_sequence self n log)
                   = getitem_list (axon_path_type self) pos).
      { unfold get_index_myelinated_sequence, wbind, warn, wret, lift,
          floordiv, pymod.
        rewrite Hrec.
        destruct (Z.eqb_spec n 0) as [->|_]; [lia|].
        destruct (Z.eqb_spec (Nseg_per_sec self + 1) 0) as [E|_]; [lia|].
        destruct (n >? _)%Z; reflexivity. }
      split; [exact Hpos|]. split; [exact En|].
      intros label Hlabel. rewrite En.
      apply getitem_list_nth; [lia | exact Hlabel].
Qed.

Lemma index_sequence_policy_witness :
  get_index_myelinated_sequence (Demo.myel_nodes 6) 4 [] = (Ok "node", [])
  /\ fst (get_index_myelinated_sequence (Demo.myel 6) 0 []) = Ok "node"
  /\ fst (get_index_myelinated_sequence (Demo.myel 6) 5 []) = Ok "FLUT".
Proof.
  destruct (index_sequence_policy (Demo.myel_nodes 6) 4 []) as [Wn _].
  destruct (index_sequence_policy (Demo.myel 6) 5 []) as [_ Wa].
  assert (Hrec : rec (Demo.myel 6) <> "nodes") by discriminate.
  destruct (Wa Hrec) as [_ [W0 Wpos]].
  assert (H5 : (1 <= 5)%Z) by lia.
  assert (HN : (Nseg_per_sec (Demo.myel 6) + 1 <> 0)%Z) by discriminate.
  destruct (Wpos H5 HN) as [_ [_ W5]].
  split; [|split].
  - apply Wn. reflexivity.
  - apply W0. reflexivity.
  - apply W5. reflexivity.
Defined.

(** Outside the "nodes" mode the warning is logged exactly when
    [n > len(x_rec)], whatever the label lookup does afterwards. *)
Lemma index_warning_guard (self : myelinated_results) (n : Z) (log : list string) :
  rec self <> "nodes" ->
  snd (get_index_myelinated_sequence self n log)
  = if (n >? Z.of_nat (List.length (x_rec self)))%Z
    then (log ++ ["index not in axon"])%list
    else log.
Proof.
  intros Hrec. apply String.eqb_neq in Hrec.
  unfold get_index_myelinated_sequence, wbind, warn, wret, lift, rise_warning.
  rewrite Hrec.
  destruct (n >? _)%Z; destruct (n =? 0)%Z; reflexivity.
Qed.

(** C6.  The guard of [get_index_myelinated_sequence] is [n > len(x_rec)]:
    on a recording of three points, the index 3 is past the last recorded
    point, a label is returned and nothing is logged. *)
Theorem index_at_length_not_warned :
  List.length (x_rec (Demo.myel 3)) = 3%nat
  /\ get_index_myelinated_sequence (Demo.myel 3) 3 [] = (Ok "MYSA", [])
  /\ get_index_myelinated_sequence (Demo.myel 3) 4 []
     = (Ok "MYSA", ["index not in axon"]).
Proof. repeat split. Qed.

(** ** Central node *)

Lemma index_sequence_quiet (self : myelinated_results) (n : Z) (log : list string) :
  rec self <> "nodes" ->
  sequence_ok self = true ->
  (0 <= n <= Z.of_nat (List.length (x_rec self)))%Z ->
  exists s, get_index_myelinated_sequence self n log = (Ok s, log).
Proof.
  intros Hrec Hok Hn. apply String.eqb_neq in Hrec.
  unfold sequence_ok in Hok. apply andb_true_iff in Hok.
  destruct Hok as [HN Hlen]. apply negb_true_iff in HN.
  apply Nat.leb_le in Hlen.
  unfold get_index_myelinated_sequence, wbind, warn, wret, lift, floordiv, pymod.
  rewrite Hrec, HN.
  destruct (Z.gtb_spec n (Z.of_nat (List.length (x_rec self)))) as [Hgt|_]; [lia|].
  destruct (n =? 0)%Z.
  - destruct (getitem_list_short (axon_path_type self) 0) as [s Es]; [lia|].
    exists s. rewrite Es. reflexivity.
  - simpl.
    pose proof (Z.mod_pos_bound ((n - 1) / (Nseg_per_sec self + 1)) 11) as Hpos.
    destruct (getitem_list_short (axon_path_type self)
                (((n - 1) / (Nseg_per_sec self + 1)) mod 11)%Z) as [s Es]; [lia|].
    exists s. rewrite Es. reflexivity.
Qed.

Lemma index_sequence_is_node (self : myelinated_results) (n : Z)
    (log : list string) (s : string) :
  get_index_myelinated_sequence self n log = (Ok s, log) ->
  is_node self n = String.eqb s "node".
Proof.
  unfold is_node, get_index_myelinated_sequence, wbind, warn, wret, lift.
  destruct (rec self =? "nodes").
  - intros E. injection E as <-. reflexivity.
  - destruct (n >? _)%Z; simpl.
    + destruct (n =? 0)%Z; simpl; intros E; injection E as E _; rewrite E; reflexivity.
    + destruct (n =? 0)%Z; simpl; intros E; injection E as E; rewrite E; reflexivity.
Qed.

Lemma central_node_loop_spec (self : myelinated_results) (c : nat)
    (offsets : list nat) (log : list string) :
  rec self <> "nodes" ->
  sequence_ok self = true ->
  (2 * c <= List.length (x_rec self))%nat ->
  (forall i, In i offsets -> (i < c)%nat) ->
  central_node_loop self (Z.of_nat c) offsets log
  = (Ok (find (is_node self)
           (flat_map (fun i => [(Z.of_nat c + Z.of_nat i)%Z;
                                (Z.of_nat c - Z.of_nat i)%Z]) offsets)),
     log).
Proof.
  intros Hrec Hok Hc. induction offsets as [|i rest IH]; intros Hoff.
  - reflexivity.
  - assert (Hi : (i < c)%nat) by (apply Hoff; left; reflexivity).
    cbn [central_node_loop flat_map app find]. unfold wbind at 1.
    destruct (index_sequence_quiet self (Z.of_nat c + Z.of_nat i) log Hrec Hok)
      as [s1 E1]; [lia|].
    rewrite E1. rewrite (index_sequence_is_node self _ log s1 E1).
    destruct (s1 =? "node"); [reflexivity|].
    unfold wbind at 1.
    destruct (index_sequence_quiet self (Z.of_nat c - Z.of_nat i) log Hrec Hok)
      as [s2 E2]; [lia|].
    rewrite E2. rewrite (index_sequence_is_node self _ log s2 E2).
    destruct (s2 =? "node"); [reflexivity|].
    apply IH. intros i' Hi'. apply Hoff. right. exact Hi'.
Qed.

Lemma find_first {A} (p : A -> bool) (l : list A) (k : A) :
  find p l = Some k ->
  exists before after,
    l = (before ++ k :: after)%list
    /\ p k = true
    /\ forall j, In j before -> p j = false.
Proof.
  induction l as [|x xs IH]; simpl; [discriminate|].
  destruct (p x) eqn:Ex.
  - intros E. injection E as <-. exists [], xs.
    split; [reflexivity|]. split; [exact Ex|]. intros j [].
  - intros E. destruct (IH E) as [before [after [El [Ek Hb]]]].
    exists (x :: before), after. split; [rewrite El; reflexivity|].
    split; [exact Ek|]. intros j [<-|Hj]; [exact Ex | apply Hb; exact Hj].
Qed.

(** C7.  In recording mode "nodes" the midpoint index [len(x_rec) // 2] is
    returned and nothing is logged.  Otherwise, on a well-formed sequence,
    the call never raises: it returns the first index, in the order
    midpoint + 0, midpoint - 0, midpoint + 1, midpoint - 1, ..., that is
    classified as a node; when no visited index is, it logs one warning and
    returns the midpoint. *)
Theorem central_node_search (self : myelinated_results) (log : list string) :
  let n_center := (List.length (x_rec self) / 2)%nat in
  (rec self = "nodes" ->
     find_central_node_index self log = (Ok (Z.of_nat n_center), log))
  /\ (rec self <> "nodes" -> sequence_ok self = true ->
       match find (is_node self) (search_order n_center) with
       | Some k =>
           find_central_node_index self log = (Ok k, log)
           /\ exists before after,
               search_order n_center = (before ++ k :: after)%list
               /\ is_node self k = true
               /\ forall j, In j before -> is_node self j = false
       | None =>
           find_central_node_index self log
           = (Ok (Z.of_nat n_center),
              (log ++ ["No node found in the axon"])%list)
           /\ forall j, In j (search_order n_center) -> is_node self j = false
       end).
Proof.
  intros n_center. split.
  - intros E. unfold find_central_node_index. rewrite E. reflexivity.
  - intros Hrec Hok.
    assert (Hc : (2 * n_center <= List.length (x_rec self))%nat).
    { unfold n_center.
      pose proof (Nat.div_mod_eq (List.length (x_rec self)) 2). lia. }
    assert (Hloop := central_node_loop_spec self n_center (seq 0 n_center) log
                       Hrec Hok Hc).
    assert (Hseq : forall i, In i (seq 0 n_center) -> (i < n_center)%nat)
      by (intros i Hi; apply in_seq in Hi; lia).
    specialize (Hloop Hseq). fold (search_order n_center) in Hloop.
    assert (Hrun : find_central_node_index self log
                   = match find (is_node self) (search_order n_center) with
                     | Some k => (Ok k, log)
                     | None => (Ok (Z.of_nat n_center),
                                (log ++ ["No node found in the axon"])%list)
                     end).
    { unfold find_central_node_index. fold n_center.
      apply String.eqb_neq in Hrec. rewrite Hrec.
      unfold wbind at 1. rewrite Hloop.
      destruct (find (is_node self) (search_order n_center)); reflexivity. }
    rewrite Hrun.
    destruct (find (is_node self) (search_order n_center)) as [k|] eqn:Ef.
    + split; [reflexivity|]. apply find_first. exact Ef.
    + split; [reflexivity|]. intros j Hj.
      destruct (is_node self j) eqn:Ej; [|reflexivity].
      exfalso. apply (find_none _ _ Ef) in Hj. congruence.
Qed.

Lemma central_node_search_witness :
  find_central_node_index (Demo.myel_nodes 7) [] = (Ok 3%Z, [])
  /\ find_central_node_index (Demo.myel 6) [] = (Ok 2%Z, [])
  /\ find_central_node_index (Demo.myel 1) []
     = (Ok 0%Z, ["No node found in the axon"]).
Proof.
  destruct (central_node_search (Demo.myel_nodes 7) []) as [Wn _].
  destruct (central_node_search (Demo.myel 6) []) as [_ W6].
  destruct (central_node_search (Demo.myel 1) []) as [_ W1].
  assert (H6 : rec (Demo.myel 6) <> "nodes") by discriminate.
  assert (H1 : rec (Demo.myel 1) <> "nodes") by discriminate.
  split; [|split].
  - apply Wn. reflexivity.
  - apply (proj1 (W6 H6 eq_refl)).
  - apply (proj1 (W1 H1 eq_refl)).
Defined.

(** ** Myelin properties *)

Lemma masked_update_twice (f1 f2 : Q -> Q) (p : Q -> bool) (g : list Q) :
  masked_update f2 (map p g) (masked_update f1 (map p g) g)
  = map (fun x => if p x then f2 (f1 x) else x) g.
Proof.
  induction g as [|x g IH]; simpl.
  - reflexivity.
  - rewrite IH. destruct (p x); reflexivity.
Qed.





Lemma np_divide_same_length (a b : list Q) (w : list string) :
  List.length a = List.length b ->
  np_divide a b w
  = (Ok (map (fun p => Np.true_divide (fst p) (snd p)) (combine a b)),
     (w ++ divide_warnings (combine a b))%list).
Proof.
  intros E. unfold np_divide, broadcast. rewrite E, Nat.eqb_refl. reflexivity.
Qed.





Section MyelinProperties.

Context `{UnitsModule} `{UnitsOfNonFinite} `{MaterialsModule} `{AxonFactory}.

(** The call outside recording mode "nodes", in one equation: [g] is the
    conductance array after the optional sentinel replacement. *)
Lemma get_myelin_properties_conductance (self : myelinated_results)
    (endo_mat : option endo) (log : list string) :
  rec self <> "nodes" ->
  let ax := generate_axon self in
  let g0 := get_myelin_conductance ax in
  let c := get_myelin_capacitance ax in
  let g := match endo_mat with
           | Some e =>
               map (fun x => if Np.isclose x sentinel
                             then x * 0 + convert (sigma (resolve_material e))
                                            "S/m**2" "S/cm**2"
                             else x) g0
           | None => g0
           end in
  get_myelin_properties self endo_mat log
  = match np_divide g (map (fun x => 2 * Np.pi * x) c) [] with
    | (Raise e, warnings) =>
        (Raise e,
         {| rec := rec self; x_rec := x_rec self;
            Nseg_per_sec := Nseg_per_sec self;
            axon_path_type := axon_path_type self;
            g_mye := Some g; c_mye := Some c; f_mye := f_mye self |},
         log, warnings)
    | (Ok f, warnings) =>
        (Ok (Some (g, c, map (fun x => to_nrv_unit_float x "MHz") f)),
         {| rec := rec self; x_rec := x_rec self;
            Nseg_per_sec := Nseg_per_sec self;
            axon_path_type := axon_path_type self;
            g_mye := Some g; c_mye := Some c;
            f_mye := Some (map (fun x => to_nrv_unit_float x "MHz") f) |},
         log, warnings)
    end.
Proof.
  intros Hrec ax g0 c g. apply String.eqb_neq in Hrec.
  unfold get_myelin_properties. rewrite Hrec. fold ax. fold g0. fold c.
  assert (Eg : match endo_mat with
               | Some e =>
                   masked_update
                     (fun x => x + convert (sigma (resolve_material e))
                                     "S/m**2" "S/cm**2")
                     (map (fun x => Np.isclose x sentinel) g0)
                     (masked_update (fun x => x * 0)
                        (map (fun x => Np.isclose x sentinel) g0) g0)
               | None => g0
               end = g).
  { unfold g. destruct endo_mat as [e|]; [|reflexivity].
    rewrite masked_update_twice. reflexivity. }
  rewrite Eg.
  destruct (np_divide g (map (fun x => 2 * Np.pi * x) c) []) as [[f|e] w];
    reflexivity.
Qed.


End MyelinProperties.


(** ** Block-summary plot *)

Lemma fold_max_ge (l : list Z) (x : Z) :
  (x <= fold_left Z.max l x)%Z
  /\ (forall n, In n l -> (n <= fold_left Z.max l x)%Z)
  /\ (fold_left Z.max l x = x \/ In (fold_left Z.max l x) l).
Proof.
  revert x. induction l as [|n l IH]; intros x; simpl.
  - split; [lia|]. split; [tauto | left; reflexivity].
  - destruct (IH (Z.max x n)) as [H1 [H2 H3]]. split; [lia|]. split.
    + intros k [<-|Hk]; [lia | apply H2; exact Hk].
    + destruct H3 as [E|Hin]; [|right; right; exact Hin].
      rewrite E. destruct (Z.max_spec x n) as [[_ ->]|[_ ->]];
        [right; left; reflexivity | left; reflexivity].
Qed.

Lemma max_onset_spec (ns : list Z) :
  ns <> [] ->
  In (max_onset ns) ns /\ forall n, In n ns -> (n <= max_onset ns)%Z.
Proof.
  destruct ns as [|x l]; [congruence|]. intros _. simpl.
  destruct (fold_max_ge l x) as [H1 [H2 H3]]. split.
  - destruct H3 as [->|Hin]; [left; reflexivity | right; exact Hin].
  - intros n [<-|Hn]; [exact H1 | apply H2; exact Hn].
Qed.

Lemma np_max_onset (ns : list Z) :
  ns <> [] -> Np.max ns = Ok (max_onset ns).
Proof. destruct ns; [congruence | reflexivity]. Qed.

Lemma getitem_map_mid {A B} (f : A -> B) (pre rest : list A) (a : A) :
  getitem_list (map f (pre ++ a :: rest)) (Z.of_nat (List.length pre)) = Ok (f a).
Proof.
  apply getitem_list_nth; [lia|].
  rewrite Nat2Z.id, nth_error_map, nth_error_app2 by lia.
  rewrite Nat.sub_diag. reflexivity.
Qed.

Section BlockPlot.

Context {axon : Type} `{AxonResults axon}.
Implicit Types self : fascicle_results (axon := axon).

Lemma block_summary_loop_spec self AP_start freq t_refractory ks :
  (forall k, In k ks -> exists a, axon_at self k = Some a) ->
  forall acc,
    block_summary_loop self AP_start freq t_refractory ks acc
    = Ok (let axs := summarized_keys self AP_start freq t_refractory ks in
          {| axon_diam := axon_diam acc ++ map diameter axs;
             axon_type := axon_type acc ++ map myelinated axs;
             axon_y := axon_y acc ++ map y axs;
             axon_z := axon_z acc ++ map z axs;
             blocked := blocked acc ++ map is_blocked axs;
             onsets := onsets acc ++ map n_onset axs |}).
Proof.
  induction ks as [|k rest IH]; intros Hax acc.
  - simpl. rewrite !app_nil_r. destruct acc; reflexivity.
  - destruct (Hax k (or_introl eq_refl)) as [a Ea].
    cbn [block_summary_loop]. rewrite (axon_of_ok self _ k a Ea).
    cbn [bind]. rewrite IH by (intros k' Hk'; apply Hax; right; exact Hk').
    cbn [summarized_keys flat_map]. rewrite Ea.
    cbv zeta. cbn [axon_diam axon_type axon_y axon_z blocked onsets app map].
    rewrite <- !app_assoc. reflexivity.
Qed.

Lemma get_block_summary_axons_spec self AP_start freq t_refractory :
  axon_entries_ok self = true ->
  get_block_summary_axons self AP_start freq t_refractory
  = Ok (lists_of (summarized self AP_start freq t_refractory)).
Proof.
  intros Hok. unfold get_block_summary_axons.
  rewrite get_axons_key_all. cbn [bind].
  rewrite block_summary_loop_spec by (apply axon_entries_ok_at; exact Hok).
  reflexivity.
Qed.

Lemma block_patches_loop_spec alpha_g (rest : list axon) :
  forall pre,
    block_patches_loop (lists_of (pre ++ rest)) alpha_g
      (seq (List.length pre) (List.length rest))
    = Ok (flat_map (axon_patch alpha_g) rest).
Proof.
  induction rest as [|a rest IH]; intros pre.
  - reflexivity.
  - cbn [List.length seq block_patches_loop].
    change (blocked (lists_of (pre ++ a :: rest)))
      with (map is_blocked (pre ++ a :: rest)).
    change (onsets (lists_of (pre ++ a :: rest)))
      with (map n_onset (pre ++ a :: rest)).
    change (axon_y (lists_of (pre ++ a :: rest)))
      with (map y (pre ++ a :: rest)).
    change (axon_z (lists_of (pre ++ a :: rest)))
      with (map z (pre ++ a :: rest)).
    change (axon_diam (lists_of (pre ++ a :: rest)))
      with (map diameter (pre ++ a :: rest)).
    rewrite !getitem_map_mid. cbn [bind].
    replace (pre ++ a :: rest)%list with ((pre ++ [a]) ++ rest)%list
      by (rewrite <- app_assoc; reflexivity).
    replace (S (List.length pre)) with (List.length (pre ++ [a])%list)
      by (rewrite length_app; simpl; lia).
    rewrite (IH (pre ++ [a])%list). cbn [bind flat_map].
    unfold axon_patch, cross, color, opacity, is_true.
    destruct (is_blocked a) as [[|]|]; destruct (n_onset a =? 0)%Z; reflexivity.
Qed.

End BlockPlot.

Lemma wbind_lift_ok {A B} (r : result A) (a : A) (k : A -> W B) (w : list string) :
  r = Ok a -> wbind (lift r) k w = k a w.
Proof. intros ->. reflexivity. Qed.

(** Off the coordinating process nothing is drawn and nothing is computed. *)
Lemma plot_block_summary_not_master {axon : Type} `{AxonResults axon}
    (self : fascicle_results (axon := axon)) AP_start freq t_refractory
    contour_color num warnings :
  plot_block_summary false self AP_start freq t_refractory contour_color num
    warnings = (Ok [], warnings).
Proof. reflexivity. Qed.

Section BlockPlotClaims.

Context {axon : Type} `{AxonResults axon}.
Implicit Types self : fascicle_results (axon := axon).

Lemma plot_block_summary_run self AP_start freq t_refractory contour_color
    num yc zc D warnings :
  axon_entries_ok self = true ->
  float_attr self "y_grav_center" = Ok yc ->
  float_attr self "z_grav_center" = Ok zc ->
  float_attr self "D" = Ok D ->
  let axs := summarized self AP_start freq t_refractory in
  let m := max_onset (map n_onset axs) in
  axs <> [] ->
  forall alpha_g warnings',
    Np.reciprocal m warnings = (Ok alpha_g, warnings') ->
    plot_block_summary true self AP_start freq t_refractory contour_color num
      warnings
    = (block_summary_drawing self num contour_color yc zc D alpha_g axs,
       warnings').
Proof.
  intros Hok Ey Ez ED axs m Hne alpha_g warnings' Erec.
  unfold plot_block_summary.
  rewrite (wbind_lift_ok _ yc) by exact Ey.
  rewrite (wbind_lift_ok _ zc) by exact Ez.
  rewrite (wbind_lift_ok _ D) by exact ED.
  rewrite (wbind_lift_ok _ (lists_of axs))
    by (apply get_block_summary_axons_spec; exact Hok).
  rewrite (wbind_lift_ok _ m).
  2:{ apply np_max_onset. unfold lists_of. simpl.
      intros E. apply Hne. apply map_eq_nil in E. exact E. }
  unfold wbind at 1. rewrite Erec.
  rewrite (wbind_lift_ok _ (flat_map (axon_patch alpha_g) axs)).
  2:{ unfold lists_of at 2. cbn [axon_diam]. rewrite length_map.
      apply (block_patches_loop_spec alpha_g axs []). }
  unfold block_summary_drawing, block_summary_tail, wbind, lift, wret.
  destruct (getattr self "extra_stim") as [e|]; cbn [bind]; [|reflexivity].
  destruct (match e with
            | EStim => Ok [StimPlot "gold" D]
            | EOther PyNone => Ok []
            | _ => Raise (AttributeError "plot")
            end) as [stim|]; cbn [bind]; [|reflexivity].
  destruct (if num then n <- n_ax self ;; numbering_loop self (seq 0 n)
            else Ok []) as [texts|]; reflexivity.
Qed.

(** C10.  On the coordinating process, for a fascicle that stores its
    centre and diameter and has at least one axon, [alpha_g] is
    [1 / np.max(n_onset)], with [m] the greatest onset count over all axons,
    computed once before the loop over the axons.  The call then draws the
    contour, the patches of every axon in axon-key order, each circle with
    its [opacity], and the tail (stimulation overlay, index labels, axis
    limits); it returns whenever the tail can be drawn.
    When every onset count is 0 the maximum is 0, the division by zero
    is reported, the factor is [inf], and no drawn axon uses it: each
    opacity is the constant 0.5 or 1.  When some onset count is positive
    the maximum is positive, nothing is reported, and the opacity of each
    axon with onsets is its onset count divided by the maximum. *)
Theorem block_summary_opacity self AP_start freq t_refractory contour_color
    num yc zc D warnings :
  axon_entries_ok self = true ->
  float_attr self "y_grav_center" = Ok yc ->
  float_attr self "z_grav_center" = Ok zc ->
  float_attr self "D" = Ok D ->
  let axs := summarized self AP_start freq t_refractory in
  let ns := map n_onset axs in
  let m := max_onset ns in
  let run := plot_block_summary true self AP_start freq t_refractory
               contour_color num warnings in
  let contour := Circle yc zc (D / 2) contour_color false None (Some 2%Z) in
  axs <> [] ->
  (In m ns /\ forall n, In n ns -> (n <= m)%Z)
  /\ ((forall n, In n ns -> n = 0%Z) ->
     m = 0%Z
     /\ run = (block_summary_drawing self num contour_color yc zc D Np.PInf axs,
               (warnings ++ [Np.divide_by_zero])%list)
     /\ (forall tail, block_summary_tail self num yc zc D = Ok tail ->
           fst run
           = Ok (contour :: flat_map (axon_patch Np.PInf) axs ++ tail)%list)
     /\ (forall a, In a axs ->
           opacity Np.PInf a = Np.Fin (1 # 2) \/ opacity Np.PInf a = Np.Fin 1))
  /\ ((exists n, In n ns /\ (0 < n)%Z) ->
      (0 < m)%Z
      /\ run = (block_summary_drawing self num contour_color yc zc D
                  (Np.Fin (1 / inject_Z m)) axs,
                warnings)
      /\ (forall tail, block_summary_tail self num yc zc D = Ok tail ->
            fst run
            = Ok (contour
                    :: flat_map (axon_patch (Np.Fin (1 / inject_Z m))) axs
                    ++ tail)%list)
      /\ (forall a, In a axs -> n_onset a <> 0%Z ->
            exists q, opacity (Np.Fin (1 / inject_Z m)) a = Np.Fin q
                      /\ (q == inject_Z (n_onset a) / inject_Z m)%Q)).
Proof.
  intros Hok Ey Ez ED axs ns m run contour Hne.
  assert (Hns : ns <> []).
  { unfold ns. intros E. apply Hne. apply map_eq_nil in E. exact E. }
  destruct (max_onset_spec ns Hns) as [Hin Hmax]. fold m in Hin, Hmax.
  pose proof (plot_block_summary_run self AP_start freq t_refractory
                contour_color num yc zc D warnings Hok Ey Ez ED Hne) as Hrun.
  cbv zeta in Hrun. fold axs in Hrun. fold ns in Hrun. fold m in Hrun.
  fold run in Hrun.
  split; [split; [exact Hin | exact Hmax]|]. split.
  - intros Hzero.
    assert (Em : m = 0%Z) by (apply Hzero; exact Hin).
    assert (Er := Hrun Np.PInf (warnings ++ [Np.divide_by_zero])%list).
    unfold Np.reciprocal in Er. rewrite Em in Er. specialize (Er eq_refl).
    split; [exact Em|]. split; [exact Er|]. split.
    + intros tail Et. rewrite Er. unfold block_summary_drawing. rewrite Et.
      reflexivity.
    + intros a Ha. unfold opacity.
      assert (En : n_onset a = 0%Z)
        by (apply Hzero; unfold ns; apply in_map; exact Ha).
      rewrite En. simpl.
      destruct (is_true (is_blocked a)); [right | left]; reflexivity.
  - intros [n [Hn Hpos]].
    assert (Hm : (0 < m)%Z) by (specialize (Hmax n Hn); lia).
    assert (Er := Hrun (Np.Fin (1 / inject_Z m)) warnings).
    unfold Np.reciprocal in Er.
    destruct (Z.eqb_spec m 0) as [E|_]; [lia|]. specialize (Er eq_refl).
    split; [exact Hm|]. split; [exact Er|]. split.
    + intros tail Et. rewrite Er. unfold block_summary_drawing. rewrite Et.
      reflexivity.
    + intros a Ha Hna. unfold opacity.
      destruct (Z.eqb_spec (n_onset a) 0) as [E|_]; [contradiction|].
      simpl. eexists. split; [reflexivity|].
      field. intros E. unfold Qeq in E. simpl in E. lia.
Qed.

End BlockPlotClaims.

Lemma block_summary_opacity_witness :
  plot_block_summary true Demo.fasc3_gap 1 None 1 "k" false []
  = (Ok [Circle 0 0 (100 / 2) "k" false None (Some 2%Z);
         Circle 0 0 (3 / 2) "grey" true (Some (Np.Fin (1 # 2))) None;
         Circle 0 0 (5 / 2) "seagreen" true (Some (Np.Fin 1)) None;
         Scatter 0 0 "x" 20 "k";
         Circle 0 0 (7 / 2) "grey" true (Some (Np.Fin (1 # 2))) None;
         SetXlim (- (11 # 10) * 100 / 2 + 0) ((11 # 10) * 100 / 2 + 0);
         SetYlim (- (11 # 10) * 100 / 2 + 0) ((11 # 10) * 100 / 2 + 0)],
     [Np.divide_by_zero])
  /\ plot_block_summary true Demo.fasc4 1 None 1 "k" true []
     = (Ok [Circle 0 0 (100 / 2) "k" false None (Some 2%Z);
            Circle 0 0 (3 / 2) "grey" true (Some (Np.Fin (1 # 2))) None;
            Circle 0 0 (5 / 2) "steelblue" true
              (Some (Np.Fin (2 * (1 / 4)))) None;
            Scatter 0 0 "x" 20 "k";
            Circle 0 0 (7 / 2) "orangered" true
              (Some (Np.Fin (4 * (1 / 4)))) None;
            Circle 0 0 (9 / 2) "seagreen" true (Some (Np.Fin 1)) None;
            Text 0 0 0; Text 0 0 1; Text 0 0 2; Text 0 0 3;
            SetXlim (- (11 # 10) * 100 / 2 + 0) ((11 # 10) * 100 / 2 + 0);
            SetYlim (- (11 # 10) * 100 / 2 + 0) ((11 # 10) * 100 / 2 + 0)],
        [])
  /\ forall a, In a (summarized Demo.fasc4 1 None 1) -> n_onset a <> 0%Z ->
       exists q, opacity (Np.Fin (1 / inject_Z 4)) a = Np.Fin q
                 /\ (q == inject_Z (n_onset a) / inject_Z 4)%Q.
Proof.
  pose proof (block_summary_opacity Demo.fasc3_gap 1 None 1 "k" false 0 0 100 []
                eq_refl eq_refl eq_refl eq_refl) as W0.
  pose proof (block_summary_opacity Demo.fasc4 1 None 1 "k" true 0 0 100 []
                eq_refl eq_refl eq_refl eq_refl) as W4.
  cbv zeta in W0, W4.
  assert (N0 : summarized Demo.fasc3_gap 1 None 1 <> []) by discriminate.
  assert (N4 : summarized Demo.fasc4 1 None 1 <> []) by discriminate.
  destruct (W0 N0) as [_ [Z0 _]]. destruct (W4 N4) as [_ [_ P4]].
  assert (H0 : forall n, In n (map n_onset (summarized Demo.fasc3_gap 1 None 1)) ->
                         n = 0%Z).
  { simpl. intros n [<-|[<-|[<-|[]]]]; reflexivity. }
  assert (H4 : exists n, In n (map n_onset (summarized Demo.fasc4 1 None 1))
                         /\ (0 < n)%Z).
  { exists 2%Z. split; [|lia]. simpl. right. left. reflexivity. }
  destruct (Z0 H0) as [_ [E0 _]]. destruct (P4 H4) as [_ [E4 [_ O4]]].
  split; [|split].
  - rewrite E0. vm_compute. reflexivity.
  - rewrite E4. vm_compute. reflexivity.
  - exact O4.
Defined.

(** * Further properties of the fascicle results *)

Lemma filterM_raise {A} (p : A -> result bool) (e : exn) (l : list A) :
  (forall x, In x l -> (exists b, p x = Ok b) \/ p x = Raise e) ->
  (exists x, In x l /\ p x = Raise e) ->
  filterM p l = Raise e.
Proof.
  induction l as [|x xs IH]; intros Hall [x0 [Hin E0]].
  - destruct Hin.
  - simpl. destruct (Hall x (or_introl eq_refl)) as [[b Eb]|Er].
    + rewrite Eb. simpl. rewrite IH.
      * reflexivity.
      * intros x' Hx'. apply Hall. right. exact Hx'.
      * destruct Hin as [<-|Hin]; [congruence|]. exists x0. auto.
    + rewrite Er. reflexivity.
Qed.

Lemma count_le_length (p : string -> bool) (ks : list string) :
  (count p ks <= List.length ks)%nat.
Proof. unfold count. apply filter_length_le. Qed.

Lemma count_split (p t u : string -> bool) (ks : list string) :
  (forall k, In k ks -> u k = negb (t k)) ->
  count p ks = (count p (filter t ks) + count p (filter u ks))%nat.
Proof.
  unfold count. induction ks as [|k ks IH]; intros Hu.
  - reflexivity.
  - assert (IH' := IH (fun k' Hk' => Hu k' (or_intror Hk'))).
    simpl. rewrite (Hu k (or_introl eq_refl)).
    destruct (t k); simpl; destruct (p k); simpl; lia.
Qed.

Lemma forallb_false_exists {A} (f : A -> bool) (l : list A) :
  forallb f l = false -> exists x, In x l /\ f x = false.
Proof.
  induction l as [|x xs IH]; simpl; [discriminate|].
  destruct (f x) eqn:Ex; simpl.
  - intros E. destruct (IH E) as [x' [Hin Ex']]. exists x'. auto.
  - intros _. exists x. auto.
Qed.

Section MoreAxonKeys.

Context {axon : Type} `{AxonResults axon}.
Implicit Types self : fascicle_results (axon := axon).

Lemma lookup_of_key self k :
  In k (keys self) -> exists e, lookup k self = Some e.
Proof.
  induction self as [|[k' e'] rest IH]; simpl; [tauto|].
  intros [->|Hin].
  - rewrite String.eqb_refl. eauto.
  - destruct (k =? k'); eauto.
Qed.

Lemma axon_keys_are_keys self k :
  In k (axon_keys self) -> In k (keys self) /\ is_axon_key k = true.
Proof. unfold axon_keys. apply filter_In. Qed.

Lemma axon_of_key_cases self attr k :
  In k (keys self) ->
  (exists a, axon_at self k = Some a /\ axon_of attr self k = Ok a)
  \/ (axon_at self k = None /\ axon_of attr self k = Raise (AttributeError attr)).
Proof.
  intros Hk. destruct (lookup_of_key self k Hk) as [e Ee].
  unfold axon_at, axon_of, getitem. rewrite Ee. simpl.
  destruct e; eauto.
Qed.

(** X1.  A typed key selection works exactly on the fascicles whose
    axon-like keys all hold axon results: if one of them holds anything
    else, [get_axons_key("myelinated")] and [get_axons_key("unmyelinated")]
    raise [AttributeError] on the [myelinated] read, while
    [get_axons_key("all")] still lists that key. *)
Theorem typed_selection_needs_axon_entries self :
  axon_entries_ok self = false ->
  get_axons_key self "myelinated" = Raise (AttributeError "myelinated")
  /\ get_axons_key self "unmyelinated" = Raise (AttributeError "myelinated")
  /\ exists k, In k (axon_keys self) /\ axon_at self k = None
               /\ get_axons_key self "all" = Ok (axon_keys self).
Proof.
  intros Hbad.
  assert (Hk : exists k, In k (axon_keys self) /\ axon_at self k = None).
  { destruct (forallb_false_exists _ _ Hbad) as [k [Hin Ek]].
    exists k. split; [exact Hin|]. unfold axon_at.
    destruct (lookup k self) as [[ | | | | | ]|]; congruence. }
  assert (Hraise : forall b,
            filterM (fun i => a <- axon_of "myelinated" self i ;;
                              Ok (eq_bool (myelinated a) b)) (axon_keys self)
            = Raise (AttributeError "myelinated")).
  { intros b. apply filterM_raise.
    - intros k Hin. apply axon_keys_are_keys in Hin.
      destruct (axon_of_key_cases self "myelinated" k (proj1 Hin))
        as [[a [_ Ea]]|[_ Er]].
      + left. rewrite Ea. simpl. eauto.
      + right. rewrite Er. reflexivity.
    - destruct Hk as [k [Hin En]]. exists k. split; [exact Hin|].
      destruct (axon_of_key_cases self "myelinated" k
                  (proj1 (axon_keys_are_keys self k Hin)))
        as [[a [Ea _]]|[_ Er]]; [congruence|].
      rewrite Er. reflexivity. }
  split; [apply Hraise|]. split; [apply Hraise|].
  destruct Hk as [k [Hin En]]. exists k.
  split; [exact Hin|]. split; [exact En | reflexivity].
Qed.

End MoreAxonKeys.

Lemma typed_selection_needs_axon_entries_witness :
  get_axons_key (("axon_count1", EFloat 4) :: Demo.fasc4) "myelinated"
  = Raise (AttributeError "myelinated").
Proof.
  apply (typed_selection_needs_axon_entries
           (("axon_count1", EFloat 4) :: Demo.fasc4)).
  reflexivity.
Defined.

Lemma count_three (p a b c : string -> bool) (ks : list string) :
  (forall k, In k ks ->
     (a k = true /\ b k = false /\ c k = false)
     \/ (a k = false /\ b k = true /\ c k = false)
     \/ (a k = false /\ b k = false /\ c k = true)) ->
  count p ks
  = (count (fun k => a k && p k) ks + count (fun k => b k && p k) ks
     + count (fun k => c k && p k) ks)%nat.
Proof.
  unfold count. induction ks as [|k ks IH]; intros Hone.
  - reflexivity.
  - assert (IH' := IH (fun k' Hk' => Hone k' (or_intror Hk'))).
    simpl.
    destruct (Hone k (or_introl eq_refl))
      as [[-> [-> ->]]|[[-> [-> ->]]|[-> [-> ->]]]];
      destruct (p k); simpl; lia.
Qed.

Lemma count_and_zero (p q : string -> bool) (ks : list string) :
  count p ks = 0%nat -> count (fun k => p k && q k) ks = 0%nat.
Proof.
  unfold count. induction ks as [|k ks' IH]; simpl; [reflexivity|].
  destruct (p k); simpl; [discriminate | exact IH].
Qed.

Lemma ratio_bounds (n d : nat) :
  (n <= d)%nat -> (0 < d)%nat -> (0 <= ratio n d /\ ratio n d <= 1)%Q.
Proof.
  intros Hnd Hd. unfold ratio.
  assert (Hpos : (0 < inject_Z (Z.of_nat d))%Q).
  { change 0%Q with (inject_Z 0). rewrite <- Zlt_Qlt. lia. }
  split.
  - apply Qle_shift_div_l; [exact Hpos|]. rewrite Qmult_0_l.
    change 0%Q with (inject_Z 0). rewrite <- Zle_Qle. lia.
  - apply Qle_shift_div_r; [exact Hpos|]. rewrite Qmult_1_l.
    rewrite <- Zle_Qle. lia.
Qed.

Section MoreRecruitment.

Context {axon : Type} `{AxonResults axon}.
Implicit Types self : fascicle_results (axon := axon).

Lemma recruited_loop_spec self ks :
  (forall k, In k ks -> exists a, axon_at self k = Some a) ->
  forall n_recr,
    recruited_loop self ks n_recr = Ok (n_recr + count (recruited_at self) ks)%nat.
Proof.
  unfold count.
  induction ks as [|k rest IH]; intros Hax n_recr; simpl.
  - rewrite Nat.add_0_r. reflexivity.
  - destruct (Hax k (or_introl eq_refl)) as [a Ea].
    rewrite (axon_of_ok self _ k a Ea). simpl.
    assert (Er : recruited_at self k = is_recruited a)
      by (unfold recruited_at; rewrite Ea; reflexivity).
    rewrite Er.
    assert (Hrest : forall k', In k' rest -> exists a', axon_at self k' = Some a')
      by (intros k' Hk'; apply Hax; right; exact Hk').
    destruct (is_recruited a); rewrite (IH Hrest); simpl; f_equal; lia.
Qed.

Lemma selected_keys_are_axons self ax_type ks :
  axon_entries_ok self = true ->
  get_axons_key self ax_type = Ok ks ->
  forall k, In k ks -> exists a, axon_at self k = Some a.
Proof.
  intros Hok Eks k Hk. apply (axon_entries_ok_at self Hok).
  apply (get_axons_key_incl self ax_type ks Eks). exact Hk.
Qed.

Lemma get_recruited_axons_count self ax_type ks :
  axon_entries_ok self = true ->
  get_axons_key self ax_type = Ok ks ->
  get_recruited_axons self ax_type false
  = Ok (Int (count (recruited_at self) ks)).
Proof.
  intros Hok Eks. unfold get_recruited_axons. rewrite Eks. simpl.
  rewrite (recruited_loop_spec self ks
             (selected_keys_are_axons self ax_type ks Hok Eks)).
  reflexivity.
Qed.

(** X2.  [get_recruited_axons] counts the recruited axons among the
    selected keys, never more than there are keys; with [normalize] and a
    non-empty selection the result is that count over the number of
    selected keys, a ratio between 0 and 1; with [normalize] and an empty
    selection the division raises [ZeroDivisionError]. *)
Theorem recruited_count_and_ratio self ax_type ks :
  axon_entries_ok self = true ->
  get_axons_key self ax_type = Ok ks ->
  let n := count (recruited_at self) ks in
  get_recruited_axons self ax_type false = Ok (Int n)
  /\ (n <= List.length ks)%nat
  /\ (ks <> [] ->
      get_recruited_axons self ax_type true
      = Ok (Float (ratio n (List.length ks)))
      /\ (0 <= ratio n (List.length ks) <= 1)%Q)
  /\ (ks = [] ->
      get_recruited_axons self ax_type true = Raise ZeroDivisionError).
Proof.
  intros Hok Eks n.
  assert (Hrun : forall normalize,
            get_recruited_axons self ax_type normalize
            = if normalize
              then (r <- truediv n (List.length ks) ;; Ok (Float r))
              else Ok (Int n)).
  { intros normalize. unfold get_recruited_axons, get_n_ax. rewrite Eks. simpl.
    rewrite (recruited_loop_spec self ks
               (selected_keys_are_axons self ax_type ks Hok Eks)).
    simpl. destruct normalize; reflexivity. }
  split; [apply (Hrun false)|]. split; [apply count_le_length|]. split.
  - intros Hne. rewrite (Hrun true). unfold truediv.
    assert (Hlen : (0 < List.length ks)%nat)
      by (destruct ks; [congruence | simpl; lia]).
    destruct (Nat.eqb_spec (List.length ks) 0) as [E|_]; [lia|].
    split; [reflexivity|].
    apply ratio_bounds; [apply count_le_length | exact Hlen].
  - intros ->. rewrite (Hrun true). reflexivity.
Qed.

(** X3.  The diameter-stratified ratios divide by the size of their
    stratum without a guard: when no selected axon is larger
    (respectively smaller) than [diam], [normalize=True] raises
    [ZeroDivisionError] while the plain count is 0. *)
Theorem empty_stratum_raises self diam ax_type ks :
  axon_entries_ok self = true ->
  get_axons_key self ax_type = Ok ks ->
  (count (exceeds self diam) ks = 0%nat ->
     get_recruited_axons_greater_than self diam ax_type true
     = Raise ZeroDivisionError
     /\ get_recruited_axons_greater_than self diam ax_type false = Ok (Int 0))
  /\ (count (below self diam) ks = 0%nat ->
      get_recruited_axons_lesser_than self diam ax_type true
      = Raise ZeroDivisionError
      /\ get_recruited_axons_lesser_than self diam ax_type false = Ok (Int 0)).
Proof.
  intros Hok Eks.
  destruct (recruited_counts self diam ax_type ks Hok Eks) as [Eg El].
  split; intros Hz.
  - unfold get_recruited_axons_greater_than. rewrite Eks. simpl.
    rewrite Eg. simpl. rewrite Hz, (count_and_zero _ (recruited_at self) ks Hz).
    split; reflexivity.
  - unfold get_recruited_axons_lesser_than. rewrite Eks. simpl.
    rewrite El. simpl. rewrite Hz, (count_and_zero _ (recruited_at self) ks Hz).
    split; reflexivity.
Qed.

End MoreRecruitment.

Lemma diameter_trichotomy (d diam : Q) :
  (Qgt_bool d diam = true /\ Qlt_bool d diam = false /\ Qeq_bool d diam = false)
  \/ (Qgt_bool d diam = false /\ Qlt_bool d diam = true /\ Qeq_bool d diam = false)
  \/ (Qgt_bool d diam = false /\ Qlt_bool d diam = false /\ Qeq_bool d diam = true).
Proof.
  unfold Qgt_bool, Qlt_bool.
  destruct (d ?= diam)%Q eqn:E.
  - right. right. repeat split. apply Qeq_bool_iff. apply Qeq_alt. exact E.
  - right. left. repeat split.
    destruct (Qeq_bool d diam) eqn:Eq; [|reflexivity].
    apply Qeq_bool_iff, Qeq_alt in Eq. congruence.
  - left. repeat split.
    destruct (Qeq_bool d diam) eqn:Eq; [|reflexivity].
    apply Qeq_bool_iff, Qeq_alt in Eq. congruence.
Qed.

Section RecruitmentDecompositions.

Context {axon : Type} `{AxonResults axon}.
Implicit Types self : fascicle_results (axon := axon).

(** X4.  For every threshold, the recruited axons split into those above
    it, those below it and those exactly at it: the plain count of
    [get_recruited_axons] is the sum of the counts of
    [get_recruited_axons_greater_than], of
    [get_recruited_axons_lesser_than] and of the recruited axons whose
    diameter equals [diam], which neither of the two counts. *)
Theorem recruited_splits_at_threshold self diam ax_type ks :
  axon_entries_ok self = true ->
  get_axons_key self ax_type = Ok ks ->
  exists n g l,
    get_recruited_axons self ax_type false = Ok (Int n)
    /\ get_recruited_axons_greater_than self diam ax_type false = Ok (Int g)
    /\ get_recruited_axons_lesser_than self diam ax_type false = Ok (Int l)
    /\ n = (g + l + count (fun k => at_threshold self diam k && recruited_at self k)
                      ks)%nat.
Proof.
  intros Hok Eks.
  destruct (recruited_counts self diam ax_type ks Hok Eks) as [Eg El].
  eexists. eexists. eexists.
  split; [apply (get_recruited_axons_count self ax_type ks Hok Eks)|].
  split.
  { unfold get_recruited_axons_greater_than. rewrite Eks. simpl.
    rewrite Eg. reflexivity. }
  split.
  { unfold get_recruited_axons_lesser_than. rewrite Eks. simpl.
    rewrite El. reflexivity. }
  apply count_three. intros k Hk.
  destruct (selected_keys_are_axons self ax_type ks Hok Eks k Hk) as [a Ea].
  unfold exceeds, below, at_threshold. rewrite Ea.
  apply diameter_trichotomy.
Qed.

(** X5.  With boolean tags, the recruited axons of the fascicle are the
    recruited myelinated ones plus the recruited unmyelinated ones. *)
Theorem recruited_splits_by_type self :
  boolean_tagged self = true ->
  exists n nm nu,
    get_recruited_axons self "all" false = Ok (Int n)
    /\ get_recruited_axons self "myelinated" false = Ok (Int nm)
    /\ get_recruited_axons self "unmyelinated" false = Ok (Int nu)
    /\ n = (nm + nu)%nat.
Proof.
  intros Ht.
  pose proof (boolean_tagged_entries_ok self Ht) as Hok.
  destruct (get_axons_key_typed self Hok) as [Em Eu].
  eexists. eexists. eexists.
  split; [apply (get_recruited_axons_count self "all" _ Hok
                   (get_axons_key_all self))|].
  split; [apply (get_recruited_axons_count self "myelinated" _ Hok Em)|].
  split; [apply (get_recruited_axons_count self "unmyelinated" _ Hok Eu)|].
  apply count_split. intros k Hk.
  destruct (boolean_tagged_at self Ht k Hk) as [a [b [Ea Eb]]].
  unfold tag_is. rewrite Ea, Eb. destruct b; reflexivity.
Qed.

(** X6.  An unrecognised [ax_type] stops every counting method with the
    fatal error of [get_axons_key], before any axon is read: this holds
    for any container, well formed or not. *)
Theorem unrecognised_type_stops_counts self ax_type diam normalize :
  ~ In ax_type recognized_axon_types ->
  exists msg,
    get_n_ax self ax_type = Raise (NRV_Error msg)
    /\ get_recruited_axons self ax_type normalize = Raise (NRV_Error msg)
    /\ get_recruited_axons_greater_than self diam ax_type normalize
       = Raise (NRV_Error msg)
    /\ get_recruited_axons_lesser_than self diam ax_type normalize
       = Raise (NRV_Error msg).
Proof.
  intros Hnot.
  assert (E : str_in_list ax_type recognized_axon_types = false).
  { destruct (str_in_list ax_type recognized_axon_types) eqn:E; [|reflexivity].
    apply str_in_list_In in E. contradiction. }
  eexists.
  unfold get_n_ax, get_recruited_axons, get_recruited_axons_greater_than,
    get_recruited_axons_lesser_than, get_axons_key.
  rewrite E. simpl. repeat split.
Qed.

End RecruitmentDecompositions.

Lemma recruited_count_and_ratio_witness :
  get_recruited_axons Demo.fasc4 "all" false = Ok (Int 3)
  /\ get_recruited_axons Demo.fasc4 "all" true = Ok (Float (ratio 3 4))
  /\ (0 <= ratio 3 4 <= 1)%Q.
Proof.
  pose proof (recruited_count_and_ratio Demo.fasc4 "all"
                ["axon0"; "axon1"; "axon2"; "axon3"] eq_refl eq_refl) as W.
  cbv zeta in W. destruct W as [Wc [_ [Wr _]]].
  split; [exact Wc|]. apply Wr. discriminate.
Defined.

Lemma empty_stratum_raises_witness :
  get_recruited_axons_greater_than Demo.fasc4 9 "all" true
  = Raise ZeroDivisionError
  /\ get_recruited_axons_lesser_than Demo.fasc4 3 "myelinated" true
     = Raise ZeroDivisionError.
Proof.
  split.
  - apply (proj1 (empty_stratum_raises Demo.fasc4 9 "all"
                    ["axon0"; "axon1"; "axon2"; "axon3"] eq_refl eq_refl)).
    reflexivity.
  - assert (Eks : get_axons_key Demo.fasc4 "myelinated" = Ok ["axon2"; "axon3"])
      by (vm_compute; reflexivity).
    apply (proj2 (empty_stratum_raises Demo.fasc4 3 "myelinated"
                    ["axon2"; "axon3"] eq_refl Eks)).
    reflexivity.
Defined.

Lemma recruited_splits_at_threshold_witness :
  exists n g l,
    get_recruited_axons Demo.fasc4 "all" false = Ok (Int n)
    /\ get_recruited_axons_greater_than Demo.fasc4 7 "all" false = Ok (Int g)
    /\ get_recruited_axons_lesser_than Demo.fasc4 7 "all" false = Ok (Int l)
    /\ n = (g + l + count (fun k => at_threshold Demo.fasc4 7 k
                                      && recruited_at Demo.fasc4 k)
                      ["axon0"; "axon1"; "axon2"; "axon3"])%nat.
Proof.
  apply (recruited_splits_at_threshold Demo.fasc4 7 "all"
           ["axon0"; "axon1"; "axon2"; "axon3"] eq_refl eq_refl).
Defined.

Lemma recruited_splits_by_type_witness :
  exists n nm nu,
    get_recruited_axons Demo.fasc4 "all" false = Ok (Int n)
    /\ get_recruited_axons Demo.fasc4 "myelinated" false = Ok (Int nm)
    /\ get_recruited_axons Demo.fasc4 "unmyelinated" false = Ok (Int nu)
    /\ n = (nm + nu)%nat.
Proof. apply (recruited_splits_by_type Demo.fasc4). reflexivity. Defined.

Lemma unrecognised_type_stops_counts_witness :
  exists msg,
    get_n_ax Demo.fasc4 "sensory" = Raise (NRV_Error msg)
    /\ get_recruited_axons Demo.fasc4 "sensory" true = Raise (NRV_Error msg)
    /\ get_recruited_axons_greater_than Demo.fasc4 5 "sensory" true
       = Raise (NRV_Error msg)
    /\ get_recruited_axons_lesser_than Demo.fasc4 5 "sensory" true
       = Raise (NRV_Error msg).
Proof.
  apply (unrecognised_type_stops_counts Demo.fasc4 "sensory" 5 true).
  simpl. intros [E|[E|[E|[]]]]; discriminate.
Defined.

(** ** get_axons, get_block_summary and plot_recruited_fibers *)

Section MoreFascicle.

Context {axon : Type} `{AxonResults axon}.
Implicit Types self : fascicle_results (axon := axon).

Lemma get_axons_loop_spec self ks :
  (forall k, In k ks -> exists a, axon_at self k = Some a) ->
  forall acc,
    get_axons_loop self ks acc
    = Ok (let axs := axons_at self ks in
          {| ga_diam := ga_diam acc ++ map diameter axs;
             ga_type := ga_type acc ++ map myelinated axs;
             ga_y := ga_y acc ++ map y axs;
             ga_z := ga_z acc ++ map z axs;
             ga_recruited := ga_recruited acc ++ map is_recruited axs |}).
Proof.
  induction ks as [|k rest IH]; intros Hax acc.
  - simpl. rewrite !app_nil_r. destruct acc; reflexivity.
  - destruct (Hax k (or_introl eq_refl)) as [a Ea].
    cbn [get_axons_loop]. rewrite !(axon_of_ok self _ k a Ea).
    cbn [bind]. rewrite IH by (intros k' Hk'; apply Hax; right; exact Hk').
    cbn [axons_at flat_map]. rewrite Ea.
    cbv zeta. cbn [ga_diam ga_type ga_y ga_z ga_recruited app map].
    rewrite <- !app_assoc. reflexivity.
Qed.

Lemma get_axons_loop_raises self ks :
  (forall k, In k ks -> In k (keys self)) ->
  (exists k, In k ks /\ axon_at self k = None) ->
  forall acc,
    get_axons_loop self ks acc = Raise (AttributeError "is_recruited").
Proof.
  induction ks as [|k rest IH]; intros Hkeys [k0 [Hin E0]] acc.
  - destruct Hin.
  - cbn [get_axons_loop].
    destruct (axon_of_key_cases self "is_recruited" k (Hkeys k (or_introl eq_refl)))
      as [[a [Ea Eo]]|[En Er]].
    + rewrite !(axon_of_ok self _ k a Ea). cbn [bind].
      apply IH.
      * intros k' Hk'. apply Hkeys. right. exact Hk'.
      * destruct Hin as [<-|Hin]; [congruence|]. exists k0. auto.
    + rewrite Er. reflexivity.
Qed.

Lemma axons_at_length self ks :
  (forall k, In k ks -> exists a, axon_at self k = Some a) ->
  List.length (axons_at self ks) = List.length ks.
Proof.
  induction ks as [|k rest IH]; intros Hax; simpl.
  - reflexivity.
  - destruct (Hax k (or_introl eq_refl)) as [a Ea]. rewrite Ea. simpl.
    f_equal. apply IH. intros k' Hk'. apply Hax. right. exact Hk'.
Qed.

Lemma get_axons_run self :
  axon_entries_ok self = true ->
  get_axons self
  = Ok (let axs := axons_at self (axon_keys self) in
        {| ga_diam := map diameter axs;
           ga_type := map myelinated axs;
           ga_y := map y axs;
           ga_z := map z axs;
           ga_recruited := map is_recruited axs |}).
Proof.
  intros Hok. unfold get_axons. rewrite get_axons_key_all. cbn [bind].
  rewrite get_axons_loop_spec by (apply axon_entries_ok_at; exact Hok).
  reflexivity.
Qed.

(** X7.  [get_axons] returns five lists that are aligned: entry [i] of
    each list is read from the axon under the [i]-th axon key, so all five
    have the length of [get_axons_key()].  If an axon-like key holds
    something that is not an axon result the call raises [AttributeError]
    on the first read, [is_recruited]. *)
Theorem get_axons_aligned self :
  (axon_entries_ok self = true ->
     let axs := axons_at self (axon_keys self) in
     get_axons self
     = Ok {| ga_diam := map diameter axs;
             ga_type := map myelinated axs;
             ga_y := map y axs;
             ga_z := map z axs;
             ga_recruited := map is_recruited axs |}
     /\ List.length axs = List.length (axon_keys self))
  /\ (axon_entries_ok self = false ->
      get_axons self = Raise (AttributeError "is_recruited")).
Proof.
  split.
  - intros Hok axs. split.
    + unfold get_axons. rewrite get_axons_key_all. cbn [bind].
      rewrite get_axons_loop_spec by (apply axon_entries_ok_at; exact Hok).
      reflexivity.
    + apply axons_at_length. apply axon_entries_ok_at. exact Hok.
  - intros Hbad. unfold get_axons. rewrite get_axons_key_all. cbn [bind].
    apply get_axons_loop_raises.
    + intros k Hk. apply (axon_keys_are_keys self k Hk).
    + destruct (forallb_false_exists _ _ Hbad) as [k [Hin Ek]].
      exists k. split; [exact Hin|]. unfold axon_at.
      destruct (lookup k self) as [[ | | | | | ]|]; congruence.
Qed.

Lemma lookup_app_notin (pre l : fascicle_results (axon := axon)) k :
  ~ In k (keys pre) -> lookup k (pre ++ l)%list = lookup k l.
Proof.
  induction pre as [|[k' e'] pre IH]; simpl; intros Hn; [reflexivity|].
  destruct (String.eqb_spec k k') as [->|_]; [tauto|].
  apply IH. tauto.
Qed.

Lemma store_axon_app_notin (pre l : fascicle_results (axon := axon)) k a :
  ~ In k (keys pre) -> store_axon k a (pre ++ l)%list = (pre ++ store_axon k a l)%list.
Proof.
  induction pre as [|[k' e'] pre IH]; simpl; intros Hn; [reflexivity|].
  destruct (String.eqb_spec k k') as [->|_]; [tauto|].
  rewrite IH by tauto. reflexivity.
Qed.

Lemma get_block_summary_loop_spec AP_start freq tm tu
    (post : fascicle_results (axon := axon)) :
  forall pre,
    NoDup (keys (pre ++ post)%list) ->
    (forall k e, In (k, e) post -> is_axon_key k = true -> exists a, e = EAxon a) ->
    get_block_summary_loop (pre ++ post)%list AP_start freq tm tu
      (filter is_axon_key (keys post))
    = Ok (pre ++ map (summarize_entry AP_start freq tm tu) post)%list.
Proof.
  induction post as [|[k e] post IH]; intros pre Hnd Hax.
  - reflexivity.
  - assert (Hk : ~ In k (keys pre)).
    { unfold keys in Hnd. rewrite map_app in Hnd. simpl in Hnd.
      apply NoDup_remove_2 in Hnd. intros Hin. apply Hnd.
      apply in_or_app. left. exact Hin. }
    assert (Hnext : forall e',
              get_block_summary_loop ((pre ++ [(k, e')]) ++ post)%list AP_start freq
                tm tu (filter is_axon_key (keys post))
              = Ok ((pre ++ [(k, e')])
                      ++ map (summarize_entry AP_start freq tm tu) post)%list).
    { intros e'. apply IH.
      - rewrite <- app_assoc. simpl.
        unfold keys in *. rewrite map_app in *. simpl in *. exact Hnd.
      - intros k' e'' Hin. apply Hax. right. exact Hin. }
    cbn [keys map fst filter]. fold (keys post).
    destruct (is_axon_key k) eqn:Eax.
    + destruct (Hax k e (or_introl eq_refl) Eax) as [a ->].
      cbn [get_block_summary_loop].
      assert (Eo : forall attr,
                axon_of attr (pre ++ (k, EAxon a) :: post)%list k = Ok a).
      { intros attr. unfold axon_of, getitem.
        rewrite lookup_app_notin by exact Hk.
        simpl. rewrite String.eqb_refl. reflexivity. }
      rewrite !Eo. cbn [bind].
      assert (Es : forall a',
                store_axon k a' (pre ++ (k, EAxon a) :: post)%list
                = ((pre ++ [(k, EAxon a')]) ++ post)%list).
      { intros a'. rewrite store_axon_app_notin by exact Hk.
        simpl. rewrite String.eqb_refl. rewrite <- app_assoc. reflexivity. }
      cbn [map summarize_entry]. rewrite Eax.
      destruct (eq_bool (myelinated a) true);
        rewrite Es, Hnext, <- app_assoc; reflexivity.
    + replace (pre ++ (k, e) :: post)%list with ((pre ++ [(k, e)]) ++ post)%list
        by (rewrite <- app_assoc; reflexivity).
      rewrite Hnext, <- app_assoc. cbn [map app].
      assert (Ee : summarize_entry AP_start freq tm tu (k, e) = (k, e)).
      { unfold summarize_entry. destruct e; try reflexivity.
        rewrite Eax. reflexivity. }
      rewrite Ee. reflexivity.
Qed.

Lemma lookup_In_NoDup self k e :
  NoDup (keys self) -> In (k, e) self -> lookup k self = Some e.
Proof.
  induction self as [|[k' e'] rest IH]; simpl; intros Hnd Hin; [tauto|].
  inversion Hnd as [|? ? Hnot Hnd']; subst.
  destruct Hin as [E|Hin].
  - injection E as -> ->. rewrite String.eqb_refl. reflexivity.
  - destruct (String.eqb_spec k k') as [->|_].
    + exfalso. apply Hnot. change k' with (fst (k', e)).
      apply in_map. exact Hin.
    + apply IH; assumption.
Qed.

Lemma summarize_entry_key AP_start freq tm tu (ke : string * entry (axon := axon)) :
  fst (summarize_entry AP_start freq tm tu ke) = fst ke.
Proof.
  destruct ke as [k e]. unfold summarize_entry.
  destruct e; try reflexivity. destruct (is_axon_key k); reflexivity.
Qed.

Lemma lookup_summarized AP_start freq tm tu self k :
  lookup k (map (summarize_entry AP_start freq tm tu) self)
  = option_map (fun e => snd (summarize_entry AP_start freq tm tu (k, e)))
      (lookup k self).
Proof.
  induction self as [|[k' e'] rest IH]; [reflexivity|].
  cbn [map lookup].
  pose proof (summarize_entry_key AP_start freq tm tu (k', e')) as Ek.
  destruct (summarize_entry AP_start freq tm tu (k', e')) as [k'' e''] eqn:Es.
  cbn [fst] in Ek. subst k''.
  destruct (String.eqb_spec k k') as [->|_].
  - cbn [option_map]. rewrite Es. reflexivity.
  - exact IH.
Qed.

(** X8.  On a container with distinct keys whose axon-like keys hold axon
    results, [get_block_summary] runs [block_summary] exactly once on every
    axon, with [t_refractory_m] when its tag equals [True] and
    [t_refractory_um] otherwise, and changes nothing else: the keys and
    their order are kept, every entry under a key that is not an axon key
    is untouched. *)
Theorem get_block_summary_updates_each_axon self AP_start freq tm tu :
  NoDup (keys self) ->
  axon_entries_ok self = true ->
  exists self',
    get_block_summary self AP_start freq tm tu = Ok self'
    /\ self' = map (summarize_entry AP_start freq tm tu) self
    /\ keys self' = keys self
    /\ (forall k, is_axon_key k = false -> lookup k self' = lookup k self)
    /\ (forall k a, In k (axon_keys self) -> axon_at self k = Some a ->
          axon_at self' k
          = Some (block_summary a AP_start freq
                    (if eq_bool (myelinated a) true then tm else tu))).
Proof.
  intros Hnd Hok.
  exists (map (summarize_entry AP_start freq tm tu) self).
  split; [|split; [reflexivity|split; [|split]]].
  - unfold get_block_summary. rewrite get_axons_key_all. cbn [bind].
    unfold axon_keys.
    apply (get_block_summary_loop_spec AP_start freq tm tu self []).
    + exact Hnd.
    + intros k e Hin Eax.
      assert (Hk : In k (axon_keys self)).
      { unfold axon_keys. apply filter_In. split; [|exact Eax].
        change k with (fst (k, e)). apply in_map. exact Hin. }
      destruct (axon_entries_ok_at self Hok k Hk) as [a Ea].
      unfold axon_at in Ea. rewrite (lookup_In_NoDup self k e Hnd Hin) in Ea.
      destruct e; try discriminate. eauto.
  - unfold keys. rewrite map_map. apply map_ext.
    intros ke. apply summarize_entry_key.
  - intros k Eax. rewrite lookup_summarized.
    destruct (lookup k self) as [e|]; [|reflexivity]. simpl.
    unfold summarize_entry. destruct e; try reflexivity.
    rewrite Eax. reflexivity.
  - intros k a Hk Ea. unfold axon_at in *. rewrite lookup_summarized.
    destruct (lookup k self) as [e|]; [|discriminate].
    destruct e; try discriminate. injection Ea as ->. simpl.
    rewrite (proj2 (axon_keys_are_keys self k Hk)). reflexivity.
Qed.

End MoreFascicle.

Section FibersPlot.

Context {axon : Type} `{AxonResults axon}.
Implicit Types self : fascicle_results (axon := axon).

Lemma fibers_patches_loop_spec myel_color unmyel_color (rest : list axon) :
  forall pre,
    fibers_patches_loop
      {| ga_diam := map diameter (pre ++ rest);
         ga_type := map myelinated (pre ++ rest);
         ga_y := map y (pre ++ rest);
         ga_z := map z (pre ++ rest);
         ga_recruited := map is_recruited (pre ++ rest) |}
      myel_color unmyel_color (seq (List.length pre) (List.length rest))
    = Ok (map (fiber_patch myel_color unmyel_color) rest).
Proof.
  induction rest as [|a rest IH]; intros pre.
  - reflexivity.
  - cbn [List.length seq fibers_patches_loop ga_diam ga_type ga_y ga_z
           ga_recruited].
    rewrite !getitem_map_mid. cbn [bind].
    replace (pre ++ a :: rest)%list with ((pre ++ [a]) ++ rest)%list
      by (rewrite <- app_assoc; reflexivity).
    replace (S (List.length pre)) with (List.length (pre ++ [a])%list)
      by (rewrite length_app; simpl; lia).
    rewrite (IH (pre ++ [a])%list). reflexivity.
Qed.

Lemma fibers_numbering_no_circle self ks l :
  fibers_numbering_loop self ks = Ok l ->
  Forall (fun d => match d with Plain (Circle _ _ _ _ _ _ _) => False | _ => True end) l.
Proof.
  revert l. induction ks as [|k rest IH]; intros l; simpl.
  - intros E. injection E as <-. constructor.
  - destruct (array_attr self "axons_y") as [ys|]; simpl; [|discriminate].
    destruct (getitem_list ys (Z.of_nat k)) as [yk|]; simpl; [|discriminate].
    destruct (array_attr self "axons_z") as [zs|]; simpl; [|discriminate].
    destruct (getitem_list zs (Z.of_nat k)) as [zk|]; simpl; [|discriminate].
    destruct (fibers_numbering_loop self rest) as [more|]; simpl; [|discriminate].
    intros E. injection E as <-. constructor; [exact I | apply IH; reflexivity].
Qed.

(** X9.  On the coordinating process [plot_recruited_fibers] draws the
    contour first, then exactly one filled circle per axon, in axon-key
    order, of radius half the diameter, in [myel_color] when the tag is
    truthy and [unmyel_color] otherwise, with opacity 1 when the axon is
    recruited and 0.1 when it is not, then the tail (stimulation overlay,
    index labels, axis limits), in which nothing is a circle; the call
    returns whenever the tail can be drawn.  Off the coordinating process
    nothing is drawn. *)
Theorem recruited_fibers_one_patch_per_axon self contour_color myel_color
    unmyel_color num yc zc D :
  axon_entries_ok self = true ->
  float_attr self "y_grav_center" = Ok yc ->
  float_attr self "z_grav_center" = Ok zc ->
  float_attr self "D" = Ok D ->
  let axs := axons_at self (axon_keys self) in
  let contour := Circle yc zc (D / 2) contour_color false None (Some 2%Z) in
  let run := plot_recruited_fibers true self contour_color myel_color
               unmyel_color num in
  run = (tail <- fibers_tail self num yc zc D ;;
         Ok (Plain contour :: map (fiber_patch myel_color unmyel_color) axs
               ++ tail)%list)
  /\ (forall tail,
        fibers_tail self num yc zc D = Ok tail ->
        run = Ok (Plain contour :: map (fiber_patch myel_color unmyel_color) axs
                    ++ tail)%list
        /\ Forall (fun d => match d with
                            | Plain (Circle _ _ _ _ _ _ _) => False
                            | _ => True
                            end) tail)
  /\ plot_recruited_fibers false self contour_color myel_color unmyel_color num
     = Ok [].
Proof.
  intros Hok Ey Ez ED axs contour run.
  assert (Hrun : run = (tail <- fibers_tail self num yc zc D ;;
                        Ok (Plain contour
                              :: map (fiber_patch myel_color unmyel_color) axs
                              ++ tail)%list)).
  { unfold run, plot_recruited_fibers.
    rewrite Ey, Ez, ED. cbn [bind].
    rewrite (get_axons_run self Hok). cbv zeta. cbn [bind ga_diam].
    fold axs. rewrite length_map.
    pose proof (fibers_patches_loop_spec myel_color unmyel_color axs []) as Hp.
    cbn [app List.length] in Hp. rewrite Hp. clear Hp.
    cbn [bind]. unfold fibers_tail.
    destruct (getattr self "extra_stim") as [e|]; cbn [bind]; [|reflexivity].
    destruct (match e with
              | EStim => Ok [Plain (StimPlot "gold" D)]
              | EOther PyNone => Ok []
              | _ => Raise (AttributeError "plot")
              end) as [stim|]; cbn [bind]; [|reflexivity].
    destruct (if num then n <- n_ax self ;; fibers_numbering_loop self (seq 0 n)
              else Ok []) as [texts|]; reflexivity. }
  split; [exact Hrun|]. split; [|reflexivity].
  intros tail Et. split; [rewrite Hrun, Et; reflexivity|].
  revert Et. unfold fibers_tail.
  destruct (getattr self "extra_stim") as [e|]; cbn [bind]; [|discriminate].
  assert (Hstim : forall stim,
            match e with
            | EStim => Ok [Plain (StimPlot "gold" D)]
            | EOther PyNone => Ok []
            | _ => Raise (AttributeError "plot")
            end = Ok stim ->
            Forall (fun d => match d with
                             | Plain (Circle _ _ _ _ _ _ _) => False
                             | _ => True
                             end) stim).
  { intros stim. destruct e as [ | | | | |[ | | ]]; try discriminate;
      intros E; injection E as <-; repeat constructor. }
  destruct (match e with
            | EStim => Ok [Plain (StimPlot "gold" D)]
            | EOther PyNone => Ok []
            | _ => Raise (AttributeError "plot")
            end) as [stim|] eqn:Es; cbn [bind]; [|discriminate].
  specialize (Hstim stim eq_refl).
  destruct (if num then n <- n_ax self ;; fibers_numbering_loop self (seq 0 n)
            else Ok []) as [texts|] eqn:Et; cbn [bind]; [|discriminate].
  assert (Htexts : Forall (fun d => match d with
                                    | Plain (Circle _ _ _ _ _ _ _) => False
                                    | _ => True
                                    end) texts).
  { destruct num.
    - destruct (n_ax self) as [n|]; simpl in Et; [|discriminate].
      apply (fibers_numbering_no_circle self (seq 0 n)). exact Et.
    - injection Et as <-. constructor. }
  intros E. injection E as <-.
  apply Forall_app. split; [exact Hstim|].
  apply Forall_app. split; [exact Htexts|]. repeat constructor.
Qed.

End FibersPlot.

Lemma get_axons_aligned_witness :
  get_axons Demo.fasc4
  = Ok {| ga_diam := [3; 5; 7; 9]%Q;
          ga_type := [PyBool false; PyBool false; PyBool true; PyBool true];
          ga_y := [0; 0; 0; 0]%Q;
          ga_z := [0; 0; 0; 0]%Q;
          ga_recruited := [true; false; true; true] |}
  /\ get_axons (("axon_count1", EFloat 4) :: Demo.fasc4)
     = Raise (AttributeError "is_recruited").
Proof.
  split.
  - pose proof (proj1 (proj1 (get_axons_aligned Demo.fasc4) eq_refl)) as W.
    vm_compute in W. vm_compute. exact W.
  - apply (proj2 (get_axons_aligned (("axon_count1", EFloat 4) :: Demo.fasc4))).
    reflexivity.
Defined.

Lemma get_block_summary_updates_each_axon_witness :
  exists self',
    get_block_summary Demo.fasc4 1 None 1 2 = Ok self'
    /\ keys self' = keys Demo.fasc4.
Proof.
  assert (Hnd : NoDup (keys Demo.fasc4)).
  { repeat (constructor; [simpl; intuition discriminate|]). constructor. }
  destruct (get_block_summary_updates_each_axon Demo.fasc4 1 None 1 2 Hnd eq_refl)
    as [self' [E [_ [Ek _]]]].
  exists self'. split; [exact E | exact Ek].
Defined.

Lemma recruited_fibers_one_patch_per_axon_witness :
  plot_recruited_fibers false Demo.fasc4 "k" "r" "b" true = Ok []
  /\ plot_recruited_fibers true Demo.fasc4 "k" "r" "b" true
     = Ok [Plain (Circle 0 0 (100 / 2) "k" false None (Some 2%Z));
           Plain (Circle 0 0 (3 / 2) "b" true (Some (Np.Fin 1)) None);
           Plain (Circle 0 0 (5 / 2) "b" true (Some (Np.Fin (1 # 10))) None);
           Plain (Circle 0 0 (7 / 2) "r" true (Some (Np.Fin 1)) None);
           Plain (Circle 0 0 (9 / 2) "r" true (Some (Np.Fin 1)) None);
           TextCentered 0 0 0; TextCentered 0 0 1;
           TextCentered 0 0 2; TextCentered 0 0 3;
           Plain (SetXlim (- (11 # 10) * 100 / 2 + 0) ((11 # 10) * 100 / 2 + 0));
           Plain (SetYlim (- (11 # 10) * 100 / 2 + 0) ((11 # 10) * 100 / 2 + 0))].
Proof.
  pose proof (recruited_fibers_one_patch_per_axon Demo.fasc4 "k" "r" "b" true
                0 0 100 eq_refl eq_refl eq_refl eq_refl) as W.
  cbv zeta in W. destruct W as [Wm [_ Wn]].
  split; [exact Wn|]. rewrite Wm. vm_compute. reflexivity.
Defined.

(** * Further properties of the myelinated results *)

Lemma index_label_nonzero (self : myelinated_results) (n : Z) (log : list string) :
  rec self <> "nodes" -> n <> 0%Z -> (Nseg_per_sec self + 1 <> 0)%Z ->
  fst (get_index_myelinated_sequence self n log)
  = getitem_list (axon_path_type self)
      (((n - 1) / (Nseg_per_sec self + 1)) mod 11)%Z.
Proof.
  intros Hrec Hn HN. apply String.eqb_neq in Hrec.
  unfold get_index_myelinated_sequence, wbind, warn, wret, lift, floordiv, pymod.
  rewrite Hrec.
  destruct (Z.eqb_spec n 0) as [E|_]; [contradiction|].
  destruct (Z.eqb_spec (Nseg_per_sec self + 1) 0) as [E|_]; [contradiction|].
  destruct (n >? _)%Z; reflexivity.
Qed.

(** X10.  Outside the "nodes" mode the labels repeat along the fibre with
    period [11 * (Nseg_per_sec + 1)]: shifting a non-zero index by any
    whole number of periods (to another non-zero index) gives the same
    label, whatever has been logged. *)
Theorem index_label_periodic (self : myelinated_results) (n k : Z)
    (log log' : list string) :
  rec self <> "nodes" ->
  (Nseg_per_sec self + 1 <> 0)%Z ->
  n <> 0%Z ->
  (n + 11 * (Nseg_per_sec self + 1) * k <> 0)%Z ->
  fst (get_index_myelinated_sequence self
         (n + 11 * (Nseg_per_sec self + 1) * k) log)
  = fst (get_index_myelinated_sequence self n log').
Proof.
  intros Hrec HN Hn Hnk.
  rewrite !index_label_nonzero by assumption.
  f_equal.
  replace (n + 11 * (Nseg_per_sec self + 1) * k - 1)%Z
    with ((n - 1) + (11 * k) * (Nseg_per_sec self + 1))%Z by ring.
  rewrite Z.div_add by exact HN.
  replace (11 * k)%Z with (k * 11)%Z by ring.
  apply Z_mod_plus_full.
Qed.

(** X11.  With a positive number [N = Nseg_per_sec + 1] of points per
    section, the indices [1 + q*N], ..., [(q+1)*N] all carry the label of
    section [q], read at position [q % 11] of the stored sequence. *)
Theorem index_label_by_section (self : myelinated_results) (q r : Z)
    (log : list string) :
  rec self <> "nodes" ->
  (0 < Nseg_per_sec self + 1)%Z ->
  (0 <= q)%Z ->
  (0 <= r < Nseg_per_sec self + 1)%Z ->
  fst (get_index_myelinated_sequence self
         (1 + q * (Nseg_per_sec self + 1) + r) log)
  = getitem_list (axon_path_type self) (q mod 11)%Z.
Proof.
  intros Hrec HN Hq Hr.
  rewrite index_label_nonzero by (try assumption; nia).
  f_equal. f_equal.
  replace (1 + q * (Nseg_per_sec self + 1) + r - 1)%Z
    with (r + q * (Nseg_per_sec self + 1))%Z by ring.
  rewrite Z.div_add by lia. rewrite Z.div_small by lia. lia.
Qed.

(** X12.  On a sequence that covers the 11-label pattern, every integer
    index gets a label, be it negative or far beyond the recording: the
    call never raises, and outside the "nodes" mode the label is one of the
    first 11 stored labels. *)
Theorem index_label_total (self : myelinated_results) (n : Z) (log : list string) :
  sequence_ok self = true ->
  exists s,
    fst (get_index_myelinated_sequence self n log) = Ok s
    /\ (rec self = "nodes" -> s = "node")
    /\ (rec self <> "nodes" -> In s (firstn 11 (axon_path_type self))).
Proof.
  intros Hok. unfold sequence_ok in Hok. apply andb_true_iff in Hok.
  destruct Hok as [HN Hlen]. apply negb_true_iff in HN.
  apply Z.eqb_neq in HN. apply Nat.leb_le in Hlen.
  assert (Hpick : forall i, (0 <= i < 11)%Z ->
            exists s, getitem_list (axon_path_type self) i = Ok s
                      /\ In s (firstn 11 (axon_path_type self))).
  { intros i Hi.
    destruct (nth_error (axon_path_type self) (Z.to_nat i)) as [s|] eqn:E.
    - exists s. split; [apply getitem_list_nth; [lia | exact E]|].
      apply (nth_error_In _ (Z.to_nat i)).
      rewrite nth_error_firstn.
      destruct (Nat.ltb_spec (Z.to_nat i) 11) as [_|Hge]; [exact E | lia].
    - apply nth_error_None in E. lia. }
  destruct (String.eqb_spec (rec self) "nodes") as [E|Hrec].
  - exists "node". unfold get_index_myelinated_sequence.
    apply String.eqb_eq in E. rewrite E.
    split; [reflexivity|]. split; [reflexivity|].
    apply String.eqb_eq in E. congruence.
  - destruct (Z.eq_dec n 0) as [->|Hn].
    + destruct (Hpick 0%Z) as [s [Es Hin]]; [lia|].
      exists s. split; [|split; [congruence | intros _; exact Hin]].
      apply String.eqb_neq in Hrec.
      unfold get_index_myelinated_sequence, wbind, warn, wret, lift.
      rewrite Hrec. destruct (0 >? _)%Z; exact Es.
    + destruct (Hpick (((n - 1) / (Nseg_per_sec self + 1)) mod 11)%Z)
        as [s [Es Hin]]; [apply Z.mod_pos_bound; lia|].
      exists s. split; [|split; [congruence | intros _; exact Hin]].
      rewrite index_label_nonzero by assumption. exact Es.
Qed.

(** X13.  Outside the "nodes" mode the two failures of the label lookup:
    with [Nseg_per_sec = -1] every non-zero index raises
    [ZeroDivisionError]; with an empty stored sequence every index raises
    [IndexError] (when the division itself is defined).  In both cases the
    out-of-range warning, when due, has already been logged. *)
Theorem index_label_failures (self : myelinated_results) (n : Z)
    (log : list string) :
  rec self <> "nodes" ->
  let log' := if (n >? Z.of_nat (List.length (x_rec self)))%Z
              then (log ++ ["index not in axon"])%list else log in
  (Nseg_per_sec self = (-1)%Z -> n <> 0%Z ->
     get_index_myelinated_sequence self n log = (Raise ZeroDivisionError, log'))
  /\ (axon_path_type self = [] -> n = 0%Z \/ Nseg_per_sec self <> (-1)%Z ->
      get_index_myelinated_sequence self n log = (Raise IndexError, log')).
Proof.
  intros Hrec log'. apply String.eqb_neq in Hrec. split.
  - intros HN Hn.
    unfold get_index_myelinated_sequence, wbind, warn, wret, lift, floordiv,
      rise_warning.
    rewrite Hrec, HN. unfold log'.
    destruct (Z.eqb_spec n 0) as [E|_]; [contradiction|].
    destruct (n >? _)%Z; reflexivity.
  - intros Hseq Hcase.
    unfold get_index_myelinated_sequence, wbind, warn, wret, lift, floordiv,
      pymod, rise_warning.
    rewrite Hrec, Hseq. unfold log'.
    destruct (Z.eqb_spec n 0) as [E|Hn].
    + destruct (n >? _)%Z; reflexivity.
    + destruct Hcase as [E|HN]; [contradiction|].
      destruct (Z.eqb_spec (Nseg_per_sec self + 1) 0) as [E|_]; [lia|].
      assert (Hget : forall i, getitem_list (@nil string) i = Raise IndexError).
      { intros i. unfold getitem_list. simpl.
        destruct (i <? 0)%Z;
          destruct ((0 <=? _) && (_ <? 0))%Z eqn:Eb; try reflexivity;
          apply andb_true_iff in Eb; destruct Eb as [E1 E2];
          apply Z.leb_le in E1; apply Z.ltb_lt in E2; lia. }
      destruct (n >? _)%Z; simpl; rewrite Hget; reflexivity.
Qed.

Lemma index_label_periodic_witness :
  fst (get_index_myelinated_sequence (Demo.myel 6) (5 + 11 * (1 + 1) * 3) [])
  = fst (get_index_myelinated_sequence (Demo.myel 6) 5 ["earlier"]).
Proof.
  apply (index_label_periodic (Demo.myel 6) 5 3 [] ["earlier"]);
    discriminate.
Defined.

Lemma index_label_by_section_witness :
  fst (get_index_myelinated_sequence (Demo.myel 6) (1 + 12 * (1 + 1) + 1) [])
  = getitem_list (axon_path_type (Demo.myel 6)) (12 mod 11)%Z.
Proof.
  apply (index_label_by_section (Demo.myel 6) 12 1 []).
  - discriminate.
  - simpl. lia.
  - lia.
  - simpl. lia.
Defined.

Lemma index_label_total_witness :
  exists s,
    fst (get_index_myelinated_sequence (Demo.myel 6) (-7) []) = Ok s
    /\ (rec (Demo.myel 6) = "nodes" -> s = "node")
    /\ (rec (Demo.myel 6) <> "nodes" ->
        In s (firstn 11 (axon_path_type (Demo.myel 6)))).
Proof. apply (index_label_total (Demo.myel 6) (-7) []). reflexivity. Defined.

Lemma index_label_failures_witness :
  get_index_myelinated_sequence
    (mk_myelinated "all" [0; 0]%Q (-1) Demo.pattern None None None) 5 []
  = (Raise ZeroDivisionError, ["index not in axon"])
  /\ get_index_myelinated_sequence
       (mk_myelinated "all" [0; 0]%Q 1 [] None None None) 1 []
     = (Raise IndexError, []).
Proof.
  split.
  - apply (proj1 (index_label_failures
                    (mk_myelinated "all" [0; 0]%Q (-1) Demo.pattern None None None)
                    5 [] ltac:(discriminate))).
    + reflexivity.
    + discriminate.
  - apply (proj2 (index_label_failures
                    (mk_myelinated "all" [0; 0]%Q 1 [] None None None)
                    1 [] ltac:(discriminate))).
    + reflexivity.
    + right. discriminate.
Defined.

(** ** Central node: range, closeness, coordinate *)

Lemma find_central_node_index_run (self : myelinated_results) (log : list string) :
  rec self <> "nodes" ->
  sequence_ok self = true ->
  let c := (List.length (x_rec self) / 2)%nat in
  find_central_node_index self log
  = match find (is_node self) (search_order c) with
    | Some k => (Ok k, log)
    | None => (Ok (Z.of_nat c), (log ++ ["No node found in the axon"])%list)
    end.
Proof.
  intros Hrec Hok c.
  assert (Hc : (2 * c <= List.length (x_rec self))%nat).
  { unfold c. pose proof (Nat.div_mod_eq (List.length (x_rec self)) 2). lia. }
  assert (Hloop := central_node_loop_spec self c (seq 0 c) log Hrec Hok Hc).
  assert (Hseq : forall i, In i (seq 0 c) -> (i < c)%nat)
    by (intros i Hi; apply in_seq in Hi; lia).
  specialize (Hloop Hseq). fold (search_order c) in Hloop.
  unfold find_central_node_index. fold c.
  apply String.eqb_neq in Hrec. rewrite Hrec.
  unfold wbind at 1. rewrite Hloop.
  destruct (find (is_node self) (search_order c)); reflexivity.
Qed.

Lemma search_offsets_ge (c : nat) (len start : nat) (x : Z) :
  In x (flat_map (fun i => [(Z.of_nat c + Z.of_nat i)%Z;
                            (Z.of_nat c - Z.of_nat i)%Z]) (seq start len)) ->
  (Z.of_nat start <= offset_from c x < Z.of_nat (start + len))%Z.
Proof.
  unfold offset_from. intros Hin. apply in_flat_map in Hin.
  destruct Hin as [i [Hi Hx]]. apply in_seq in Hi.
  destruct Hx as [<-|[<-|[]]]; lia.
Qed.

Lemma search_order_sorted (c : nat) (len : nat) :
  forall start before k after,
    flat_map (fun i => [(Z.of_nat c + Z.of_nat i)%Z;
                        (Z.of_nat c - Z.of_nat i)%Z]) (seq start len)
    = (before ++ k :: after)%list ->
    forall x, In x after -> (offset_from c k <= offset_from c x)%Z.
Proof.
  induction len as [|len IH]; intros start before k after E x Hx.
  - destruct before; discriminate.
  - cbn [seq flat_map app] in E.
    destruct before as [|b1 [|b2 before]].
    + injection E as <- <-. destruct Hx as [<-|Hx].
      * unfold offset_from. lia.
      * apply search_offsets_ge in Hx. unfold offset_from in *. lia.
    + injection E as _ <- <-.
      apply search_offsets_ge in Hx. unfold offset_from in *. lia.
    + injection E as _ _ E. apply (IH (S start) before k after E x Hx).
Qed.

Lemma search_order_range (c : nat) (j : Z) :
  In j (search_order c) <-> (1 <= j <= 2 * Z.of_nat c - 1)%Z.
Proof.
  unfold search_order. rewrite in_flat_map. split.
  - intros [i [Hi Hj]]. apply in_seq in Hi. destruct Hj as [<-|[<-|[]]]; lia.
  - intros Hj. exists (Z.to_nat (Z.abs (j - Z.of_nat c))). split.
    + apply in_seq. lia.
    + destruct (Z.le_ge_cases (Z.of_nat c) j).
      * left. lia.
      * right. left. lia.
Qed.

(** X14.  When some index of the searched range [1 .. 2*(len(x_rec)//2) - 1]
    is classified as a node, [find_central_node_index] returns a node of
    that range without logging anything, and no node of the range is
    nearer to the midpoint than the one returned. *)
Theorem central_node_is_nearest (self : myelinated_results) (log : list string)
    (j : Z) :
  rec self <> "nodes" ->
  sequence_ok self = true ->
  let c := (List.length (x_rec self) / 2)%nat in
  (1 <= j <= 2 * Z.of_nat c - 1)%Z ->
  is_node self j = true ->
  exists k,
    find_central_node_index self log = (Ok k, log)
    /\ is_node self k = true
    /\ (1 <= k <= 2 * Z.of_nat c - 1)%Z
    /\ (offset_from c k <= offset_from c j)%Z.
Proof.
  intros Hrec Hok c Hj Hnode.
  rewrite (find_central_node_index_run self log Hrec Hok). fold c.
  apply search_order_range in Hj.
  destruct (find (is_node self) (search_order c)) as [k|] eqn:Ef.
  - exists k. split; [reflexivity|].
    destruct (find_first _ _ _ Ef) as [before [after [El [Ek Hb]]]].
    split; [exact Ek|]. split.
    + apply search_order_range. rewrite El. apply in_elt.
    + rewrite El in Hj. apply in_app_or in Hj. destruct Hj as [Hj|[<-|Hj]].
      * rewrite (Hb j Hj) in Hnode. discriminate.
      * lia.
      * unfold search_order in El.
        apply (search_order_sorted c c 0 before k after El j Hj).
  - exfalso. apply (find_none _ _ Ef) in Hj. congruence.
Qed.

(** X15.  The search only looks at the indices [1 .. 2*(len(x_rec)//2) - 1]:
    when none of them is classified as a node the call logs the warning and
    returns the midpoint, whatever the labels of index 0 and of the last
    index of an odd-length recording. *)
Theorem central_node_search_range (self : myelinated_results) (log : list string) :
  rec self <> "nodes" ->
  sequence_ok self = true ->
  let c := (List.length (x_rec self) / 2)%nat in
  (forall j, (1 <= j <= 2 * Z.of_nat c - 1)%Z -> is_node self j = false) ->
  find_central_node_index self log
  = (Ok (Z.of_nat c), (log ++ ["No node found in the axon"])%list).
Proof.
  intros Hrec Hok c Hnone.
  rewrite (find_central_node_index_run self log Hrec Hok). fold c.
  destruct (find (is_node self) (search_order c)) as [k|] eqn:Ef; [|reflexivity].
  apply find_some in Ef. destruct Ef as [Hin Ek].
  apply search_order_range in Hin. rewrite (Hnone k Hin) in Ek. discriminate.
Qed.

(** X16.  On a non-empty recording (in "nodes" mode, or with a sequence
    covering the pattern) the index returned by [find_central_node_index]
    is a valid index of [x_rec], so [find_central_node_coordinate] returns
    the position stored there.  On an empty recording the coordinate
    lookup raises [IndexError] in every mode. *)
Theorem central_node_coordinate_defined (self : myelinated_results)
    (log : list string) :
  (x_rec self <> [] ->
   rec self = "nodes" \/ sequence_ok self = true ->
   exists k xk log',
     find_central_node_index self log = (Ok k, log')
     /\ (0 <= k < Z.of_nat (List.length (x_rec self)))%Z
     /\ nth_error (x_rec self) (Z.to_nat k) = Some xk
     /\ find_central_node_coordinate self log = (Ok xk, log'))
  /\ (x_rec self = [] ->
      fst (find_central_node_coordinate self log) = Raise IndexError).
Proof.
  split.
  - intros Hne Hmode.
    set (c := (List.length (x_rec self) / 2)%nat).
    assert (Hlen : (0 < List.length (x_rec self))%nat)
      by (destruct (x_rec self); [congruence | simpl; lia]).
    assert (Hc : (2 * c <= List.length (x_rec self))%nat).
    { unfold c. pose proof (Nat.div_mod_eq (List.length (x_rec self)) 2). lia. }
    assert (Hclt : (c < List.length (x_rec self))%nat).
    { unfold c. apply Nat.div_lt; lia. }
    assert (Hidx : exists k log',
              find_central_node_index self log = (Ok k, log')
              /\ (0 <= k < Z.of_nat (List.length (x_rec self)))%Z).
    { destruct (String.eqb_spec (rec self) "nodes") as [E|Hrec].
      - exists (Z.of_nat c), log. split; [|lia].
        unfold find_central_node_index. fold c.
        apply String.eqb_eq in E. rewrite E. reflexivity.
      - destruct Hmode as [E|Hok]; [contradiction|].
        rewrite (find_central_node_index_run self log Hrec Hok). fold c.
        destruct (find (is_node self) (search_order c)) as [k|] eqn:Ef.
        + exists k, log. split; [reflexivity|].
          apply find_some in Ef. destruct Ef as [Hin _].
          apply search_order_range in Hin. lia.
        + eexists. eexists. split; [reflexivity | lia]. }
    destruct Hidx as [k [log' [Ek Hk]]].
    destruct (nth_error (x_rec self) (Z.to_nat k)) as [xk|] eqn:Ex.
    + exists k, xk, log'. split; [exact Ek|]. split; [exact Hk|].
      split; [exact Ex|].
      unfold find_central_node_coordinate, wbind, lift. rewrite Ek.
      rewrite (getitem_list_nth _ k xk) by (try exact Ex; lia). reflexivity.
    + apply nth_error_None in Ex. lia.
  - intros Hx.
    unfold find_central_node_coordinate, find_central_node_index, wbind, lift,
      wret, warn.
    rewrite Hx. destruct (rec self =? "nodes"); reflexivity.
Qed.

Lemma central_node_is_nearest_witness :
  exists k,
    find_central_node_index (Demo.myel 60) [] = (Ok k, [])
    /\ is_node (Demo.myel 60) k = true
    /\ (1 <= k <= 2 * Z.of_nat 30 - 1)%Z
    /\ (offset_from 30 k <= offset_from 30 2)%Z.
Proof.
  apply (central_node_is_nearest (Demo.myel 60) [] 2).
  - discriminate.
  - reflexivity.
  - simpl. lia.
  - reflexivity.
Defined.

Lemma central_node_search_range_witness :
  find_central_node_index (Demo.myel 1) []
  = (Ok 0%Z, ["No node found in the axon"])
  /\ is_node (Demo.myel 1) 0 = true.
Proof.
  split; [|reflexivity].
  apply (central_node_search_range (Demo.myel 1) []).
  - discriminate.
  - reflexivity.
  - simpl. intros j Hj. lia.
Defined.

Lemma central_node_coordinate_defined_witness :
  (exists k xk log',
     find_central_node_index (Demo.myel 6) [] = (Ok k, log')
     /\ (0 <= k < 6)%Z
     /\ nth_error (x_rec (Demo.myel 6)) (Z.to_nat k) = Some xk
     /\ find_central_node_coordinate (Demo.myel 6) [] = (Ok xk, log'))
  /\ fst (find_central_node_coordinate (Demo.myel 0) []) = Raise IndexError.
Proof.
  destruct (central_node_coordinate_defined (Demo.myel 6) []) as [W _].
  destruct (central_node_coordinate_defined (Demo.myel 0) []) as [_ W0].
  split.
  - apply W; [discriminate | right; reflexivity].
  - apply W0; reflexivity.
Defined.

(** ** Myelin properties: sentinel removal and failure state *)

Lemma isclose_Qeq (a a' b : Q) : (a == a')%Q -> Np.isclose a b = Np.isclose a' b.
Proof.
  intros E. unfold Np.isclose.
  destruct (Qle_bool (Qabs (a - b)) _) eqn:E1;
    destruct (Qle_bool (Qabs (a' - b)) _) eqn:E2; try reflexivity.
  - apply Qle_bool_iff in E1. rewrite E in E1. apply Qle_bool_iff in E1.
    congruence.
  - apply Qle_bool_iff in E2. rewrite <- E in E2. apply Qle_bool_iff in E2.
    congruence.
Qed.

Section MoreMyelinProperties.

Context `{UnitsModule} `{UnitsOfNonFinite} `{MaterialsModule} `{AxonFactory}.

(** X17.  After a successful call with an [endo_mat] whose converted
    conductivity is itself not close to 1e10, no entry of [g_mye] is close
    to the sentinel any more, and [g_mye] has kept its length. *)
Theorem sentinel_removed (self : myelinated_results) (e : endo)
    (log : list string) :
  rec self <> "nodes" ->
  let ax := generate_axon self in
  List.length (get_myelin_conductance ax) = List.length (get_myelin_capacitance ax) ->
  Np.isclose (convert (sigma (resolve_material e)) "S/m**2" "S/cm**2") sentinel
  = false ->
  exists g f self' warnings,
    get_myelin_properties self (Some e) log
    = (Ok (Some (g, get_myelin_capacitance ax, f)), self', log, warnings)
    /\ g_mye self' = Some g
    /\ List.length g = List.length (get_myelin_conductance ax)
    /\ Forall (fun x => Np.isclose x sentinel = false) g.
Proof.
  intros Hrec ax Hlen Hv.
  rewrite (get_myelin_properties_conductance self (Some e) log Hrec).
  cbv zeta. fold ax.
  set (g := map _ (get_myelin_conductance ax)).
  assert (Hg : List.length g = List.length (get_myelin_conductance ax))
    by (unfold g; apply length_map).
  rewrite np_divide_same_length by (rewrite length_map, Hg; exact Hlen).
  eexists. eexists. eexists. eexists. split; [reflexivity|].
  split; [reflexivity|]. split; [congruence|].
  unfold g. apply Forall_forall. intros x Hx. apply in_map_iff in Hx.
  destruct Hx as [x0 [<- _]].
  destruct (Np.isclose x0 sentinel) eqn:E0; [|exact E0].
  rewrite (isclose_Qeq _ (convert (sigma (resolve_material e))
                            "S/m**2" "S/cm**2") sentinel) by ring.
  exact Hv.
Qed.

(** X18.  When the conductance and capacitance arrays cannot be combined
    (different lengths, neither of length one) the call raises
    [ValueError] after it has already stored [g_mye] and [c_mye]: the
    result then holds the new conductance and capacitance next to the old
    [f_mye]. *)
Theorem shape_mismatch_leaves_partial_state (self : myelinated_results)
    (endo_mat : option endo) (log : list string) :
  rec self <> "nodes" ->
  let ax := generate_axon self in
  let n := List.length (get_myelin_conductance ax) in
  let m := List.length (get_myelin_capacitance ax) in
  n <> m -> n <> 1%nat -> m <> 1%nat ->
  exists g msg self',
    get_myelin_properties self endo_mat log
    = (Raise (ValueError msg), self', log, [])
    /\ g_mye self' = Some g
    /\ List.length g = n
    /\ c_mye self' = Some (get_myelin_capacitance ax)
    /\ f_mye self' = f_mye self.
Proof.
  intros Hrec ax n m Hnm Hn Hm.
  rewrite (get_myelin_properties_conductance self endo_mat log Hrec).
  cbv zeta. fold ax.
  set (g := match endo_mat with Some e0 => _ | None => _ end).
  assert (Hg : List.length g = n)
    by (unfold g; destruct endo_mat; [apply length_map | reflexivity]).
  assert (Hdiv : exists msg,
            np_divide g (map (fun x => 2 * Np.pi * x) (get_myelin_capacitance ax)) []
            = (Raise (ValueError msg), [])).
  { unfold np_divide, broadcast. rewrite length_map, Hg. fold m.
    destruct (Nat.eqb_spec n m) as [E|_]; [contradiction|].
    assert (Hm' : List.length (map (fun x => 2 * Np.pi * x)
                                 (get_myelin_capacitance ax)) = m)
      by apply length_map.
    destruct (map (fun x => 2 * Np.pi * x) (get_myelin_capacitance ax))
      as [|y1 [|y2 ys]]; destruct g as [|x1 [|x2 xs]];
      simpl in Hg, Hm'; try (exfalso; lia); eexists; reflexivity. }
  destruct Hdiv as [msg Ediv]. rewrite Ediv.
  exists g, msg. eexists. split; [reflexivity|].
  repeat split. exact Hg.
Qed.

End MoreMyelinProperties.

Lemma sentinel_removed_witness :
  exists g f self' warnings,
    get_myelin_properties (Demo.myel 6) (Some (MatName "endoneurium_ranck")) []
    = (Ok (Some (g, [1; 2; 4]%Q, f)), self', [], warnings)
    /\ g_mye self' = Some g
    /\ List.length g = 3%nat
    /\ Forall (fun x => Np.isclose x sentinel = false) g.
Proof.
  assert (Hrec : rec (Demo.myel 6) <> "nodes") by discriminate.
  pose proof (sentinel_removed (Demo.myel 6) (MatName "endoneurium_ranck") []
                Hrec) as W.
  cbv zeta in W.
  specialize (W ltac:(reflexivity) ltac:(reflexivity)).
  destruct W as [g [f [self' [w W]]]].
  exists g, f, self', w. exact W.
Defined.

Lemma shape_mismatch_leaves_partial_state_witness :
  exists g msg self',
    get_myelin_properties (H2 := Demo.mismatched_factory) (Demo.myel 6) None []
    = (Raise (ValueError msg), self', [], [])
    /\ g_mye self' = Some g
    /\ List.length g = 3%nat
    /\ c_mye self' = Some [1; 2]%Q
    /\ f_mye self' = None.
Proof.
  assert (Hrec : rec (Demo.myel 6) <> "nodes") by discriminate.
  destruct (shape_mismatch_leaves_partial_state
              (H2 := Demo.mismatched_factory) (Demo.myel 6) None [] Hrec)
    as [g [msg [self' W]]]; try discriminate.
  exists g, msg, self'. exact W.
Defined.

(** ** plot_Nav_states *)

(** X19.  [plot_Nav_states] cannot complete: its [values] list is empty,
    so the first [values[i]] of the loop raises [IndexError].  By then the
    warning has been logged and the axes have only received the two axis
    limits; no state, arrow or label is ever drawn. *)
Theorem plot_Nav_states_always_raises (log : list string) :
  plot_Nav_states log
  = (Raise IndexError,
     [NavSetXlim (- (34 # 10)) (34 # 10); NavSetYlim (- (15 # 10)) (15 # 10)],
     (log ++ ["plot_Nav_states is not fully implemented"])%list).
Proof. reflexivity. Qed.

(** * Callers of the conductivity, capacitance and block-summary methods *)

Section AdmittanceFacts.

Context {axon : Type} `{AxonResults axon}.
Context `{UnitsModule} `{UnitsOfNonFinite} `{MiscModule} `{AdmittanceModule}.
Implicit Types self : fascicle_results (axon := axon).

(** X20.  [get_membrane_complexe_admitance] does not pass on the [None] of
    [get_membrane_conductivity]: on a fascicle whose parameter groups and
    [axons_type] array are present, one unavailable conductivity sample
    (at the default unit "S/cm**2") makes the admittance call raise
    [TypeError], for every requested unit, before any array division. *)
Theorem admittance_needs_every_sample self f x t unit mem_th um mm types
    warnings :
  param_model self "unmyelinated_param" = Ok um ->
  param_model self "myelinated_param" = Ok mm ->
  array_attr self "axons_type" = Ok types ->
  axon_entries_ok self = true ->
  (exists k, In k (axon_keys self)
             /\ sample_at self x t "S/cm**2" mem_th k = None) ->
  get_membrane_conductivity self x t "S/cm**2" mem_th = Ok None
  /\ Admittance.get_membrane_complexe_admitance self f x t unit mem_th warnings
     = (Raise TypeError, warnings).
Proof.
  intros Eu Em Et Hok [k [Hk Ek]].
  assert (Eg : get_membrane_conductivity self x t "S/cm**2" mem_th = Ok None).
  { rewrite (get_membrane_conductivity_spec self x t "S/cm**2" mem_th Hok).
    f_equal. apply all_some_none. rewrite <- Ek. apply in_map. exact Hk. }
  split; [exact Eg|].
  unfold Admittance.get_membrane_complexe_admitance, get_membrane_capacitance.
  unfold wbind, lift.
  rewrite Eu, Em. cbn [bind]. cbn [str_in String.prefix orb]. cbn [bind].
  rewrite Et. rewrite Eg. reflexivity.
Qed.

End AdmittanceFacts.

Section SummaryConsistency.

Context {axon : Type} `{AxonResults axon}.
Implicit Types self : fascicle_results (axon := axon).

Lemma get_block_summary_run self AP_start freq tm tu :
  NoDup (keys self) ->
  axon_entries_ok self = true ->
  get_block_summary self AP_start freq tm tu
  = Ok (map (summarize_entry AP_start freq tm tu) self).
Proof.
  intros Hnd Hok.
  unfold get_block_summary. rewrite get_axons_key_all. cbn [bind].
  unfold axon_keys.
  apply (get_block_summary_loop_spec AP_start freq tm tu self []).
  - exact Hnd.
  - intros k e Hin Eax.
    assert (Hk : In k (axon_keys self)).
    { unfold axon_keys. apply filter_In. split; [|exact Eax].
      change k with (fst (k, e)). apply in_map. exact Hin. }
    destruct (axon_entries_ok_at self Hok k Hk) as [a Ea].
    unfold axon_at in Ea. rewrite (lookup_In_NoDup self k e Hnd Hin) in Ea.
    destruct e; try discriminate. eauto.
Qed.

Lemma axons_after_summary self AP_start freq t ks :
  (forall k, In k ks -> is_axon_key k = true) ->
  axons_at (map (summarize_entry AP_start freq t t) self) ks
  = summarized_keys self AP_start freq t ks.
Proof.
  induction ks as [|k rest IH]; intros Hax; [reflexivity|].
  cbn [axons_at summarized_keys flat_map].
  fold (axons_at (map (summarize_entry AP_start freq t t) self) rest).
  fold (summarized_keys self AP_start freq t rest).
  rewrite IH by (intros k' Hk'; apply Hax; right; exact Hk').
  f_equal. unfold axon_at. rewrite lookup_summarized.
  destruct (lookup k self) as [e|]; [|reflexivity].
  cbn [option_map]. unfold summarize_entry.
  destruct e; try reflexivity.
  rewrite (Hax k (or_introl eq_refl)). cbn [snd].
  destruct (eq_bool (myelinated a) true); reflexivity.
Qed.

(** X21.  The two block-summary passes agree: with one refractory period
    [t] for both fibre types, the six lists returned by
    [get_block_summary_axons] are read from exactly the axons that
    [get_block_summary] leaves in the container, in axon-key order. *)
Theorem summary_lists_match_stored_axons self AP_start freq t :
  NoDup (keys self) ->
  axon_entries_ok self = true ->
  exists self',
    get_block_summary self AP_start freq t t = Ok self'
    /\ axon_keys self' = axon_keys self
    /\ get_block_summary_axons self AP_start freq t
       = Ok (lists_of (axons_at self' (axon_keys self'))).
Proof.
  intros Hnd Hok.
  exists (map (summarize_entry AP_start freq t t) self).
  split; [apply get_block_summary_run; assumption|].
  assert (Ek : axon_keys (map (summarize_entry AP_start freq t t) self)
               = axon_keys self).
  { unfold axon_keys, keys. rewrite map_map. f_equal.
    apply map_ext. intros ke. apply summarize_entry_key. }
  split; [exact Ek|].
  rewrite Ek, axons_after_summary.
  - apply get_block_summary_axons_spec. exact Hok.
  - intros k Hk. apply (axon_keys_are_keys self k Hk).
Qed.

End SummaryConsistency.

Lemma admittance_needs_every_sample_witness :
  Admittance.get_membrane_complexe_admitance Demo.fasc3_gap_typed 1 0 0 "S/m"
    (7 # 1000) [] = (Raise TypeError, []).
Proof.
  apply (admittance_needs_every_sample Demo.fasc3_gap_typed 1 0 0 "S/m" (7 # 1000)
           "Rattay_Aberham" "MRG" [0; 0; 1]%Q [] eq_refl eq_refl eq_refl eq_refl).
  exists "axon1". split; [|reflexivity].
  simpl. right. left. reflexivity.
Defined.

Lemma summary_lists_match_stored_axons_witness :
  exists self',
    get_block_summary Demo.fasc4 1 None 1 1 = Ok self'
    /\ axon_keys self' = axon_keys Demo.fasc4
    /\ get_block_summary_axons Demo.fasc4 1 None 1
       = Ok (lists_of (axons_at self' (axon_keys self'))).
Proof.
  assert (Hnd : NoDup (keys Demo.fasc4)).
  { repeat (constructor; [simpl; intuition discriminate|]). constructor. }
  apply (summary_lists_match_stored_axons Demo.fasc4 1 None 1 Hnd eq_refl).
Defined.

(** ** A fascicle without axons *)

Section EmptyFascicle.

Context {axon : Type} `{AxonResults axon}.
Implicit Types self : fascicle_results (axon := axon).


End EmptyFascicle.

